(** * Student-records service (dz3.py): session store, read-through cache,
      background tasks and the gateway handlers that compose them.

    The Python module is embedded shallowly: every function of dz3.py that
    the properties below talk about is a Rocq function of the same name,
    stateful code runs in a small state-and-exception monad over a [World]
    record (tables of the SQLite database, the Redis keyspace, the clock
    and the time zone, the file system, the queue of background tasks and
    an event trace).

    Two statements of the module are short of a closing parenthesis (the
    call [User(...)] in [register_user] and the assignment of
    [token_expiry] in [login_user]); they are read with it in place. *)

From Stdlib Require Import ZArith Lia List Ascii Permutation Sorted.
From stdpp Require Import base option list gmap strings pretty.

Local Open Scope Z_scope.

(** ** Cache keys: [get_cache_key] *)

(** Values that the handlers pass as keyword arguments: [int] (skip, limit,
    student_id) and [str] (faculty). *)
Inductive kwval : Type :=
  | KInt (n : Z)
  | KStr (s : string).

(** [f"{v}"]: the decimal numeral of an [int], a [str] itself. *)
Definition py_str (v : kwval) : string :=
  match v with
  | KInt n => pretty n
  | KStr s => s
  end.

(** [**kwargs] is a dict: an insertion-ordered list of items whose keys are
    pairwise distinct. *)
Definition kwargs_t : Type := list (string * kwval).

Definition kwargs_ok (kw : kwargs_t) : Prop := NoDup (kw.*1).

(** Tuples [(k, v)] of a dict never agree on [k], so [sorted] orders them by
    the key alone, with Python's code-point order on [str]. *)
Definition item_le (a b : string * kwval) : bool := String.leb a.1 b.1.

Fixpoint insert_item (a : string * kwval) (l : kwargs_t) : kwargs_t :=
  match l with
  | [] => [a]
  | b :: l' => if item_le a b then a :: b :: l' else b :: insert_item a l'
  end.

(** [sorted(kwargs.items())], as a stable insertion sort. *)
Definition sorted (kw : kwargs_t) : kwargs_t := foldr insert_item [] kw.

(** [key += f":{k}={v}"] *)
Definition key_part (a : string * kwval) : string :=
  ":" +:+ a.1 +:+ "=" +:+ py_str a.2.

Definition get_cache_key (endpoint : string) (kw : kwargs_t) : string :=
  fold_left (fun key a => key +:+ key_part a) (sorted kw) ("cache:" +:+ endpoint).

(** ** Python primitives used by the module *)

(** Slice bounds as CPython adjusts them (step 1): a negative bound counts
    from the end, and both are clipped to [0, len]. *)
Definition adjust_index (len i : Z) : Z :=
  if i <? 0 then Z.max 0 (i + len) else Z.min i len.

(** [l[start:stop]] *)
Definition py_slice {A} (l : list A) (start stop : Z) : list A :=
  let len := Z.of_nat (length l) in
  let a := adjust_index len start in
  let b := adjust_index len stop in
  take (Z.to_nat (b - a)) (drop (Z.to_nat a) l).

(** *** [int(s)] on a [str]

    The cells of a CSV file are text, and a [string] holds the UTF-8 bytes
    of a text. The tables are those of Unicode 14.0, and the limit on the
    number of digits is the default of CPython 3.11. *)

Definition byte_value (a : ascii) : Z := Z.of_N (N_of_ascii a).

(** The payload of a continuation byte [10xxxxxx]. *)
Definition utf8_cont (a : ascii) : option Z :=
  let n := byte_value a in
  if (128 <=? n) && (n <? 192) then Some (n - 128) else None.

(** The code points of a text; [None] when the bytes are not the UTF-8 of
    a [str] (a stray or missing continuation byte, an overlong form, a
    surrogate, a value above U+10FFFF). *)
Fixpoint utf8_decode (s : string) : option (list Z) :=
  match s with
  | EmptyString => Some []
  | String a r =>
      let n := byte_value a in
      if n <? 128 then cons n <$> utf8_decode r
      else if n <? 192 then None
      else if n <? 224 then
        match r with
        | String b r1 =>
            c1 ← utf8_cont b;
            let cp := (n - 192) * 64 + c1 in
            if cp <? 128 then None else cons cp <$> utf8_decode r1
        | _ => None
        end
      else if n <? 240 then
        match r with
        | String b (String c r2) =>
            c1 ← utf8_cont b; c2 ← utf8_cont c;
            let cp := (n - 224) * 4096 + c1 * 64 + c2 in
            if (cp <? 2048) || (55296 <=? cp) && (cp <=? 57343) then None
            else cons cp <$> utf8_decode r2
        | _ => None
        end
      else if n <? 248 then
        match r with
        | String b (String c (String d r3)) =>
            c1 ← utf8_cont b; c2 ← utf8_cont c; c3 ← utf8_cont d;
            let cp := (n - 240) * 262144 + c1 * 4096 + c2 * 64 + c3 in
            if (cp <? 65536) || (1114111 <? cp) then None
            else cons cp <$> utf8_decode r3
        | _ => None
        end
      else None
  end.

(** The blanks of Unicode above U+007F ([str.isspace]). *)
Definition unicode_blanks : list Z :=
  [133; 160; 5760; 8192; 8193; 8194; 8195; 8196; 8197; 8198; 8199; 8200;
   8201; 8202; 8232; 8233; 8239; 8287; 12288].

(** The digit zero of every script with decimal digits (category Nd) above
    U+007F; the nine other digits follow it. *)
Definition unicode_zeros : list Z :=
  [1632; 1776; 1984; 2406; 2534; 2662; 2790; 2918; 3046; 3174; 3302; 3430;
   3558; 3664; 3792; 3872; 4160; 4240; 6112; 6160; 6470; 6608; 6784; 6800;
   6992; 7088; 7232; 7248; 42528; 43216; 43264; 43472; 43504; 43600; 44016;
   65296; 66720; 68912; 69734; 69872; 69942; 70096; 70384; 70736; 70864;
   71248; 71360; 71472; 71904; 72016; 72784; 73040; 73120; 92768; 92864;
   93008; 120782; 120792; 120802; 120812; 120822; 123200; 123632; 125264;
   130032].

Definition unicode_decimal (c : Z) : option Z :=
  (λ z, c - z) <$> find (λ z, (z <=? c) && (c <? z + 10)) unicode_zeros.

(** What [int] does to a character before it parses: ASCII stays, a blank
    becomes a space, a decimal digit of any script its ASCII digit, and
    anything else a question mark, which no numeral contains. *)
Definition to_ascii (c : Z) : Z :=
  if c <? 127 then c
  else if bool_decide (c ∈ unicode_blanks) then 32
  else match unicode_decimal c with
       | Some d => 48 + d
       | None => 63
       end.

(** [Py_ISSPACE]: space, and tab to carriage return. *)
Definition py_isspace (c : Z) : bool := (c =? 32) || (9 <=? c) && (c <=? 13).

Definition is_digit (c : Z) : bool := (48 <=? c) && (c <=? 57).

(** The scan over the numeral: digits, with single underscores between
    them. It gives the digits read, whether the last character read was an
    underscore, and what follows the numeral; [None] on two underscores in
    a row. *)
Fixpoint scan_digits (l : list Z) (prev_underscore : bool) (digits : list Z)
  : option (list Z * bool * list Z) :=
  match l with
  | c :: l' =>
      if c =? 95 then
        if prev_underscore then None else scan_digits l' true digits
      else if is_digit c then scan_digits l' false (digits ++ [c - 48])
      else Some (digits, prev_underscore, l)
  | [] => Some (digits, prev_underscore, [])
  end.

Definition max_str_digits : Z := 4300.

(** The value of a numeral without its sign: no underscore at its start or
    end, at least one digit, at most [max_str_digits] of them, and only
    blanks after it. *)
Definition parse_digits (l : list Z) : option Z :=
  match l with
  | 95 :: _ => None
  | _ =>
      match scan_digits l false [] with
      | Some (digits, prev_underscore, rest) =>
          if prev_underscore then None
          else if bool_decide (digits = []) then None
          else if max_str_digits <? Z.of_nat (length digits) then None
          else if forallb py_isspace rest
          then Some (fold_left (λ acc d, 10 * acc + d) digits 0)
          else None
      | None => None
      end
  end.

Fixpoint skip_spaces (l : list Z) : list Z :=
  match l with
  | c :: l' => if py_isspace c then skip_spaces l' else l
  | [] => []
  end.

(** [int(s)] in base 10; [None] is ValueError. *)
Definition py_int (s : string) : option Z :=
  match utf8_decode s with
  | None => None
  | Some cps =>
      match skip_spaces (to_ascii <$> cps) with
      | 43 :: l => parse_digits l
      | 45 :: l => Z.opp <$> parse_digits l
      | l => parse_digits l
      end
  end.

(** ** Data model *)

(** Rows of the [students] table. *)
Record Student : Type := mkStudent {
  id : Z;
  surname : string;
  name : string;
  faculty : string;
  course : string;
  grade : Z
}.

(** Rows of the [users] table; the two nullable columns are options. *)
Record User : Type := mkUser {
  user_id : Z;
  username : string;
  password : string;
  session_token : option string;
  token_expiry : option Z
}.

Record StudentCreate : Type := mkStudentCreate {
  sc_surname : string;
  sc_name : string;
  sc_faculty : string;
  sc_course : string;
  sc_grade : Z
}.

(** A field of [StudentUpdate]: left out of the request body, sent as
    [null], or sent with a value. [dict(exclude_unset=True)] keeps the last
    two. *)
Inductive field (A : Type) : Type :=
  | Unset
  | SetNone
  | SetTo (a : A).
Arguments Unset {A}.
Arguments SetNone {A}.
Arguments SetTo {A} a.

Record StudentUpdate : Type := mkStudentUpdate {
  su_surname : field string;
  su_name : field string;
  su_faculty : field string;
  su_course : field string;
  su_grade : field Z
}.

Record UserRegister : Type := mkUserRegister {
  ur_username : string;
  ur_password : string
}.

Record UserLogin : Type := mkUserLogin {
  ul_username : string;
  ul_password : string
}.

(** JSON documents. *)
#[warnings="-register-all"]
Inductive json : Type :=
  | JNull
  | JInt (n : Z)
  | JStr (s : string)
  | JList (l : list json)
  | JObj (fields : list (string * json)).

(** Python values that handlers return and hand to the cache: instances of
    the mapped class [Student], lists of them, and plain JSON-like data
    (dicts, lists, what [json.loads] gives back). *)
Inductive pyval : Type :=
  | PStudent (s : Student)
  | PStudents (l : list Student)
  | PJson (j : json).

Inductive exn : Type :=
  | HTTPException (status_code : Z) (detail : string)
  | TypeError (msg : string)
  | KeyError (key : string)
  | ValueError
  | FileNotFoundError
  | OperationalError
  | IntegrityError
  | OverflowError.

Inductive result (A : Type) : Type :=
  | Ok (a : A)
  | Raise (e : exn).
Arguments Ok {A} a.
Arguments Raise {A} e.

(** [json.dumps(data)]: the encoder knows dicts, lists, strings and numbers;
    an instance of a mapped class has no encoding and raises TypeError, so a
    list of students is encodable only when it is empty. *)
Definition json_dumps (data : pyval) : result json :=
  match data with
  | PJson j => Ok j
  | PStudents [] => Ok (JList [])
  | PStudents (_ :: _) | PStudent _ =>
      Raise (TypeError "Object of type Student is not JSON serializable")
  end.

(** A Redis string with its deadline (microseconds on the clock of the
    world). The value kept is the document that the stored JSON text
    denotes: [json.loads (json.dumps d)] is [d], and the text of a document
    is never empty. *)
Record centry : Type := mkCentry {
  c_value : json;
  c_deadline : Z
}.

(** Rows that [csv.DictReader] yields: column name to cell. *)
Definition csv_row : Type := list (string * string).

Inductive task : Type :=
  | TaskLoadCsv (file_path : string)
  | TaskDeleteStudents (student_ids : list Z).

(** What an observer outside the process can count: SELECTs per table,
    calls of [invalidate_cache], lines printed. The line of an [except]
    clause is [prefix] followed by [str(e)]; that text is made by the
    library that raised [e], and the event keeps [e] itself. *)
Inductive event : Type :=
  | ESelect (table : string)
  | EInvalidate (endpoint_prefix : string)
  | EPrint (line : string)
  | EPrintError (prefix : string) (e : exn).

(** The time zone of the process: its standard offset from UTC, and the
    periods [(start, end)] of daylight saving time, [start] included and
    [end] not, during which the offset is one hour more. Seconds. *)
Record tz : Type := mkTz {
  std_offset : Z;
  dst_periods : list (Z * Z)
}.

Record World : Type := mkWorld {
  students : list Student;
  users : list User;
  db_up : bool;
  redis : gmap string centry;
  clock : Z;
  zone : tz;
  files : gmap string (list csv_row);
  tasks : list task;
  trace : list event
}.

(** ** The monad of the embedding

    A computation takes the world and gives a result (a value or a raised
    exception) with the world it leaves behind: what Python code wrote
    before it raised stays written. *)

Definition M (A : Type) : Type := World → result A * World.

Global Instance M_ret : MRet M := λ A a w, (Ok a, w).
Global Instance M_bind : MBind M := λ A B f m w,
  match m w with
  | (Ok a, w') => f a w'
  | (Raise e, w') => (Raise e, w')
  end.

Definition raise {A} (e : exn) : M A := λ w, (Raise e, w).
Definition gets {A} (f : World → A) : M A := λ w, (Ok (f w), w).
Definition modify (f : World → World) : M unit := λ w, (Ok tt, f w).

(** [try: body except Exception as e: handler(e)] *)
Definition try_except {A} (body : M A) (handler : exn → M A) : M A := λ w,
  match body w with
  | (Ok a, w') => (Ok a, w')
  | (Raise e, w') => handler e w'
  end.

Definition set_students (l : list Student) (w : World) : World :=
  mkWorld l (users w) (db_up w) (redis w) (clock w) (zone w) (files w) (tasks w) (trace w).
Definition set_users (l : list User) (w : World) : World :=
  mkWorld (students w) l (db_up w) (redis w) (clock w) (zone w) (files w) (tasks w) (trace w).
Definition set_redis (r : gmap string centry) (w : World) : World :=
  mkWorld (students w) (users w) (db_up w) r (clock w) (zone w) (files w) (tasks w) (trace w).
Definition set_clock (t : Z) (w : World) : World :=
  mkWorld (students w) (users w) (db_up w) (redis w) t (zone w) (files w) (tasks w) (trace w).
Definition set_tasks (q : list task) (w : World) : World :=
  mkWorld (students w) (users w) (db_up w) (redis w) (clock w) (zone w) (files w) q (trace w).
Definition set_trace (t : list event) (w : World) : World :=
  mkWorld (students w) (users w) (db_up w) (redis w) (clock w) (zone w) (files w) (tasks w) t.

Definition emit (e : event) : M unit :=
  modify (λ w, set_trace (trace w ++ [e]) w).

(** [print(line)] *)
Definition print (line : string) : M unit := emit (EPrint line).

(** [print(f"{prefix}{str(e)}")] *)
Definition print_error (prefix : string) (e : exn) : M unit :=
  emit (EPrintError prefix e).

(** ** Clock

    [clock] is the POSIX time of the world in microseconds, the unit that
    [datetime] counts in. A [datetime] of this module is naive: it shows
    the wall clock of the zone of the process, here in microseconds too. *)

Definition second : Z := 1000000.

(** [timedelta(days=d)], a span on the wall clock. *)
Definition timedelta_days (d : Z) : Z := d * 86400 * second.

(** The offset of the zone from UTC at the instant [u], in seconds. *)
Definition utcoffset (z : tz) (u : Z) : Z :=
  std_offset z
  + if existsb (λ p, (p.1 <=? u) && (u <? p.2)) (dst_periods z)
    then 3600 else 0.

(** [local(u)]: what the wall clock shows at the instant [u], in seconds. *)
Definition local (z : tz) (u : Z) : Z := u + utcoffset z u.

Definition max_fold_seconds : Z := 24 * 3600.

(** [local_to_seconds]: the instant at which the wall clock shows [t]. It
    tries the offset [a] found at [t] and a second offset [b]; of two
    instants that show [t], [fold] tells which one is meant, and a [t] that
    the wall clock skips is moved across the gap. *)
Definition local_to_seconds (z : tz) (t : Z) (fold : bool) : Z :=
  let a := local z t - t in
  let u1 := t - a in
  let t1 := local z u1 in
  let second_offset (b : Z) :=
    let u2 := t - b in
    let t2 := local z u2 in
    if t2 =? t then u2
    else if t1 =? t then u1
    else if fold then Z.min u1 u2 else Z.max u1 u2 in
  if t1 =? t then
    let u2 := if fold then u1 + max_fold_seconds else u1 - max_fold_seconds in
    let b := local z u2 - u2 in
    if a =? b then u1 else second_offset b
  else second_offset (t1 - u1).

(** [datetime.now()] *)
Definition datetime_now (w : World) : Z :=
  local (zone w) (clock w `div` second) * second + clock w `mod` second.

(** [t.timestamp()] of a naive [t] that an addition gave (its [fold] is
    0), in microseconds. Python returns it as a float of seconds; cut to
    whole seconds, or compared with a whole number of seconds, that float
    gives what the exact value gives as long as the seconds stay below
    2^34 (the year 2514). *)
Definition timestamp (z : tz) (t : Z) : Z :=
  local_to_seconds z (t `div` second) false * second + t `mod` second.

(** [int(x)] of a timestamp [x]: the fraction of a second is cut off,
    towards zero. *)
Definition int_timestamp (t : Z) : Z := Z.quot t second.

(** [datetime.now().timestamp() > n] for an integer [n] of seconds, at the
    POSIX time [t]: the timestamp of [datetime.now()] is the clock again. *)
Definition timestamp_gt (t n : Z) : bool := n * second <? t.

(** ** Redis: the part of the client that the module calls

    The server is taken to be reachable: the calls below do not raise. *)

Definition live (now : Z) (e : centry) : bool := now <? c_deadline e.

(** What a reader finds under [key]: a key past its deadline is gone. *)
Definition read_entry (now : Z) (r : gmap string centry) (key : string)
  : option json :=
  match r !! key with
  | Some e => if live now e then Some (c_value e) else None
  | None => None
  end.

Definition cache_lookup (w : World) (key : string) : option json :=
  read_entry (clock w) (redis w) key.

(** [redis_client.get(key)] *)
Definition redis_get (key : string) : M (option json) :=
  gets (λ w, cache_lookup w key).

(** [redis_client.setex(key, expire, value)], [expire] in seconds. *)
Definition redis_setex (key : string) (expire : Z) (value : json) : M unit :=
  modify (λ w, set_redis (<[key := mkCentry value (clock w + expire * second)]> (redis w)) w).

(** [redis_client.delete], called with the keys unpacked. *)
Definition redis_delete (keys : list string) : M unit :=
  modify (λ w, set_redis (foldr delete (redis w) keys) w).

(** *** Glob patterns of [KEYS]

    The matcher of the Redis server: [*] any run of characters, [?] one
    character, a class in brackets (with [^] for the complement, ranges and
    escapes), a backslash before a character taken as it is. The patterns
    of this module begin with the literal "cache:". *)

Inductive gtok : Type :=
  | GStar
  | GAny
  | GLit (c : ascii)
  | GClass (neg : bool) (items : list (ascii * ascii)).

Definition class_range (a b : ascii) : ascii * ascii :=
  if Ascii.leb a b then (a, b) else (b, a).

(** One pass over the pattern; [cls] is the class being read, if any. A
    class that the pattern does not close ends with the pattern. *)
Fixpoint glob_lex (cls : option (bool * list (ascii * ascii))) (p : string)
  : list gtok :=
  match cls with
  | None =>
      match p with
      | EmptyString => []
      | String "*" r => GStar :: glob_lex None r
      | String "?" r => GAny :: glob_lex None r
      | String "[" (String "^" r) => glob_lex (Some (true, [])) r
      | String "[" r => glob_lex (Some (false, [])) r
      | String "\" (String c r) => GLit c :: glob_lex None r
      | String c r => GLit c :: glob_lex None r
      end
  | Some (neg, items) =>
      match p with
      | EmptyString => [GClass neg items]
      | String "\" (String c r) => glob_lex (Some (neg, (c, c) :: items)) r
      | String "]" r => GClass neg items :: glob_lex None r
      | String a (String "-" (String b r)) =>
          glob_lex (Some (neg, class_range a b :: items)) r
      | String c r => glob_lex (Some (neg, (c, c) :: items)) r
      end
  end%char.

Definition in_class (c : ascii) (items : list (ascii * ascii)) : bool :=
  existsb (λ r, Ascii.leb r.1 c && Ascii.leb c r.2) items.

Fixpoint glob_tokens (ts : list gtok) (s : string) : bool :=
  match ts with
  | [] => match s with EmptyString => true | _ => false end
  | GStar :: ts' =>
      (fix star (s : string) : bool :=
         glob_tokens ts' s ||
         match s with
         | String _ s' => star s'
         | EmptyString => false
         end) s
  | GAny :: ts' =>
      match s with
      | String _ s' => glob_tokens ts' s'
      | EmptyString => false
      end
  | GLit c :: ts' =>
      match s with
      | String d s' => bool_decide (c = d) && glob_tokens ts' s'
      | EmptyString => false
      end
  | GClass neg items :: ts' =>
      match s with
      | String d s' => xorb neg (in_class d items) && glob_tokens ts' s'
      | EmptyString => false
      end
  end.

Definition glob_match (pattern s : string) : bool :=
  glob_tokens (glob_lex None pattern) s.

(** [redis_client.keys(pattern)]: the keys not yet past their deadline that
    the pattern matches. *)
Definition redis_keys (pattern : string) : M (list string) :=
  gets (λ w,
    (map_to_list
       (filter (λ kv, Is_true (live (clock w) kv.2 && glob_match pattern kv.1))
               (redis w))).*1).

(** ** Cache functions of the module *)

(** [get_cached_response]: Python's [None] and the document [null] are the
    same value for the caller, [JNull]. *)
Definition get_cached_response (cache_key : string) : M json :=
  cached ← redis_get cache_key;
  match cached with
  | Some doc => mret doc
  | None => mret JNull
  end.

(** [set_cached_response(cache_key, data, expire)]; the handlers leave
    [expire] at its default, 300. *)
Definition set_cached_response (cache_key : string) (data : pyval)
    (expire : Z) : M unit :=
  match json_dumps data with
  | Ok doc => redis_setex cache_key expire doc
  | Raise e => raise e
  end.

Definition default_expire : Z := 300.

Definition invalidate_cache (endpoint_prefix : string) : M unit :=
  emit (EInvalidate endpoint_prefix);;
  keys ← redis_keys ("cache:" +:+ endpoint_prefix +:+ ":*");
  match keys with
  | [] => mret tt
  | _ :: _ => redis_delete keys
  end.

(** A call [invalidate_cache(p, **kw)]. The function has the single
    parameter [endpoint_prefix] and takes no [**kwargs]: binding a keyword
    argument raises TypeError before the body runs. *)
Definition invalidate_cache_call (endpoint_prefix : string) (kw : kwargs_t)
  : M unit :=
  match kw with
  | [] => invalidate_cache endpoint_prefix
  | (k, _) :: _ =>
      raise (TypeError
        ("invalidate_cache() got an unexpected keyword argument '" +:+ k +:+ "'"))
  end.

(** ** Passwords *)

Definition hash_password (password : string) : string := password +:+ "_hashed".

Definition verify_password (plain_password hashed_password : string) : bool :=
  bool_decide (hash_password plain_password = hashed_password).

(** ** Database access

    Every statement sent to SQLite raises OperationalError when the
    database cannot be reached; a SELECT is recorded in the trace. An
    [int] is bound to SQLite as a 64-bit INTEGER: [load_from_csv] has the
    OverflowError of a grade beyond that range, the functions that take a
    single grade or id are written for values within it. *)

Definition db_access : M unit := λ w,
  if db_up w then (Ok tt, w) else (Raise OperationalError, w).

Definition select (table : string) : M unit :=
  db_access;; emit (ESelect table).

(** [db.commit()] writing the pending changes [f]. *)
Definition commit (f : World → World) : M unit :=
  db_access;; modify f.

(** The values that an INTEGER column of SQLite takes: 64 bits, signed.
    Binding another [int] raises OverflowError. *)
Definition sqlite_integer (n : Z) : bool := (- 2 ^ 63 <=? n) && (n <? 2 ^ 63).

(** The rowid that SQLite gives to a new row: one more than the largest
    in the table. *)
Definition next_rowid (ids : list Z) : Z := 1 + foldr Z.max 0 ids.

(** Header of the CSV files. *)
Definition col_surname : string := "Фамилия".
Definition col_name : string := "Имя".
Definition col_faculty : string := "Факультет".
Definition col_course : string := "Курс".
Definition col_grade : string := "Оценка".

(** [row[key]] *)
Definition row_get (row : csv_row) (key : string) : result string :=
  match find (λ kv, bool_decide (kv.1 = key)) row with
  | Some kv => Ok kv.2
  | None => Raise (KeyError key)
  end.

(** The body of the loop of [load_from_csv]: the student built from a row
    (its id comes at commit). *)
Definition student_of_row (row : csv_row) : result StudentCreate :=
  match row_get row col_surname with
  | Raise e => Raise e
  | Ok sn =>
  match row_get row col_name with
  | Raise e => Raise e
  | Ok nm =>
  match row_get row col_faculty with
  | Raise e => Raise e
  | Ok fc =>
  match row_get row col_course with
  | Raise e => Raise e
  | Ok cr =>
  match row_get row col_grade with
  | Raise e => Raise e
  | Ok g =>
  match py_int g with
  | None => Raise ValueError
  | Some n => Ok (mkStudentCreate sn nm fc cr n)
  end end end end end end.

Fixpoint students_of_rows (rows : list csv_row) : result (list StudentCreate) :=
  match rows with
  | [] => Ok []
  | row :: rows' =>
      match student_of_row row with
      | Raise e => Raise e
      | Ok s =>
          match students_of_rows rows' with
          | Raise e => Raise e
          | Ok l => Ok (s :: l)
          end
      end
  end.

(** The row that an INSERT of [s] adds to [table]. *)
Definition new_student (table : list Student) (s : StudentCreate) : Student :=
  mkStudent (next_rowid (id <$> table)) (sc_surname s) (sc_name s)
            (sc_faculty s) (sc_course s) (sc_grade s).

(** The rows that a commit inserts for the pending new students, with
    their rowids. *)
Fixpoint insert_rows (table : list Student) (new : list StudentCreate)
  : list Student :=
  match new with
  | [] => table
  | s :: new' =>
      insert_rows (table ++ [new_student table s]) new'
  end.

Definition set_field {A} (f : field A) (old : A) : A :=
  match f with
  | SetTo a => a
  | _ => old
  end.

Definition is_null {A} (f : field A) : bool :=
  match f with
  | SetNone => true
  | _ => false
  end.

(** [setattr(student, key, value)] for the fields sent in the body. *)
Definition apply_update (s : Student) (d : StudentUpdate) : Student :=
  mkStudent (id s)
    (set_field (su_surname d) (surname s)) (set_field (su_name d) (name s))
    (set_field (su_faculty d) (faculty s)) (set_field (su_course d) (course s))
    (set_field (su_grade d) (grade s)).

(** A column of [students] would become NULL. *)
Definition nulls_column (d : StudentUpdate) : bool :=
  is_null (su_surname d) || is_null (su_name d) || is_null (su_faculty d)
  || is_null (su_course d) || is_null (su_grade d).

Definition replace_student (s' : Student) (table : list Student) : list Student :=
  (λ s, if bool_decide (id s = id s') then s' else s) <$> table.

Definition replace_user (u' : User) (table : list User) : list User :=
  (λ u, if bool_decide (user_id u = user_id u') then u' else u) <$> table.

Definition with_session (u : User) (tok : option string) (exp : option Z) : User :=
  mkUser (user_id u) (username u) (password u) tok exp.

(** [if not session_token] on a [str]. *)
Definition falsy (s : string) : bool := bool_decide (s = "").

(** [user.token_expiry and ...]: [None] and [0] are both false. *)
Definition truthy_expiry (e : option Z) : bool :=
  match e with
  | Some n => negb (n =? 0)
  | None => false
  end.

(** [User.session_token == session_token]: NULL equals nothing. *)
Definition holds_token (tok : string) (u : User) : bool :=
  bool_decide (session_token u = Some tok).

(** The values of a column without repetitions. SQL leaves the order of
    DISTINCT open; they are taken in the order of their first occurrence. *)
Fixpoint distinct (l : list string) : list string :=
  match l with
  | [] => []
  | x :: l' => x :: filter (λ y, y ≠ x) (distinct l')
  end.

(** ** class StudentDatabase *)

Module StudentDatabase.

Definition insert_student (student : StudentCreate) : M Student :=
  table ← gets students;
  let db_student := new_student table student in
  commit (set_students (table ++ [db_student]));;
  select "students";;
  mret db_student.

Definition get_student (student_id : Z) : M Student :=
  select "students";;
  table ← gets students;
  match find (λ s, bool_decide (id s = student_id)) table with
  | Some student => mret student
  | None => raise (HTTPException 404 "Student not found")
  end.

Definition get_all_students : M (list Student) :=
  select "students";; gets students.

(** The commit stops at the NOT NULL constraint of the columns when a
    field was sent as [null]. *)
Definition update_student (student_id : Z) (student_data : StudentUpdate)
  : M Student :=
  student ← get_student student_id;
  let student' := apply_update student student_data in
  db_access;;
  (if nulls_column student_data then raise IntegrityError else mret tt);;
  modify (λ w, set_students (replace_student student' (students w)) w);;
  select "students";;
  mret student'.

Definition delete_student (student_id : Z) : M json :=
  student ← get_student student_id;
  commit (λ w, set_students
                 (filter (λ s, id s ≠ id student) (students w)) w);;
  mret (JObj [("message", JStr "Student deleted successfully")]).

(** The rows are converted while the file is read; the commit then binds
    every grade to an INTEGER parameter, and writes all rows or none. *)
Definition load_from_csv (file_path : string) : M unit :=
  fs ← gets files;
  match fs !! file_path with
  | None => raise FileNotFoundError
  | Some rows =>
      match students_of_rows rows with
      | Raise e => raise e
      | Ok new =>
          db_access;;
          if forallb (λ s, sqlite_integer (sc_grade s)) new
          then modify (λ w, set_students (insert_rows (students w) new) w)
          else raise OverflowError
      end
  end.

Definition delete_students_by_ids (student_ids : list Z) : M unit :=
  match student_ids with
  | [] => mret tt
  | _ :: _ =>
      commit (λ w, set_students
                     (filter (λ s, id s ∉ student_ids) (students w)) w)
  end.

Definition first_user (p : User → bool) : M (option User) :=
  select "users";;
  table ← gets users;
  mret (find p table).

Definition register_user (user : UserRegister) : M User :=
  existing_user ← first_user (λ u, bool_decide (username u = ur_username user));
  match existing_user with
  | Some _ => raise (HTTPException 400 "Username already registered")
  | None =>
      table ← gets users;
      let new_user :=
        mkUser (next_rowid (user_id <$> table)) (ur_username user)
               (hash_password (ur_password user)) None None in
      commit (set_users (table ++ [new_user]));;
      mret new_user
  end.

(** [token] is what [secrets.token_urlsafe(32)] returns in this call. *)
Definition login_user (user : UserLogin) (token : string) : M User :=
  db_user ← first_user (λ u, bool_decide (username u = ul_username user));
  match db_user with
  | Some u =>
      if verify_password (ul_password user) (password u) then
        now ← gets datetime_now;
        z ← gets zone;
        let u' := with_session u (Some token)
                    (Some (int_timestamp
                             (timestamp z (now + timedelta_days 1)))) in
        commit (λ w, set_users (replace_user u' (users w)) w);;
        mret u'
      else raise (HTTPException 401 "Incorrect username or password")
  | None => raise (HTTPException 401 "Incorrect username or password")
  end.

Definition logout_user (session_token : string) : M json :=
  user ← first_user (holds_token session_token);
  match user with
  | Some u =>
      commit (λ w, set_users (replace_user (with_session u None None) (users w)) w)
  | None => mret tt
  end;;
  mret (JObj [("message", JStr "Logged out successfully")]).

Definition get_current_user (session_token : string) : M (option User) :=
  if falsy session_token then mret None else
  user ← first_user (holds_token session_token);
  now ← gets clock;
  match user with
  | Some u =>
      if truthy_expiry (token_expiry u)
         && timestamp_gt now (default 0 (token_expiry u))
      then
        commit (λ w, set_users (replace_user (with_session u None None) (users w)) w);;
        mret None
      else mret (Some u)
  | None => mret None
  end.

Definition get_students_by_faculty (faculty_name : string) : M (list Student) :=
  select "students";;
  table ← gets students;
  mret (filter (λ s, faculty s = faculty_name) table).

Definition get_unique_courses : M (list string) :=
  select "students";;
  table ← gets students;
  mret (distinct (course <$> table)).

End StudentDatabase.

(** ** Dependency: the current user of a request *)

Definition unauthorized {A} (detail : string) : M A :=
  raise (HTTPException 401 detail).

(** [session_token] is the cookie of the request, [None] when it has none. *)
Definition get_current_user (session_token : option string) : M User :=
  match session_token with
  | None => unauthorized "Not authenticated"
  | Some tok =>
      if falsy tok then unauthorized "Not authenticated" else
      user ← StudentDatabase.get_current_user tok;
      match user with
      | Some u => mret u
      | None => unauthorized "Invalid or expired session token"
      end
  end.

(** ** Background tasks *)

Definition background_load_csv (file_path : string) : M unit :=
  try_except
    (print ("Starting CSV import from " +:+ file_path);;
     StudentDatabase.load_from_csv file_path;;
     print "CSV import completed successfully";;
     invalidate_cache "students";;
     invalidate_cache "faculties";;
     invalidate_cache "courses")
    (λ e, print_error "Error during CSV import: " e).

Definition background_delete_students (student_ids : list Z) : M unit :=
  try_except
    (print ("Starting deletion of " +:+ pretty (Z.of_nat (length student_ids))
            +:+ " students");;
     StudentDatabase.delete_students_by_ids student_ids;;
     print "Student deletion completed successfully";;
     invalidate_cache "students";;
     invalidate_cache "faculties")
    (λ e, print_error "Error during student deletion: " e).

(** [background_tasks.add_task(...)]: the task waits until the response has
    been sent. *)
Definition add_task (t : task) : M unit :=
  modify (λ w, set_tasks (tasks w ++ [t]) w).



(** ** Endpoints *)

Definition message (text : string) : pyval :=
  PJson (JObj [("message", JStr text)]).

(** POST /students/load-csv *)
Definition load_csv_from_file (file_path : string) (cookie : option string)
  : M pyval :=
  current_user ← get_current_user cookie;
  fs ← gets files;
  match fs !! file_path with
  | None => raise (HTTPException 404 "File not found")
  | Some _ =>
      add_task (TaskLoadCsv file_path);;
      mret (message "CSV import started in background")
  end.

(** DELETE /students/bulk-delete *)
Definition delete_students_bulk (student_ids : list Z) (cookie : option string)
  : M pyval :=
  current_user ← get_current_user cookie;
  match student_ids with
  | [] => raise (HTTPException 400 "No student IDs provided")
  | _ :: _ =>
      add_task (TaskDeleteStudents student_ids);;
      mret (message "Student deletion started in background")
  end.

(** POST /students/ *)
Definition create_student (student : StudentCreate) (cookie : option string)
  : M pyval :=
  current_user ← get_current_user cookie;
  db_student ← StudentDatabase.insert_student student;
  invalidate_cache "students";;
  invalidate_cache "faculties";;
  mret (PStudent db_student).

Definition students_key (skip limit : Z) : string :=
  get_cache_key "students" [("skip", KInt skip); ("limit", KInt limit)].

Definition student_key (student_id : Z) : string :=
  get_cache_key "student" [("student_id", KInt student_id)].

(** GET /students/ *)
Definition read_all_students (skip limit : Z) (cookie : option string)
  : M pyval :=
  current_user ← get_current_user cookie;
  let cache_key := students_key skip limit in
  cached ← get_cached_response cache_key;
  match cached with
  | JNull =>
      students ← StudentDatabase.get_all_students;
      let result := py_slice students skip (skip + limit) in
      set_cached_response cache_key (PStudents result) default_expire;;
      mret (PStudents result)
  | doc => mret (PJson doc)
  end.

(** GET /students/{student_id} *)
Definition read_student (student_id : Z) (cookie : option string) : M pyval :=
  current_user ← get_current_user cookie;
  let cache_key := student_key student_id in
  cached ← get_cached_response cache_key;
  match cached with
  | JNull =>
      student ← StudentDatabase.get_student student_id;
      set_cached_response cache_key (PStudent student) default_expire;;
      mret (PStudent student)
  | doc => mret (PJson doc)
  end.

(** PUT /students/{student_id} *)
Definition update_student (student_id : Z) (student_data : StudentUpdate)
    (cookie : option string) : M pyval :=
  current_user ← get_current_user cookie;
  updated ← StudentDatabase.update_student student_id student_data;
  invalidate_cache "students";;
  invalidate_cache_call "student" [("student_id", KInt student_id)];;
  invalidate_cache "faculties";;
  mret (PStudent updated).

(** DELETE /students/{student_id} *)
Definition delete_student (student_id : Z) (cookie : option string) : M pyval :=
  current_user ← get_current_user cookie;
  result ← StudentDatabase.delete_student student_id;
  invalidate_cache "students";;
  invalidate_cache_call "student" [("student_id", KInt student_id)];;
  invalidate_cache "faculties";;
  mret (PJson result).

(** ** Authentication endpoints *)

(** What a handler asks the response to do with the session cookie. *)
Inductive cookie_op : Type :=
  | SetCookie (key value : string) (max_age : Z)
  | DeleteCookie (key : string).

(** POST /auth/register *)
Definition register_user (user : UserRegister) : M pyval :=
  StudentDatabase.register_user user;;
  mret (message "User registered successfully").

(** POST /auth/login; [token] is the draw of [secrets.token_urlsafe(32)]
    and the cookie carries [db_user.session_token], the token just stored. *)
Definition login_user (user : UserLogin) (token : string)
  : M (pyval * cookie_op) :=
  db_user ← StudentDatabase.login_user user token;
  mret (message "Login successful",
        SetCookie "session_token" (default "" (session_token db_user)) 86400).

(** POST /auth/logout: the dependency runs first, with the same cookie. *)
Definition logout_user (cookie : option string) : M (pyval * cookie_op) :=
  current_user ← get_current_user cookie;
  StudentDatabase.logout_user (default "" cookie);;
  mret (message "Logout successful", DeleteCookie "session_token").

(** ** Analytic endpoints *)

(** A Python list of [str] is JSON data as it stands. *)
Definition py_strs (l : list string) : pyval := PJson (JList (JStr <$> l)).

Definition faculty_students_key (faculty : string) : string :=
  get_cache_key "faculty_students" [("faculty", KStr faculty)].

Definition unique_courses_key : string := get_cache_key "unique_courses" [].

(** The key of GET /faculties/{faculty}/average_grade (the average itself
    is a float and is left out). *)
Definition faculty_avg_grade_key (faculty : string) : string :=
  get_cache_key "faculty_avg_grade" [("faculty", KStr faculty)].

(** GET /faculties/{faculty}/students *)
Definition get_faculty_students (faculty : string) (cookie : option string)
  : M pyval :=
  current_user ← get_current_user cookie;
  let cache_key := faculty_students_key faculty in
  cached ← get_cached_response cache_key;
  match cached with
  | JNull =>
      students ← StudentDatabase.get_students_by_faculty faculty;
      set_cached_response cache_key (PStudents students) default_expire;;
      mret (PStudents students)
  | doc => mret (PJson doc)
  end.

(** GET /courses/ *)
Definition get_unique_courses (cookie : option string) : M pyval :=
  current_user ← get_current_user cookie;
  let cache_key := unique_courses_key in
  cached ← get_cached_response cache_key;
  match cached with
  | JNull =>
      courses ← StudentDatabase.get_unique_courses;
      set_cached_response cache_key (py_strs courses) default_expire;;
      mret (py_strs courses)
  | doc => mret (PJson doc)
  end.

(** ** Start of the application *)

Definition test_user (table : list User) : User :=
  mkUser (next_rowid (user_id <$> table)) "admin" (hash_password "admin123")
         None None.

(** [startup_event]: no [except] clause, an exception leaves the function. *)
Definition startup_event : M unit :=
  select "users";;
  table ← gets users;
  (if bool_decide (table = []) then
     commit (set_users (table ++ [test_user table]));;
     print "Test user created: admin/admin123"
   else mret tt);;
  select "students";;
  rows ← gets students;
  fs ← gets files;
  if bool_decide (rows = []) && bool_decide (is_Some (fs !! "students.csv")) then
    print "Loading initial data from students.csv";;
    StudentDatabase.load_from_csv "students.csv";;
    db_access;;
    print "Database initialized with sample data"
  else print "Database already contains data".

(** ** Observations that the statements use *)

(** The prefixes that [invalidate_cache] was called with, in order. *)
Definition invalidations (t : list event) : list string :=
  omap (λ e, match e with EInvalidate p => Some p | _ => None end) t.

(** The tables that were read, in order. *)
Definition selects (t : list event) : list string :=
  omap (λ e, match e with ESelect tb => Some tb | _ => None end) t.

(** The events that running [m] from [w] adds to the trace. *)
Definition new_events {A} (m : M A) (w : World) : list event :=
  drop (length (trace w)) (trace (m w).2).

(** The keyspace after the live keys matching [pattern] were deleted. *)
Definition purged (pattern : string) (now : Z) (r : gmap string centry)
  : gmap string centry :=
  filter (λ kv, ¬ Is_true (live now kv.2 && glob_match pattern kv.1)) r.

(** The expiry that a login in the world [w] stores. *)
Definition login_expiry (w : World) : Z :=
  int_timestamp (timestamp (zone w) (datetime_now w + timedelta_days 1)).

(** The request carries the cookie of a session that the store accepts. *)
Definition authenticated (cookie : option string) (w : World) : Prop :=
  ∃ u, (get_current_user cookie w).1 = Ok u.

(** No entry can be read under a key of the namespace [endpoint_prefix]. *)
Definition namespace_empty (endpoint_prefix : string) (w : World) : Prop :=
  ∀ key, String.prefix ("cache:" +:+ endpoint_prefix +:+ ":") key = true →
         cache_lookup w key = None.

(** The characters of a decimal numeral: digits and the minus sign. *)
Definition numeral_char (c : ascii) : bool :=
  match c with
  | "0" | "1" | "2" | "3" | "4" | "5" | "6" | "7" | "8" | "9" | "-" => true
  | _ => false
  end%char.

Fixpoint numeral (s : string) : bool :=
  match s with
  | EmptyString => true
  | String c r => numeral_char c && numeral r
  end.

(** A pattern without [*], [?], brackets or backslashes stands for itself. *)
Definition plain_char (c : ascii) : bool :=
  match c with
  | "*" | "?" | "[" | "\" => false
  | _ => true
  end%char.

Fixpoint plain (p : string) : bool :=
  match p with
  | EmptyString => true
  | String c r => plain_char c && plain r
  end.

(** ** Worlds on which the statements are run *)

(** Two zones: UTC, and one with the rules of central Europe in 2024
    (UTC+1, daylight saving time from 31 March to 27 October, 01:00 UTC). *)
Definition utc : tz := mkTz 0 [].

Definition frame_world : World :=
  mkWorld [] [] true
    (<["cache:student:student_id=1" := mkCentry (JObj [("id", JInt 1)]) 400000000]>
       (<["cache:students:limit=100:skip=0" := mkCentry (JList []) 400000000]> ∅))
    100000000 utc ∅ [] [].

(** One registered user, logged in; [exp] is the stored expiry. *)
Definition admin_with (exp : option Z) : User :=
  mkUser 1 "admin" (hash_password "admin123") (Some "s3cr3t-token") exp.

Definition session_world (exp : option Z) (now : Z) : World :=
  mkWorld [] [admin_with exp] true ∅ now utc ∅ [] [].

Definition admin_login : UserLogin := mkUserLogin "admin" "admin123".


(** A small faculty: three students, the admin logged in until the next
    day, a CSV file on disk and the keyspace [r]. *)
Definition ivanov : Student := mkStudent 1 "Ivanov" "Ivan" "Math" "Algebra" 5.
Definition petrov : Student := mkStudent 2 "Petrov" "Petr" "Math" "Algebra" 4.
Definition sidorov : Student := mkStudent 3 "Sidorov" "Sidor" "Physics" "Optics" 3.

Definition students_csv : list csv_row :=
  [[(col_surname, "Orlov"); (col_name, "Oleg"); (col_faculty, "Math");
    (col_course, "Logic"); (col_grade, "4")]].

Definition campus (r : gmap string centry) : World :=
  mkWorld [ivanov; petrov; sidorov] [admin_with (Some 1700086400)] true r
          1700000000000000 utc {["students.csv" := students_csv]} [] [].

Definition admin_cookie : option string := Some "s3cr3t-token".

(** The application before its first start: empty tables, the CSV file
    next to it. *)
Definition fresh_install : World :=
  mkWorld [] [] true ∅ 1700000000000000 utc
          {["students.csv" := students_csv]} [] [].

(** Documents cached under a per-id key and under a list key, both live
    at the clock of [campus]. *)
Definition ivanov_doc : json :=
  JObj [("id", JInt 1); ("surname", JStr "Ivanov"); ("name", JStr "Ivan");
        ("faculty", JStr "Math"); ("course", JStr "Algebra"); ("grade", JInt 5)].

Definition warm_cache : gmap string centry :=
  <["cache:student:student_id=1" := mkCentry ivanov_doc 1700000200000000]>
    (<["cache:students:limit=100:skip=0" := mkCentry (JList [ivanov_doc]) 1700000200000000]>
       (<["cache:faculties:all" := mkCentry (JList [JStr "Math"]) 1700000200000000]> ∅)).

(** * Properties *)

(** ** Strings *)

Lemma str_app_cons a s t : String a s +:+ t = String a (s +:+ t).
Proof. reflexivity. Qed.

Lemma str_app_nil_r s : s +:+ "" = s.
Proof. induction s as [|a s IH]; [done|]. by rewrite str_app_cons, IH. Qed.

Lemma str_app_assoc s t u : (s +:+ t) +:+ u = s +:+ (t +:+ u).
Proof.
  induction s as [|a s IH]; [done|]. by rewrite !str_app_cons, IH.
Qed.

Lemma prefix_app s t : String.prefix s (s +:+ t) = true.
Proof.
  induction s as [|a s IH]; [by destruct t|].
  rewrite str_app_cons. simpl. by destruct (ascii_dec a a).
Qed.

Lemma prefix_split s k :
  String.prefix s k = true → ∃ t, k = s +:+ t.
Proof.
  revert k. induction s as [|a s IH]; intros k Hk.
  - by exists k.
  - destruct k as [|b k]; [done|]. simpl in Hk.
    destruct (ascii_dec a b) as [->|]; [|done].
    destruct (IH _ Hk) as [t ->]. by exists t.
Qed.

(** ** Cache keys *)

Lemma item_le_total a b : item_le a b = true ∨ item_le b a = true.
Proof. apply String.leb_total. Qed.

Lemma item_le_trans a b c :
  item_le a b = true → item_le b c = true → item_le a c = true.
Proof.
  unfold item_le. intros H1 H2.
  apply Is_true_true. apply Is_true_true in H1, H2.
  change (String.le a.1 c.1). by etrans.
Qed.

Lemma item_le_antisym a b :
  item_le a b = true → item_le b a = true → a.1 = b.1.
Proof. apply String.leb_antisym. Qed.

Lemma insert_item_perm a l : Permutation (insert_item a l) (a :: l).
Proof.
  induction l as [|b l IH]; simpl; [done|].
  destruct (item_le a b); [done|].
  rewrite IH. apply perm_swap.
Qed.

Lemma sorted_perm kw : Permutation (sorted kw) kw.
Proof.
  induction kw as [|a kw IH]; simpl; [done|].
  rewrite insert_item_perm. by constructor.
Qed.

Lemma insert_item_sorted a l :
  StronglySorted (λ x y, String.le x.1 y.1) l →
  StronglySorted (λ x y, String.le x.1 y.1) (insert_item a l).
Proof.
  induction 1 as [|b l Hs IH Hb]; simpl.
  - repeat constructor.
  - destruct (item_le a b) eqn:Hab.
    + apply Is_true_true in Hab.
      constructor; [by constructor|].
      constructor; [done|].
      eapply Forall_impl; [exact Hb|].
      intros c Hc. simpl in Hc. by etrans.
    + constructor; [done|].
      rewrite insert_item_perm. constructor; [|done].
      destruct (item_le_total a b) as [?|Hba]; [congruence|].
      by apply Is_true_true in Hba.
Qed.

Lemma sorted_sorted kw : StronglySorted (λ x y, String.le x.1 y.1) (sorted kw).
Proof.
  induction kw as [|a kw IH]; simpl; [constructor|].
  by apply insert_item_sorted.
Qed.

(** Two items with different keys can be inserted in either order. *)
Lemma insert_item_comm a b l :
  a.1 ≠ b.1 →
  insert_item a (insert_item b l) = insert_item b (insert_item a l).
Proof.
  intros Hne. induction l as [|c l IH]; simpl.
  - destruct (item_le a b) eqn:Hab, (item_le b a) eqn:Hba; try done.
    + by destruct Hne; apply item_le_antisym.
    + destruct (item_le_total a b); congruence.
  - destruct (item_le b c) eqn:Hbc, (item_le a c) eqn:Hac; simpl;
      rewrite ?Hbc, ?Hac.
    + destruct (item_le a b) eqn:Hab, (item_le b a) eqn:Hba; try done.
      * by destruct Hne; apply item_le_antisym.
      * destruct (item_le_total a b); congruence.
    + destruct (item_le a b) eqn:Hab; [|done].
      by rewrite (item_le_trans a b c) in Hac.
    + destruct (item_le b a) eqn:Hba; [|done].
      by rewrite (item_le_trans b a c) in Hbc.
    + by rewrite IH.
Qed.

Lemma sorted_perm_eq kw1 kw2 :
  kwargs_ok kw1 → Permutation kw1 kw2 → sorted kw1 = sorted kw2.
Proof.
  unfold kwargs_ok. intros Hnd Hp.
  induction Hp as [|a l l' Hp IH|a b l|l l' l'' Hp1 IH1 Hp2 IH2].
  - done.
  - simpl. rewrite IH; [done|]. by inversion Hnd.
  - simpl. apply insert_item_comm.
    simpl in Hnd. inversion Hnd as [|?? Hin _]; subst.
    intros Heq. apply Hin. rewrite Heq. by left.
  - rewrite IH1 by done. apply IH2. by rewrite <- Hp1.
Qed.

Lemma fold_left_key_parts l acc :
  fold_left (λ key a, key +:+ key_part a) l acc
  = acc +:+ foldr (λ a r, key_part a +:+ r) "" l.
Proof.
  revert acc. induction l as [|a l IH]; intros acc; simpl.
  - by rewrite str_app_nil_r.
  - by rewrite IH, str_app_assoc.
Qed.

Lemma get_cache_key_unfold endpoint kw :
  get_cache_key endpoint kw
  = "cache:" +:+ endpoint +:+ foldr (λ a r, key_part a +:+ r) "" (sorted kw).
Proof.
  unfold get_cache_key. by rewrite fold_left_key_parts, str_app_assoc.
Qed.

(** C6. The key is "cache:" + endpoint followed by ":k=v" for each
    parameter, the parameters taken in lexicographic order of their names
    (a rearrangement of the given ones); hence two parameter dicts with the
    same items, inserted in any order, give the same key, as
    [{limit:10, skip:0}] and [{skip:0, limit:10}] do for "students". *)
Theorem get_cache_key_canonical :
  (∀ endpoint kw,
     get_cache_key endpoint kw
     = "cache:" +:+ endpoint
       +:+ foldr (λ a r, ":" +:+ a.1 +:+ "=" +:+ py_str a.2 +:+ r) "" (sorted kw)
     ∧ Permutation (sorted kw) kw
     ∧ StronglySorted (λ a b, String.le a.1 b.1) (sorted kw))
  ∧ (∀ endpoint kw1 kw2,
       kwargs_ok kw1 → Permutation kw1 kw2 →
       get_cache_key endpoint kw1 = get_cache_key endpoint kw2)
  ∧ get_cache_key "students" [("limit", KInt 10); ("skip", KInt 0)]
    = get_cache_key "students" [("skip", KInt 0); ("limit", KInt 10)].
Proof.
  split; [|split].
  - intros endpoint kw. split; [|split].
    + rewrite get_cache_key_unfold. do 2 f_equal.
      induction (sorted kw) as [|a l IH]; simpl; [done|].
      rewrite <- IH. unfold key_part. by rewrite !str_app_assoc.
    + apply sorted_perm.
    + apply sorted_sorted.
  - intros endpoint kw1 kw2 Hok Hp.
    unfold get_cache_key. by rewrite (sorted_perm_eq kw1 kw2).
  - reflexivity.
Qed.

Lemma get_cache_key_canonical_witness :
  kwargs_ok [("limit", KInt 10); ("skip", KInt 0)]
  ∧ get_cache_key "students" [("limit", KInt 10); ("skip", KInt 0)]
    = get_cache_key "students" [("skip", KInt 0); ("limit", KInt 10)].
Proof.
  assert (Hok : kwargs_ok [("limit", KInt 10); ("skip", KInt 0)]).
  { unfold kwargs_ok. simpl. apply NoDup_cons. split; [|apply NoDup_singleton].
    rewrite list_elem_of_singleton. discriminate. }
  split; [exact Hok|].
  apply (proj1 (proj2 get_cache_key_canonical)); [exact Hok|apply perm_swap].
Defined.

(** ** The monad *)

Lemma bind_ok {A B} (m : M A) (k : A → M B) w a w' :
  m w = (Ok a, w') → (m ≫= k) w = k a w'.
Proof. unfold mbind, M_bind. by intros ->. Qed.

Lemma bind_raise {A B} (m : M A) (k : A → M B) w e w' :
  m w = (Raise e, w') → (m ≫= k) w = (Raise e, w').
Proof. unfold mbind, M_bind. by intros ->. Qed.

Lemma new_events_app {A} (m : M A) w l :
  trace (m w).2 = trace w ++ l → new_events m w = l.
Proof. unfold new_events. intros ->. by rewrite drop_app_length. Qed.

(** ** Glob patterns and [KEYS] *)

Lemma glob_lex_plain p r :
  plain p = true →
  glob_lex None (p +:+ r)
  = (GLit <$> String.list_ascii_of_string p) ++ glob_lex None r.
Proof.
  induction p as [|c p IH]; [done|]. simpl plain.
  intros [Hc Hp]%andb_true_iff. rewrite str_app_cons.
  simpl String.list_ascii_of_string. rewrite fmap_cons. simpl app.
  rewrite <- (IH Hp). clear IH Hp.
  destruct c as [[] [] [] [] [] [] [] []]; try discriminate Hc; reflexivity.
Qed.

Lemma glob_tokens_star s : glob_tokens [GStar] s = true.
Proof. induction s as [|c s IH]; [done|]. simpl in *. exact IH. Qed.

Lemma glob_tokens_literal p s :
  glob_tokens ((GLit <$> String.list_ascii_of_string p) ++ [GStar]) s
  = String.prefix p s.
Proof.
  revert s. induction p as [|c p IH]; intros s.
  - change (glob_tokens [GStar] s = String.prefix "" s).
    rewrite glob_tokens_star. by destruct s.
  - simpl String.list_ascii_of_string. rewrite fmap_cons. simpl.
    destruct s as [|d s]; [done|]. rewrite IH. simpl.
    destruct (ascii_dec c d) as [->|Hne].
    + by rewrite bool_decide_eq_true_2.
    + by rewrite bool_decide_eq_false_2.
Qed.

(** A plain prefix followed by a star matches the strings that start with
    the prefix. *)
Lemma glob_match_prefix p s :
  plain p = true → glob_match (p +:+ "*") s = String.prefix p s.
Proof.
  intros Hp. unfold glob_match. rewrite (glob_lex_plain p "*" Hp).
  apply glob_tokens_literal.
Qed.

Lemma plain_app p q : plain (p +:+ q) = plain p && plain q.
Proof.
  induction p as [|c p IH]; [done|].
  rewrite str_app_cons. simpl. by rewrite IH, andb_assoc.
Qed.

Lemma invalidate_pattern_prefix endpoint_prefix s :
  plain endpoint_prefix = true →
  glob_match ("cache:" +:+ endpoint_prefix +:+ ":*") s
  = String.prefix ("cache:" +:+ endpoint_prefix +:+ ":") s.
Proof.
  intros Hp.
  replace ("cache:" +:+ endpoint_prefix +:+ ":*")
    with (("cache:" +:+ endpoint_prefix +:+ ":") +:+ "*").
  - apply glob_match_prefix. rewrite !plain_app, Hp. reflexivity.
  - by rewrite !str_app_assoc.
Qed.

Lemma foldr_delete_filter (P : string * centry → Prop)
    `{!∀ kv, Decision (P kv)} (r : gmap string centry) :
  foldr delete r (map_to_list (filter P r)).*1 = filter (λ kv, ¬ P kv) r.
Proof.
  apply map_eq. intros k.
  destruct (decide (k ∈ (map_to_list (filter P r)).*1)) as [Hin|Hnin].
  - rewrite lookup_foldr_delete by done. symmetry.
    apply map_lookup_filter_None. right. intros e He Hn.
    apply list_elem_of_fmap in Hin as [[k' e'] [-> Hin]].
    apply elem_of_map_to_list, map_lookup_filter_Some in Hin as [Hl HP].
    simpl in *. by simplify_eq.
  - rewrite lookup_foldr_delete_not_elem_of by done.
    destruct (r !! k) as [e|] eqn:Hk.
    + symmetry. apply map_lookup_filter_Some. split; [done|].
      intros HP. apply Hnin. apply list_elem_of_fmap. exists (k, e).
      split; [done|]. by apply elem_of_map_to_list, map_lookup_filter_Some.
    + symmetry. apply map_lookup_filter_None. by left.
Qed.

Lemma lookup_purged pattern now r k :
  purged pattern now r !! k
  = match r !! k with
    | Some e => if live now e && glob_match pattern k then None else Some e
    | None => None
    end.
Proof.
  unfold purged. destruct (r !! k) as [e|] eqn:Hk.
  - destruct (live now e && glob_match pattern k) eqn:Hb.
    + apply map_lookup_filter_None. right. intros e' He' Hn. simplify_eq.
      apply Hn. simpl. by rewrite Hb.
    + apply map_lookup_filter_Some. split; [done|]. simpl. rewrite Hb. by intros [].
  - apply map_lookup_filter_None. by left.
Qed.

Lemma read_entry_purged pattern now r key :
  read_entry now (purged pattern now r) key
  = if glob_match pattern key then None else read_entry now r key.
Proof.
  unfold read_entry. rewrite lookup_purged.
  destruct (r !! key) as [e|]; [|by destruct (glob_match _ _)].
  destruct (live now e) eqn:Hl, (glob_match pattern key); simpl;
    by rewrite ?Hl.
Qed.

Lemma read_entry_purged_prefix endpoint_prefix now r key :
  plain endpoint_prefix = true →
  String.prefix ("cache:" +:+ endpoint_prefix +:+ ":") key = true →
  read_entry now (purged ("cache:" +:+ endpoint_prefix +:+ ":*") now r) key = None.
Proof.
  intros Hp Hk. rewrite read_entry_purged.
  by rewrite invalidate_pattern_prefix, Hk.
Qed.

Lemma read_entry_purged_None pattern now r key :
  read_entry now r key = None →
  read_entry now (purged pattern now r) key = None.
Proof. intros H. rewrite read_entry_purged, H. by destruct (glob_match _ _). Qed.

Lemma invalidate_cache_run endpoint_prefix w :
  invalidate_cache endpoint_prefix w
  = (Ok tt,
     set_redis (purged ("cache:" +:+ endpoint_prefix +:+ ":*") (clock w) (redis w))
               (set_trace (trace w ++ [EInvalidate endpoint_prefix]) w)).
Proof.
  unfold invalidate_cache, emit, modify, redis_keys, gets, redis_delete.
  unfold mbind, M_bind, mret, M_ret. simpl.
  pose proof (foldr_delete_filter
    (λ kv, Is_true (live (clock w) kv.2
                    && glob_match ("cache:" +:+ endpoint_prefix +:+ ":*") kv.1))
    (redis w)) as Hf.
  unfold purged. rewrite <- Hf.
  by destruct ((map_to_list _).*1).
Qed.

Lemma students_key_eq skip limit :
  students_key skip limit
  = "cache:students:" +:+ ("limit=" +:+ pretty limit +:+ ":skip=" +:+ pretty skip).
Proof.
  unfold students_key. rewrite get_cache_key_unfold.
  change (sorted [("skip", KInt skip); ("limit", KInt limit)])
    with [("limit", KInt limit); ("skip", KInt skip)].
  unfold key_part. simpl. by rewrite !str_app_assoc, str_app_nil_r.
Qed.

Lemma student_key_eq student_id :
  student_key student_id = "cache:student:" +:+ ("student_id=" +:+ pretty student_id).
Proof.
  unfold student_key. rewrite get_cache_key_unfold.
  unfold key_part. simpl. by rewrite !str_app_assoc, str_app_nil_r.
Qed.


Lemma student_key_prefix student_id :
  String.prefix "cache:student:" (student_key student_id) = true.
Proof. rewrite student_key_eq. apply prefix_app. Qed.

(** Keys of the namespace [student] are not keys of [students], nor of
    [faculties] or [courses]. *)
Lemma student_not_students key :
  String.prefix "cache:student:" key = true →
  glob_match "cache:students:*" key = false
  ∧ glob_match "cache:faculties:*" key = false
  ∧ glob_match "cache:courses:*" key = false.
Proof.
  intros [t ->]%prefix_split.
  rewrite (invalidate_pattern_prefix "students"),
    (invalidate_pattern_prefix "faculties"),
    (invalidate_pattern_prefix "courses") by done.
  done.
Qed.

Lemma students_not_student key :
  String.prefix "cache:students:" key = true →
  glob_match "cache:student:*" key = false.
Proof.
  intros [t ->]%prefix_split.
  by rewrite (invalidate_pattern_prefix "student").
Qed.

(** C9. After [invalidate_cache(prefix)] nothing can be read under a key
    that the pattern "cache:" + prefix + ":*" matches and every other key
    reads as before: the keyspace has lost its live matching keys only;
    so invalidating "students" keeps every key "cache:student:...", and
    invalidating "student" keeps every key "cache:students:...". *)
Theorem invalidate_cache_frame :
  (∀ endpoint_prefix w key,
     cache_lookup (invalidate_cache endpoint_prefix w).2 key
     = if glob_match ("cache:" +:+ endpoint_prefix +:+ ":*") key
       then None else cache_lookup w key)
  ∧ (∀ endpoint_prefix w key,
     redis (invalidate_cache endpoint_prefix w).2 !! key
     = match redis w !! key with
       | Some e =>
           if live (clock w) e
              && glob_match ("cache:" +:+ endpoint_prefix +:+ ":*") key
           then None else Some e
       | None => None
       end)
  ∧ (∀ w key, String.prefix "cache:student:" key = true →
       redis (invalidate_cache "students" w).2 !! key = redis w !! key)
  ∧ (∀ w key, String.prefix "cache:students:" key = true →
       redis (invalidate_cache "student" w).2 !! key = redis w !! key).
Proof.
  split; [|split; [|split]].
  - intros p w key. rewrite invalidate_cache_run. unfold cache_lookup. simpl.
    apply read_entry_purged.
  - intros p w key. rewrite invalidate_cache_run. simpl. apply lookup_purged.
  - intros w key Hk. rewrite invalidate_cache_run. simpl.
    rewrite lookup_purged.
    change ("cache:" +:+ "students" +:+ ":*") with "cache:students:*".
    destruct (student_not_students key Hk) as [-> _].
    destruct (redis w !! key) as [e|]; [|done]. by rewrite andb_false_r.
  - intros w key Hk. rewrite invalidate_cache_run. simpl.
    rewrite lookup_purged.
    change ("cache:" +:+ "student" +:+ ":*") with "cache:student:*".
    rewrite (students_not_student key Hk).
    destruct (redis w !! key) as [e|]; [|done]. by rewrite andb_false_r.
Qed.

Lemma invalidate_cache_frame_witness :
  redis (invalidate_cache "students" frame_world).2 !! "cache:student:student_id=1"
  = redis frame_world !! "cache:student:student_id=1"
  ∧ redis (invalidate_cache "student" frame_world).2 !! "cache:students:limit=100:skip=0"
    = redis frame_world !! "cache:students:limit=100:skip=0".
Proof.
  split.
  - apply (proj1 (proj2 (proj2 invalidate_cache_frame))). reflexivity.
  - apply (proj2 (proj2 (proj2 invalidate_cache_frame))). reflexivity.
Defined.

(** ** Session store *)

Lemma find_None_Forall {A} (p : A → bool) (l : list A) :
  find p l = None ↔ ∀ x, x ∈ l → p x = false.
Proof.
  induction l as [|a l IH]; simpl.
  - split; [|done]. intros _ x Hx. by apply not_elem_of_nil in Hx.
  - destruct (p a) eqn:Ha.
    + split; [done|]. intros H. rewrite H in Ha; [done|]. by left.
    + rewrite IH. split.
      * intros H x [->|Hx]%elem_of_cons; auto.
      * intros H x Hx. apply H. by right.
Qed.

Lemma holds_token_false tok u :
  holds_token tok u = false ↔ session_token u ≠ Some tok.
Proof. unfold holds_token. apply bool_decide_eq_false. Qed.

Lemma first_user_run p w :
  db_up w = true →
  StudentDatabase.first_user p w
  = (Ok (find p (users w)), set_trace (trace w ++ [ESelect "users"]) w).
Proof.
  intros Hdb. unfold StudentDatabase.first_user, select, db_access, emit,
    modify, gets, mbind, M_bind, mret, M_ret.
  by rewrite Hdb.
Qed.

Lemma first_user_down p w :
  db_up w = false →
  StudentDatabase.first_user p w = (Raise OperationalError, w).
Proof.
  intros Hdb. unfold StudentDatabase.first_user, select, db_access, emit,
    modify, gets, mbind, M_bind, mret, M_ret.
  by rewrite Hdb.
Qed.

(** What [StudentDatabase.get_current_user] does with a token that is not
    the empty string, the database being up. *)
Lemma validate_run tok w :
  db_up w = true → tok ≠ "" →
  StudentDatabase.get_current_user tok w
  = let w1 := set_trace (trace w ++ [ESelect "users"]) w in
    match find (holds_token tok) (users w) with
    | Some u =>
        if truthy_expiry (token_expiry u)
           && timestamp_gt (clock w) (default 0 (token_expiry u))
        then (Ok None,
              set_users (replace_user (with_session u None None) (users w)) w1)
        else (Ok (Some u), w1)
    | None => (Ok None, w1)
    end.
Proof.
  intros Hdb Htok. unfold StudentDatabase.get_current_user, falsy.
  rewrite bool_decide_eq_false_2 by done.
  erewrite bind_ok by (by apply first_user_run).
  unfold gets, commit, db_access, modify, mbind, M_bind, mret, M_ret. simpl.
  destruct (find (holds_token tok) (users w)) as [u|]; [|done].
  destruct (truthy_expiry (token_expiry u) && _); [|done].
  simpl. by rewrite Hdb.
Qed.

Lemma replace_user_clears tok u l :
  filter (λ r, holds_token tok r = true) l = [u] →
  filter (λ r, holds_token tok r = true)
         (replace_user (with_session u None None) l) = [].
Proof.
  intros Hf.
  assert (Hall : ∀ r, r ∈ l → holds_token tok r = true → r = u).
  { intros r Hr Ht.
    assert (r ∈ filter (λ r, holds_token tok r = true) l) as Hin
      by (by apply list_elem_of_filter).
    rewrite Hf in Hin. by apply list_elem_of_singleton in Hin. }
  clear Hf. unfold replace_user.
  induction l as [|r l IH]; [done|].
  rewrite fmap_cons, filter_cons.
  rewrite IH by (intros; apply Hall; [by right|done]).
  simpl. case_bool_decide as Hid.
  - by rewrite decide_False.
  - rewrite decide_False; [done|].
    intros Ht. apply Hid. f_equal. apply Hall; [by left|done].
Qed.

Lemma filter_nil_find tok l :
  filter (λ r, holds_token tok r = true) l = [] →
  find (holds_token tok) l = None.
Proof.
  intros Hf. apply find_None_Forall. intros x Hx.
  destruct (holds_token tok x) eqn:Ht; [|done].
  assert (x ∈ filter (λ r, holds_token tok r = true) l) as Hin
    by (by apply list_elem_of_filter).
  rewrite Hf in Hin. by apply not_elem_of_nil in Hin.
Qed.

(** C10. A stored user found by the presented token whose [token_expiry]
    is NULL or 0 is returned as the current user whatever the clock says:
    the expiry is compared only when it is a non-zero number. *)
Theorem validate_without_expiry_never_expires w tok u :
  db_up w = true → tok ≠ "" →
  find (holds_token tok) (users w) = Some u →
  token_expiry u = None ∨ token_expiry u = Some 0 →
  ∀ now,
    StudentDatabase.get_current_user tok (set_clock now w)
    = (Ok (Some u), set_trace (trace w ++ [ESelect "users"]) (set_clock now w)).
Proof.
  intros Hdb Htok Hfind Hexp now.
  rewrite validate_run by done. simpl. rewrite Hfind.
  by destruct Hexp as [-> | ->].
Qed.

Lemma validate_without_expiry_never_expires_witness :
  (StudentDatabase.get_current_user "s3cr3t-token"
     (set_clock 4102444800000000 (session_world (Some 0) 0))).1
  = Ok (Some (admin_with (Some 0))).
Proof.
  rewrite (validate_without_expiry_never_expires
             (session_world (Some 0) 0) "s3cr3t-token" (admin_with (Some 0)));
    [reflexivity|reflexivity|discriminate|reflexivity|by right].
Defined.

(** C7, as the claim states it, fails where the stored expiry is 0: the
    clock is past it and the user is still returned. *)
Lemma validate_zero_expiry_counterexample :
  let w := session_world (Some 0) 1700000000000000 in
  find (holds_token "s3cr3t-token") (users w) = Some (admin_with (Some 0))
  ∧ timestamp_gt (clock w) 0 = true
  ∧ (StudentDatabase.get_current_user "s3cr3t-token" w).1
    = Ok (Some (admin_with (Some 0))).
Proof. by vm_compute. Qed.

(** C7 (amended). With the database up, [validate(token)] returns absent
    when no user holds the token; and when the user found has a non-zero
    expiry that the clock has passed, it returns absent and clears the
    token and expiry of that user. If that user was the only holder, no
    user holds the token afterwards and a second call returns absent
    again, changing no user. *)
Theorem validate_rejects_and_purges w tok :
  db_up w = true →
  ((∀ u, u ∈ users w → session_token u ≠ Some tok) →
     (StudentDatabase.get_current_user tok w).1 = Ok None
     ∧ users (StudentDatabase.get_current_user tok w).2 = users w)
  ∧ (∀ u e,
       tok ≠ "" →
       find (holds_token tok) (users w) = Some u →
       token_expiry u = Some e → e ≠ 0 → timestamp_gt (clock w) e = true →
       let w' := (StudentDatabase.get_current_user tok w).2 in
       (StudentDatabase.get_current_user tok w).1 = Ok None
       ∧ users w' = replace_user (with_session u None None) (users w)
       ∧ (filter (λ r, holds_token tok r = true) (users w) = [u] →
          (∀ r, r ∈ users w' → session_token r ≠ Some tok)
          ∧ (StudentDatabase.get_current_user tok w').1 = Ok None
          ∧ users (StudentDatabase.get_current_user tok w').2 = users w')).
Proof.
  intros Hdb. split.
  - intros Hnone. destruct (decide (tok = "")) as [->|Htok]; [done|].
    rewrite validate_run by done. simpl.
    assert (find (holds_token tok) (users w) = None) as ->; [|done].
    apply find_None_Forall. intros x Hx. apply holds_token_false. auto.
  - intros u e Htok Hfind Hexp He Hgt w'. subst w'.
    rewrite validate_run by done. simpl. rewrite Hfind, Hexp. simpl.
    rewrite Hgt. replace (e =? 0) with false by (symmetry; by apply Z.eqb_neq).
    simpl. split; [done|]. split; [done|].
    intros Huniq. pose proof (replace_user_clears tok u _ Huniq) as Hclr.
    pose proof (filter_nil_find tok _ Hclr) as Hnf.
    split.
    + intros r Hr. apply holds_token_false.
      by apply (proj1 (find_None_Forall _ _) Hnf).
    + rewrite validate_run by done. simpl. by rewrite Hnf.
Qed.

Lemma validate_rejects_and_purges_witness :
  let w := session_world (Some 1700000000) 1700000001000000 in
  (StudentDatabase.get_current_user "s3cr3t-token" w).1 = Ok None
  ∧ users (StudentDatabase.get_current_user "s3cr3t-token" w).2
    = [mkUser 1 "admin" (hash_password "admin123") None None]
  ∧ (StudentDatabase.get_current_user "unknown" w).1 = Ok None.
Proof.
  intros w.
  pose proof (validate_rejects_and_purges w "s3cr3t-token" eq_refl) as [_ H].
  destruct (H (admin_with (Some 1700000000)) 1700000000)
    as (H1 & H2 & _); [discriminate|reflexivity|reflexivity|discriminate|reflexivity|].
  split; [exact H1|]. split; [exact H2|].
  apply (proj1 (validate_rejects_and_purges w "unknown" eq_refl)).
  intros u Hu. apply list_elem_of_singleton in Hu as ->. discriminate.
Defined.

(** *** The wall clock and the expiry of a login *)

Lemma utcoffset_cases z u :
  utcoffset z u = std_offset z ∨ utcoffset z u = std_offset z + 3600.
Proof. unfold utcoffset. destruct (existsb _ _); lia. Qed.

Ltac split_offsets z :=
  repeat match goal with
  | |- context [utcoffset z ?u] =>
      lazymatch u with
      | context [utcoffset] => fail
      | _ => destruct (utcoffset_cases z u) as [->| ->]
      end
  end.

(** The instant found for a wall clock differs from it by an offset of the
    zone. *)
Lemma local_to_seconds_cases z t fold :
  local_to_seconds z t fold = t - std_offset z
  ∨ local_to_seconds z t fold = t - (std_offset z + 3600).
Proof.
  unfold local_to_seconds, local, max_fold_seconds.
  destruct fold; split_offsets z;
    repeat match goal with
    | |- context [?a =? ?b] => destruct (Z.eqb_spec a b)
    end; lia.
Qed.

(** Without daylight saving time the wall clock is the clock, shifted. *)
Lemma local_to_seconds_fixed z t fold :
  dst_periods z = [] → local_to_seconds z t fold = t - std_offset z.
Proof.
  intros Hz.
  assert (Hoff : ∀ u, utcoffset z u = std_offset z)
    by (intros u; unfold utcoffset; rewrite Hz; simpl; lia).
  unfold local_to_seconds, local, max_fold_seconds. rewrite !Hoff.
  destruct fold;
    repeat match goal with
    | |- context [?a =? ?b] => destruct (Z.eqb_spec a b)
    end; lia.
Qed.

Lemma tomorrow_split w :
  (datetime_now w + timedelta_days 1) `div` second
  = local (zone w) (clock w `div` second) + 86400
  ∧ (datetime_now w + timedelta_days 1) `mod` second = clock w `mod` second.
Proof.
  unfold datetime_now, timedelta_days, second.
  pose proof (Z.mod_pos_bound (clock w) 1000000 ltac:(lia)) as Hus.
  split; symmetry.
  - apply (Z.div_unique_pos _ _ _ (clock w `mod` 1000000)); lia.
  - apply (Z.mod_unique_pos _ _ (local (zone w) (clock w `div` 1000000) + 86400));
      lia.
Qed.

(** The expiry of a login is 23, 24 or 25 hours after the second of the
    login. *)
Lemma login_expiry_cases w :
  0 ≤ clock w →
  ∃ d, (d = 82800 ∨ d = 86400 ∨ d = 90000)
       ∧ login_expiry w = clock w `div` second + d.
Proof.
  intros Hc. unfold login_expiry, timestamp.
  destruct (tomorrow_split w) as [-> ->].
  pose proof (Z.mod_pos_bound (clock w) 1000000 ltac:(lia)) as Hus.
  pose proof (Z.div_pos (clock w) 1000000 Hc ltac:(lia)) as Hs.
  unfold local, second in *.
  set (s := clock w `div` 1000000) in *.
  set (us := clock w `mod` 1000000) in *.
  assert (Hcut : ∀ x, 0 ≤ x → int_timestamp (x * 1000000 + us) = x).
  { intros x Hx. unfold int_timestamp, second.
    rewrite Z.quot_div_nonneg by lia. symmetry.
    apply (Z.div_unique_pos _ _ _ us); lia. }
  destruct (local_to_seconds_cases (zone w) (s + utcoffset (zone w) s + 86400)
              false) as [-> | ->];
    destruct (utcoffset_cases (zone w) s) as [-> | ->];
    rewrite Hcut by lia;
    [exists 86400|exists 90000|exists 82800|exists 86400]; (split; lia).
Qed.

(** In a zone without daylight saving time it is the whole seconds of the
    clock 24 hours later. *)
Lemma login_expiry_fixed w :
  dst_periods (zone w) = [] →
  login_expiry w = (clock w + 86400000000) `quot` 1000000.
Proof.
  intros Hz. unfold login_expiry, timestamp.
  destruct (tomorrow_split w) as [-> ->].
  rewrite local_to_seconds_fixed by done.
  unfold local, utcoffset. rewrite Hz. simpl existsb. cbv iota.
  unfold int_timestamp, second. f_equal.
  pose proof (Z.div_mod (clock w) 1000000 ltac:(lia)). lia.
Qed.

Lemma quot_day_bounds t :
  0 ≤ t →
  t + 86400000000 - 1000000 < (t + 86400000000) `quot` 1000000 * 1000000
  ∧ (t + 86400000000) `quot` 1000000 * 1000000 ≤ t + 86400000000
  ∧ 86400 ≤ (t + 86400000000) `quot` 1000000.
Proof.
  intros Ht. rewrite Z.quot_div_nonneg by lia.
  pose proof (Z.div_mod (t + 86400000000) 1000000 ltac:(lia)).
  pose proof (Z.mod_pos_bound (t + 86400000000) 1000000 ltac:(lia)).
  assert (86400 ≤ (t + 86400000000) `div` 1000000)
    by (apply Z.div_le_lower_bound; lia).
  lia.
Qed.

Lemma login_run user token w :
  db_up w = true →
  StudentDatabase.login_user user token w
  = let w1 := set_trace (trace w ++ [ESelect "users"]) w in
    match find (λ u, bool_decide (username u = ul_username user)) (users w) with
    | Some u =>
        if verify_password (ul_password user) (password u) then
          let u' := with_session u (Some token) (Some (login_expiry w)) in
          (Ok u', set_users (replace_user u' (users w)) w1)
        else (Raise (HTTPException 401 "Incorrect username or password"), w1)
    | None => (Raise (HTTPException 401 "Incorrect username or password"), w1)
    end.
Proof.
  intros Hdb. unfold StudentDatabase.login_user.
  erewrite bind_ok by (by apply first_user_run).
  destruct (find _ (users w)) as [u|]; [|done].
  destruct (verify_password _ _); [|done].
  unfold gets, commit, db_access, modify, mbind, M_bind, mret, M_ret. simpl.
  by rewrite Hdb.
Qed.

Lemma login_ok_db_up user token w u :
  (StudentDatabase.login_user user token w).1 = Ok u → db_up w = true.
Proof.
  destruct (db_up w) eqn:Hdb; [done|].
  unfold StudentDatabase.login_user.
  by erewrite bind_raise by (by apply first_user_down).
Qed.


Lemma find_holds_replace tok u u' (l : list User) :
  (∀ r, r ∈ l → session_token r ≠ Some tok) →
  u ∈ l → user_id u' = user_id u → session_token u' = Some tok →
  find (holds_token tok) (replace_user u' l) = Some u'.
Proof.
  intros Hfresh Hin Hid Htok. unfold replace_user.
  assert (Hu' : holds_token tok u' = true) by (by apply bool_decide_eq_true).
  induction l as [|r l IH]; [by apply not_elem_of_nil in Hin|].
  rewrite fmap_cons. simpl. case_bool_decide as Hr; [by rewrite Hu'|].
  assert (holds_token tok r = false) as ->.
  { apply holds_token_false. apply Hfresh. by left. }
  apply IH.
  - intros x Hx. apply Hfresh. by right.
  - apply elem_of_cons in Hin as [->|Hin]; [by destruct Hr|done].
Qed.




(** ** The gateway *)

(** A request that passes the dependency leaves one SELECT on [users] and
    nothing else; the database was reachable. *)
Lemma get_current_user_ok cookie w u :
  (get_current_user cookie w).1 = Ok u →
  get_current_user cookie w
  = (Ok u, set_trace (trace w ++ [ESelect "users"]) w)
  ∧ db_up w = true.
Proof.
  unfold get_current_user, unauthorized.
  destruct cookie as [tok|]; [|done].
  unfold falsy. case_bool_decide as Htok; [done|].
  destruct (db_up w) eqn:Hdb.
  - unfold mbind at 1 2, M_bind at 1 2. rewrite !validate_run by done. cbv zeta.
    destruct (find (holds_token tok) (users w)) as [u0|]; [|done].
    destruct (truthy_expiry _ && _); simpl; [done|].
    by intros [= ->].
  - unfold mbind at 1, M_bind at 1.
    unfold StudentDatabase.get_current_user, falsy.
    rewrite bool_decide_eq_false_2 by done.
    by erewrite bind_raise by (by apply first_user_down).
Qed.

Lemma authenticated_db_up cookie w : authenticated cookie w → db_up w = true.
Proof. intros [u Hu]. by destruct (get_current_user_ok _ _ _ Hu). Qed.

(** The dependency looks at the users, the clock and the database only. *)
Lemma get_current_user_indep cookie w w2 :
  users w = users w2 → db_up w = db_up w2 → clock w = clock w2 →
  (get_current_user cookie w).1 = (get_current_user cookie w2).1.
Proof.
  intros Hu Hd Hc. unfold get_current_user, unauthorized.
  destruct cookie as [tok|]; [|done].
  unfold falsy. case_bool_decide as Htok; [done|].
  unfold mbind at 1 2, M_bind at 1 2.
  destruct (db_up w) eqn:Hdb.
  - rewrite !validate_run by congruence. simpl. rewrite <- Hu, <- Hc.
    destruct (find (holds_token tok) (users w)) as [u0|]; [|done].
    by destruct (truthy_expiry _ && _).
  - unfold StudentDatabase.get_current_user, falsy.
    rewrite bool_decide_eq_false_2 by done.
    erewrite !bind_raise by (apply first_user_down; congruence). done.
Qed.

Lemma authenticated_indep cookie w w2 :
  users w = users w2 → db_up w = db_up w2 → clock w = clock w2 →
  authenticated cookie w → authenticated cookie w2.
Proof.
  intros Hu Hd Hc [u H]. exists u.
  by rewrite <- (get_current_user_indep cookie w w2).
Qed.

Lemma get_cached_response_run key w :
  get_cached_response key w = (Ok (default JNull (cache_lookup w key)), w).
Proof.
  unfold get_cached_response, redis_get, gets, mbind, M_bind, mret, M_ret.
  by destruct (cache_lookup w key).
Qed.

Lemma get_student_run student_id w :
  db_up w = true →
  StudentDatabase.get_student student_id w
  = let w1 := set_trace (trace w ++ [ESelect "students"]) w in
    match find (λ s, bool_decide (id s = student_id)) (students w) with
    | Some s => (Ok s, w1)
    | None => (Raise (HTTPException 404 "Student not found"), w1)
    end.
Proof.
  intros Hdb. unfold StudentDatabase.get_student, select, db_access, emit,
    modify, gets, raise, mbind, M_bind, mret, M_ret.
  rewrite Hdb. simpl. by destruct (find _ (students w)).
Qed.

Lemma get_all_students_run w :
  db_up w = true →
  StudentDatabase.get_all_students w
  = (Ok (students w), set_trace (trace w ++ [ESelect "students"]) w).
Proof.
  intros Hdb. unfold StudentDatabase.get_all_students, select, db_access, emit,
    modify, gets, mbind, M_bind, mret, M_ret.
  by rewrite Hdb.
Qed.

Lemma json_dumps_rows l :
  l ≠ [] →
  json_dumps (PStudents l)
  = Raise (TypeError "Object of type Student is not JSON serializable").
Proof. by destruct l. Qed.

(** GET /students/ on a cold key whose page is not empty. *)
Lemma read_all_students_rows skip limit cookie w :
  authenticated cookie w →
  default JNull (cache_lookup w (students_key skip limit)) = JNull →
  py_slice (students w) skip (skip + limit) ≠ [] →
  read_all_students skip limit cookie w
  = (Raise (TypeError "Object of type Student is not JSON serializable"),
     set_trace (trace w ++ [ESelect "users"; ESelect "students"]) w).
Proof.
  intros [u Hu] Hmiss Hrows.
  destruct (get_current_user_ok _ _ _ Hu) as [Hrun Hdb].
  unfold read_all_students.
  erewrite bind_ok by exact Hrun.
  erewrite bind_ok by apply get_cached_response_run.
  simpl cache_lookup in *. change (cache_lookup (set_trace _ w)) with (cache_lookup w).
  rewrite Hmiss.
  erewrite bind_ok by (by apply get_all_students_run).
  simpl students. unfold set_cached_response.
  rewrite json_dumps_rows by done.
  unfold raise, mbind, M_bind. simpl.
  destruct w; simpl. by rewrite <- app_assoc.
Qed.

(** C5 (what the code does instead). On a cold key whose page holds at
    least one student, GET /students/ reads the store and then fails in
    [set_cached_response]: [json.dumps] has no encoding for [Student]
    instances. Nothing is cached, and the same request sent again reads
    the store again and fails the same way. *)
Theorem read_all_students_rows_not_cached w cookie skip limit :
  authenticated cookie w →
  cache_lookup w (students_key skip limit) = None →
  py_slice (students w) skip (skip + limit) ≠ [] →
  let r1 := read_all_students skip limit cookie w in
  let r2 := read_all_students skip limit cookie r1.2 in
  r1.1 = Raise (TypeError "Object of type Student is not JSON serializable")
  ∧ selects (new_events (read_all_students skip limit cookie) w)
    = ["users"; "students"]
  ∧ redis r1.2 = redis w
  ∧ r2.1 = Raise (TypeError "Object of type Student is not JSON serializable")
  ∧ selects (new_events (read_all_students skip limit cookie) r1.2)
    = ["users"; "students"].
Proof.
  intros Hauth Hmiss Hrows r1 r2. subst r1 r2.
  assert (Hr1 := read_all_students_rows skip limit cookie w Hauth).
  rewrite Hmiss in Hr1. specialize (Hr1 eq_refl Hrows).
  set (w1 := set_trace (trace w ++ [ESelect "users"; ESelect "students"]) w) in *.
  assert (Hr2 := read_all_students_rows skip limit cookie w1).
  change (cache_lookup w1) with (cache_lookup w) in Hr2.
  rewrite Hmiss in Hr2.
  specialize (Hr2 (authenticated_indep cookie w w1 eq_refl eq_refl eq_refl Hauth)
                  eq_refl Hrows).
  rewrite (new_events_app _ w [ESelect "users"; ESelect "students"])
    by (by rewrite Hr1).
  rewrite Hr1. simpl. rewrite Hr2.
  rewrite (new_events_app _ w1 [ESelect "users"; ESelect "students"])
    by (by rewrite Hr2).
  done.
Qed.

Lemma read_all_students_rows_not_cached_witness :
  (read_all_students 0 100 admin_cookie (campus ∅)).1
  = Raise (TypeError "Object of type Student is not JSON serializable")
  ∧ redis (read_all_students 0 100 admin_cookie (campus ∅)).2 = ∅.
Proof.
  destruct (read_all_students_rows_not_cached (campus ∅) admin_cookie 0 100)
    as (H1 & _ & H3 & _).
  - by exists (admin_with (Some 1700086400)).
  - reflexivity.
  - discriminate.
  - split; [exact H1|exact H3].
Defined.

Lemma store_update_run student_id data s w :
  db_up w = true →
  find (λ s, bool_decide (id s = student_id)) (students w) = Some s →
  nulls_column data = false →
  StudentDatabase.update_student student_id data w
  = (Ok (apply_update s data),
     set_students (replace_student (apply_update s data) (students w))
       (set_trace (trace w ++ [ESelect "students"; ESelect "students"]) w)).
Proof.
  intros Hdb Hfind Hnull. unfold StudentDatabase.update_student.
  erewrite bind_ok by (rewrite get_student_run by done; cbv zeta; by rewrite Hfind).
  rewrite Hnull.
  unfold select, db_access, emit, modify, gets, raise, mbind, M_bind, mret, M_ret.
  simpl. rewrite Hdb. simpl. rewrite Hdb. simpl.
  destruct w; simpl. by rewrite <- app_assoc.
Qed.

Lemma store_delete_run student_id s w :
  db_up w = true →
  find (λ s, bool_decide (id s = student_id)) (students w) = Some s →
  StudentDatabase.delete_student student_id w
  = (Ok (JObj [("message", JStr "Student deleted successfully")]),
     set_students (filter (λ r, id r ≠ id s) (students w))
       (set_trace (trace w ++ [ESelect "students"]) w)).
Proof.
  intros Hdb Hfind. unfold StudentDatabase.delete_student.
  erewrite bind_ok by (rewrite get_student_run by done; cbv zeta; by rewrite Hfind).
  unfold commit, db_access, modify, mbind, M_bind, mret, M_ret.
  simpl. by rewrite Hdb.
Qed.

(** PUT /students/{id} on a row that exists: the row is written, the
    namespace [students] is invalidated, and the next call raises. *)
Lemma update_student_run student_id data s cookie w :
  authenticated cookie w →
  find (λ s, bool_decide (id s = student_id)) (students w) = Some s →
  nulls_column data = false →
  update_student student_id data cookie w
  = (Raise (TypeError
       "invalidate_cache() got an unexpected keyword argument 'student_id'"),
     set_redis (purged "cache:students:*" (clock w) (redis w))
       (set_students (replace_student (apply_update s data) (students w))
          (set_trace (trace w ++ [ESelect "users"; ESelect "students";
                                  ESelect "students"; EInvalidate "students"])
                     w))).
Proof.
  intros [u Hu] Hfind Hnull.
  destruct (get_current_user_ok _ _ _ Hu) as [Hrun Hdb].
  unfold update_student.
  erewrite bind_ok by exact Hrun.
  erewrite bind_ok by (by eapply store_update_run).
  erewrite bind_ok by apply invalidate_cache_run.
  unfold invalidate_cache_call, raise, mbind, M_bind. simpl.
  destruct w; simpl. by rewrite <- !app_assoc.
Qed.

Lemma delete_student_run student_id s cookie w :
  authenticated cookie w →
  find (λ s, bool_decide (id s = student_id)) (students w) = Some s →
  delete_student student_id cookie w
  = (Raise (TypeError
       "invalidate_cache() got an unexpected keyword argument 'student_id'"),
     set_redis (purged "cache:students:*" (clock w) (redis w))
       (set_students (filter (λ r, id r ≠ id s) (students w))
          (set_trace (trace w ++ [ESelect "users"; ESelect "students";
                                  EInvalidate "students"])
                     w))).
Proof.
  intros [u Hu] Hfind.
  destruct (get_current_user_ok _ _ _ Hu) as [Hrun Hdb].
  unfold delete_student.
  erewrite bind_ok by exact Hrun.
  erewrite bind_ok by (by eapply store_delete_run).
  erewrite bind_ok by apply invalidate_cache_run.
  unfold invalidate_cache_call, raise, mbind, M_bind. simpl.
  destruct w; simpl. by rewrite <- !app_assoc.
Qed.

Lemma purged_students_keeps r now key :
  String.prefix "cache:student:" key = true
  ∨ String.prefix "cache:faculties:" key = true →
  purged "cache:students:*" now r !! key = r !! key.
Proof.
  intros Hk. rewrite lookup_purged.
  assert (glob_match "cache:students:*" key = false) as ->.
  { rewrite (invalidate_pattern_prefix "students") by done.
    destruct Hk as [[t ->]%prefix_split | [t ->]%prefix_split]; done. }
  destruct (r !! key); [|done]. by rewrite andb_false_r.
Qed.

(** C4 (what the code does instead). For a student that exists, PUT and
    DELETE /students/{id} write the store, invalidate the namespace
    [students] and then raise TypeError at
    [invalidate_cache("student", student_id=...)]: no record or message is
    returned, "faculties" is never invalidated, and the entries under
    "cache:student:" and "cache:faculties:" stay as they were. *)
Theorem update_delete_stop_at_type_error w cookie student_id s :
  authenticated cookie w →
  find (λ s, bool_decide (id s = student_id)) (students w) = Some s →
  (∀ data, nulls_column data = false →
     let r := update_student student_id data cookie w in
     r.1 = Raise (TypeError
             "invalidate_cache() got an unexpected keyword argument 'student_id'")
     ∧ students r.2 = replace_student (apply_update s data) (students w)
     ∧ invalidations (new_events (update_student student_id data cookie) w)
       = ["students"]
     ∧ ∀ key, String.prefix "cache:student:" key = true
              ∨ String.prefix "cache:faculties:" key = true →
              redis r.2 !! key = redis w !! key)
  ∧ (let r := delete_student student_id cookie w in
     r.1 = Raise (TypeError
             "invalidate_cache() got an unexpected keyword argument 'student_id'")
     ∧ students r.2 = filter (λ r, id r ≠ id s) (students w)
     ∧ invalidations (new_events (delete_student student_id cookie) w)
       = ["students"]
     ∧ ∀ key, String.prefix "cache:student:" key = true
              ∨ String.prefix "cache:faculties:" key = true →
              redis r.2 !! key = redis w !! key).
Proof.
  intros Hauth Hfind. split.
  - intros data Hnull r. subst r.
    rewrite (new_events_app _ w [ESelect "users"; ESelect "students";
                                 ESelect "students"; EInvalidate "students"])
      by (by erewrite update_student_run).
    erewrite update_student_run by done. simpl.
    split; [done|]. split; [done|]. split; [done|].
    intros key Hk. by apply purged_students_keeps.
  - intros r. subst r.
    rewrite (new_events_app _ w [ESelect "users"; ESelect "students";
                                 EInvalidate "students"])
      by (by erewrite delete_student_run).
    erewrite delete_student_run by done. simpl.
    split; [done|]. split; [done|]. split; [done|].
    intros key Hk. by apply purged_students_keeps.
Qed.

Lemma update_delete_stop_at_type_error_witness :
  (update_student 1 (mkStudentUpdate Unset Unset Unset Unset (SetTo 4))
                  admin_cookie (campus warm_cache)).1
  = Raise (TypeError
      "invalidate_cache() got an unexpected keyword argument 'student_id'")
  ∧ redis (delete_student 1 admin_cookie (campus warm_cache)).2
      !! "cache:student:student_id=1"
    = Some (mkCentry ivanov_doc 1700000200000000).
Proof.
  destruct (update_delete_stop_at_type_error (campus warm_cache) admin_cookie 1 ivanov)
    as [Hput Hdel].
  - by exists (admin_with (Some 1700086400)).
  - reflexivity.
  - split.
    + apply (Hput (mkStudentUpdate Unset Unset Unset Unset (SetTo 4)) eq_refl).
    + destruct Hdel as (_ & _ & _ & Hkeep).
      rewrite (Hkeep "cache:student:student_id=1"); [reflexivity|by left].
Defined.

(** ** Invalidation by the handlers and by the background tasks *)

Lemma insert_student_run student w :
  db_up w = true →
  StudentDatabase.insert_student student w
  = (Ok (new_student (students w) student),
     set_students (students w ++ [new_student (students w) student])
       (set_trace (trace w ++ [ESelect "students"]) w)).
Proof.
  intros Hdb. unfold StudentDatabase.insert_student, commit, select, db_access,
    emit, modify, gets, mbind, M_bind, mret, M_ret.
  simpl. rewrite Hdb. simpl. rewrite Hdb. by destruct w.
Qed.

Lemma create_student_run student cookie w :
  authenticated cookie w →
  create_student student cookie w
  = (Ok (PStudent (new_student (students w) student)),
     set_redis (purged "cache:faculties:*" (clock w)
                  (purged "cache:students:*" (clock w) (redis w)))
       (set_students (students w ++ [new_student (students w) student])
          (set_trace (trace w ++ [ESelect "users"; ESelect "students";
                                  EInvalidate "students"; EInvalidate "faculties"])
                     w))).
Proof.
  intros [u Hu]. destruct (get_current_user_ok _ _ _ Hu) as [Hrun Hdb].
  unfold create_student.
  erewrite bind_ok by exact Hrun.
  erewrite bind_ok by (by apply insert_student_run).
  erewrite bind_ok by apply invalidate_cache_run.
  erewrite bind_ok by apply invalidate_cache_run.
  unfold mret, M_ret. destruct w; simpl. by rewrite <- !app_assoc.
Qed.

(** The mutations of the store do not look at the trace. *)
Lemma delete_by_ids_trace ids t w :
  StudentDatabase.delete_students_by_ids ids (set_trace t w)
  = ((StudentDatabase.delete_students_by_ids ids w).1,
     set_trace t (StudentDatabase.delete_students_by_ids ids w).2).
Proof.
  unfold StudentDatabase.delete_students_by_ids, commit, db_access, modify,
    mbind, M_bind, mret, M_ret.
  destruct ids; [done|]. simpl. by destruct (db_up w).
Qed.

Lemma load_from_csv_trace file_path t w :
  StudentDatabase.load_from_csv file_path (set_trace t w)
  = ((StudentDatabase.load_from_csv file_path w).1,
     set_trace t (StudentDatabase.load_from_csv file_path w).2).
Proof.
  unfold StudentDatabase.load_from_csv, commit, db_access, modify, gets, raise,
    mbind, M_bind, mret, M_ret. simpl.
  destruct (files w !! file_path) as [rows|]; [|done].
  destruct (students_of_rows rows) as [new|]; [|done]. simpl.
  destruct (db_up w); [|done]. by destruct (forallb _ new).
Qed.

(** A mutation that raises has written nothing. *)
Lemma delete_by_ids_raise ids w e :
  (StudentDatabase.delete_students_by_ids ids w).1 = Raise e →
  (StudentDatabase.delete_students_by_ids ids w).2 = w.
Proof.
  unfold StudentDatabase.delete_students_by_ids, commit, db_access, modify,
    mbind, M_bind, mret, M_ret.
  destruct ids; [done|]. by destruct (db_up w).
Qed.

Lemma load_from_csv_raise file_path w e :
  (StudentDatabase.load_from_csv file_path w).1 = Raise e →
  (StudentDatabase.load_from_csv file_path w).2 = w.
Proof.
  unfold StudentDatabase.load_from_csv, commit, db_access, modify, gets, raise,
    mbind, M_bind, mret, M_ret. simpl.
  destruct (files w !! file_path) as [rows|]; [|done].
  destruct (students_of_rows rows) as [new|]; [|done]. simpl.
  destruct (db_up w); [|done]. by destruct (forallb _ new).
Qed.

(** Both mutations leave the keyspace, the clock, the users and the trace
    as they are. *)
Lemma delete_by_ids_frame ids w :
  let w' := (StudentDatabase.delete_students_by_ids ids w).2 in
  redis w' = redis w ∧ clock w' = clock w ∧ users w' = users w
  ∧ db_up w' = db_up w ∧ trace w' = trace w.
Proof.
  unfold StudentDatabase.delete_students_by_ids, commit, db_access, modify,
    mbind, M_bind, mret, M_ret.
  destruct ids; [done|]. destruct (db_up w) eqn:Hdb; simpl; rewrite ?Hdb; auto.
Qed.

Lemma load_from_csv_frame file_path w :
  let w' := (StudentDatabase.load_from_csv file_path w).2 in
  redis w' = redis w ∧ clock w' = clock w ∧ users w' = users w
  ∧ db_up w' = db_up w ∧ trace w' = trace w.
Proof.
  unfold StudentDatabase.load_from_csv, commit, db_access, modify, gets, raise,
    mbind, M_bind, mret, M_ret. simpl.
  destruct (files w !! file_path) as [rows|]; [|done].
  destruct (students_of_rows rows) as [new|]; [|done].
  destruct (db_up w) eqn:Hdb; simpl; [destruct (forallb _ new)|]; simpl;
    rewrite ?Hdb; auto.
Qed.

Lemma try_ok {A} (body : M A) handler w a w' :
  body w = (Ok a, w') → try_except body handler w = (Ok a, w').
Proof. unfold try_except. by intros ->. Qed.

Lemma try_raise {A} (body : M A) handler w e w' :
  body w = (Raise e, w') → try_except body handler w = handler e w'.
Proof. unfold try_except. by intros ->. Qed.

Lemma print_run line w :
  print line w = (Ok tt, set_trace (trace w ++ [EPrint line]) w).
Proof. reflexivity. Qed.

Lemma print_error_run prefix e w :
  print_error prefix e w
  = (Ok tt, set_trace (trace w ++ [EPrintError prefix e]) w).
Proof. reflexivity. Qed.

Lemma background_delete_ok student_ids w :
  (StudentDatabase.delete_students_by_ids student_ids w).1 = Ok tt →
  background_delete_students student_ids w
  = (Ok tt,
     set_redis (purged "cache:faculties:*" (clock w)
                  (purged "cache:students:*" (clock w) (redis w)))
       (set_trace
          (trace w ++
           [EPrint ("Starting deletion of "
                    +:+ pretty (Z.of_nat (length student_ids)) +:+ " students");
            EPrint "Student deletion completed successfully";
            EInvalidate "students"; EInvalidate "faculties"])
          (StudentDatabase.delete_students_by_ids student_ids w).2)).
Proof.
  intros Hok.
  pose proof (delete_by_ids_frame student_ids w) as (Hr & Hc & _ & _ & Ht).
  unfold background_delete_students. apply try_ok.
  erewrite bind_ok by apply print_run.
  erewrite bind_ok by (rewrite delete_by_ids_trace, Hok; reflexivity).
  erewrite bind_ok by apply print_run.
  erewrite bind_ok by apply invalidate_cache_run.
  rewrite invalidate_cache_run.
  destruct (StudentDatabase.delete_students_by_ids student_ids w).2.
  simpl in *. subst. by rewrite <- !app_assoc.
Qed.

Lemma background_delete_fail student_ids w e :
  (StudentDatabase.delete_students_by_ids student_ids w).1 = Raise e →
  background_delete_students student_ids w
  = (Ok tt,
     set_trace
       (trace w ++
        [EPrint ("Starting deletion of "
                 +:+ pretty (Z.of_nat (length student_ids)) +:+ " students");
         EPrintError "Error during student deletion: " e])
       w).
Proof.
  intros Hfail.
  pose proof (delete_by_ids_raise student_ids w e Hfail) as Hw.
  unfold background_delete_students. erewrite try_raise.
  2:{ erewrite bind_ok by apply print_run.
      erewrite bind_raise by (rewrite delete_by_ids_trace, Hfail, Hw; reflexivity).
      reflexivity. }
  rewrite print_error_run. destruct w; simpl. by rewrite <- !app_assoc.
Qed.

Lemma background_load_ok file_path w :
  (StudentDatabase.load_from_csv file_path w).1 = Ok tt →
  background_load_csv file_path w
  = (Ok tt,
     set_redis (purged "cache:courses:*" (clock w)
                  (purged "cache:faculties:*" (clock w)
                     (purged "cache:students:*" (clock w) (redis w))))
       (set_trace
          (trace w ++
           [EPrint ("Starting CSV import from " +:+ file_path);
            EPrint "CSV import completed successfully";
            EInvalidate "students"; EInvalidate "faculties";
            EInvalidate "courses"])
          (StudentDatabase.load_from_csv file_path w).2)).
Proof.
  intros Hok.
  pose proof (load_from_csv_frame file_path w) as (Hr & Hc & _ & _ & Ht).
  unfold background_load_csv. apply try_ok.
  erewrite bind_ok by apply print_run.
  erewrite bind_ok by (rewrite load_from_csv_trace, Hok; reflexivity).
  erewrite bind_ok by apply print_run.
  erewrite bind_ok by apply invalidate_cache_run.
  erewrite bind_ok by apply invalidate_cache_run.
  rewrite invalidate_cache_run.
  destruct (StudentDatabase.load_from_csv file_path w).2.
  simpl in *. subst. by rewrite <- !app_assoc.
Qed.

Lemma background_load_fail file_path w e :
  (StudentDatabase.load_from_csv file_path w).1 = Raise e →
  background_load_csv file_path w
  = (Ok tt,
     set_trace
       (trace w ++
        [EPrint ("Starting CSV import from " +:+ file_path);
         EPrintError "Error during CSV import: " e])
       w).
Proof.
  intros Hfail.
  pose proof (load_from_csv_raise file_path w e Hfail) as Hw.
  unfold background_load_csv. erewrite try_raise.
  2:{ erewrite bind_ok by apply print_run.
      erewrite bind_raise by (rewrite load_from_csv_trace, Hfail, Hw; reflexivity).
      reflexivity. }
  rewrite print_error_run. destruct w; simpl. by rewrite <- !app_assoc.
Qed.

(** C1, as the claim states it, fails when the import raises: the file is
    gone, the task ends, and [invalidate_cache] was not called. *)
Lemma import_failure_counterexample :
  (StudentDatabase.load_from_csv "missing.csv" (campus warm_cache)).1
  = Raise FileNotFoundError
  ∧ (background_load_csv "missing.csv" (campus warm_cache)).1 = Ok tt
  ∧ invalidations (new_events (background_load_csv "missing.csv") (campus warm_cache))
    = [].
Proof. by vm_compute. Qed.

(** C1 (amended). Each background task ends without raising. When its
    store mutation succeeds, [invalidate_cache] is called once for each
    declared prefix, in order: students, faculties, courses for the
    import; students, faculties for the bulk delete. When the mutation
    raises, the task prints its starting line and then one line with its
    error prefix and the exception, [invalidate_cache] is not called, and
    store and keyspace are as before. *)
Theorem background_tasks_invalidate_after_success w :
  (∀ file_path,
     (background_load_csv file_path w).1 = Ok tt
     ∧ match (StudentDatabase.load_from_csv file_path w).1 with
       | Ok _ =>
           invalidations (new_events (background_load_csv file_path) w)
           = ["students"; "faculties"; "courses"]
       | Raise e =>
           invalidations (new_events (background_load_csv file_path) w) = []
           ∧ redis (background_load_csv file_path w).2 = redis w
           ∧ students (background_load_csv file_path w).2 = students w
           ∧ new_events (background_load_csv file_path) w
             = [EPrint ("Starting CSV import from " +:+ file_path);
                EPrintError "Error during CSV import: " e]
       end)
  ∧ (∀ student_ids,
       (background_delete_students student_ids w).1 = Ok tt
       ∧ match (StudentDatabase.delete_students_by_ids student_ids w).1 with
         | Ok _ =>
             invalidations (new_events (background_delete_students student_ids) w)
             = ["students"; "faculties"]
         | Raise e =>
             invalidations (new_events (background_delete_students student_ids) w)
             = []
             ∧ redis (background_delete_students student_ids w).2 = redis w
             ∧ students (background_delete_students student_ids w).2 = students w
             ∧ new_events (background_delete_students student_ids) w
               = [EPrint ("Starting deletion of "
                          +:+ pretty (Z.of_nat (length student_ids))
                          +:+ " students");
                  EPrintError "Error during student deletion: " e]
         end).
Proof.
  split.
  - intros file_path.
    destruct (StudentDatabase.load_from_csv file_path w).1 as [[]|e] eqn:Hm.
    + erewrite new_events_app by (by rewrite background_load_ok).
      by rewrite background_load_ok.
    + erewrite new_events_app by (by erewrite background_load_fail).
      by erewrite background_load_fail.
  - intros student_ids.
    destruct (StudentDatabase.delete_students_by_ids student_ids w).1
      as [[]|e] eqn:Hm.
    + erewrite new_events_app by (by rewrite background_delete_ok).
      by rewrite background_delete_ok.
    + erewrite new_events_app by (by erewrite background_delete_fail).
      by erewrite background_delete_fail.
Qed.

Lemma delete_by_ids_run student_ids w :
  db_up w = true → student_ids ≠ [] →
  StudentDatabase.delete_students_by_ids student_ids w
  = (Ok tt, set_students (filter (λ s, id s ∉ student_ids) (students w)) w).
Proof.
  intros Hdb Hne. unfold StudentDatabase.delete_students_by_ids, commit,
    db_access, modify, mbind, M_bind.
  destruct student_ids; [done|]. by rewrite Hdb.
Qed.

(** GET /students/{id} when a document can be read under the key of the
    id: the document is the response and the store is not asked. *)
Lemma read_student_hit student_id cookie w doc :
  authenticated cookie w →
  cache_lookup w (student_key student_id) = Some doc → doc ≠ JNull →
  read_student student_id cookie w
  = (Ok (PJson doc), set_trace (trace w ++ [ESelect "users"]) w).
Proof.
  intros [u Hu] Hhit Hdoc.
  destruct (get_current_user_ok _ _ _ Hu) as [Hrun Hdb].
  unfold read_student.
  erewrite bind_ok by exact Hrun.
  erewrite bind_ok by apply get_cached_response_run.
  change (cache_lookup (set_trace _ w)) with (cache_lookup w).
  rewrite Hhit. simpl. by destruct doc.
Qed.

(** C2 (what the code does instead). After the bulk delete of [1, 2, 3]
    has run, the rows are gone and nothing can be read under the prefixes
    students and faculties, but a document cached under the key of
    student 1 is still there, and GET /students/1 answers with it instead
    of 404. *)
Theorem bulk_delete_serves_deleted_student w cookie doc deadline :
  authenticated cookie w →
  redis w !! student_key 1 = Some (mkCentry doc deadline) →
  clock w < deadline → doc ≠ JNull →
  let w' := (background_delete_students [1; 2; 3] w).2 in
  (∀ s, s ∈ students w' → id s ∉ [1; 2; 3])
  ∧ namespace_empty "students" w'
  ∧ namespace_empty "faculties" w'
  ∧ (read_student 1 cookie w').1 = Ok (PJson doc).
Proof.
  intros Hauth Hentry Hlive Hdoc w'. subst w'.
  pose proof (authenticated_db_up _ _ Hauth) as Hdb.
  assert (Hdel := delete_by_ids_run [1; 2; 3] w Hdb ltac:(done)).
  rewrite background_delete_ok by (by rewrite Hdel). rewrite Hdel. simpl.
  set (w' := set_redis _ _).
  split; [|split; [|split]].
  - intros s Hs. subst w'. simpl in Hs. by apply list_elem_of_filter in Hs as [? _].
  - intros key Hk. unfold cache_lookup. subst w'. simpl.
    apply read_entry_purged_None.
    by apply (read_entry_purged_prefix "students").
  - intros key Hk. unfold cache_lookup. subst w'. simpl.
    by apply (read_entry_purged_prefix "faculties").
  - erewrite read_student_hit; [done| | |exact Hdoc].
    + by apply (authenticated_indep cookie w).
    + unfold cache_lookup. subst w'. simpl. rewrite !read_entry_purged.
      destruct (student_not_students _ (student_key_prefix 1)) as (-> & -> & _).
      unfold read_entry. rewrite Hentry. unfold live. simpl.
      by rewrite (proj2 (Z.ltb_lt _ _) Hlive).
Qed.

Lemma bulk_delete_serves_deleted_student_witness :
  let w' := (background_delete_students [1; 2; 3] (campus warm_cache)).2 in
  students w' = []
  ∧ (read_student 1 admin_cookie w').1 = Ok (PJson ivanov_doc).
Proof.
  intros w'. split; [reflexivity|].
  apply (bulk_delete_serves_deleted_student (campus warm_cache) admin_cookie
           ivanov_doc 1700000200000000).
  - by exists (admin_with (Some 1700086400)).
  - reflexivity.
  - reflexivity.
  - discriminate.
Defined.








(** ** The read-through path where it works, and the cold per-id key *)

Lemma read_all_students_hit skip limit cookie w doc :
  authenticated cookie w →
  cache_lookup w (students_key skip limit) = Some doc → doc ≠ JNull →
  read_all_students skip limit cookie w
  = (Ok (PJson doc), set_trace (trace w ++ [ESelect "users"]) w).
Proof.
  intros [u Hu] Hhit Hdoc.
  destruct (get_current_user_ok _ _ _ Hu) as [Hrun Hdb].
  unfold read_all_students.
  erewrite bind_ok by exact Hrun.
  erewrite bind_ok by apply get_cached_response_run.
  change (cache_lookup (set_trace _ w)) with (cache_lookup w).
  rewrite Hhit. simpl. by destruct doc.
Qed.

(** X27. An empty page is the one page that [json.dumps] encodes: it is cached
    for 300 seconds, and within them the same request is answered from the
    cache with the empty list, the table [students] not being read. *)
Lemma read_all_students_empty_page skip limit cookie w :
  authenticated cookie w →
  cache_lookup w (students_key skip limit) = None →
  py_slice (students w) skip (skip + limit) = [] →
  let r1 := read_all_students skip limit cookie w in
  r1.1 = Ok (PStudents [])
  ∧ redis r1.2
    = <[students_key skip limit
        := mkCentry (JList []) (clock w + default_expire * second)]> (redis w)
  ∧ ∀ t, t < clock w + default_expire * second →
         authenticated cookie (set_clock t w) →
         let w2 := set_clock t r1.2 in
         (read_all_students skip limit cookie w2).1 = Ok (PJson (JList []))
         ∧ selects (new_events (read_all_students skip limit cookie) w2)
           = ["users"].
Proof.
  intros Hauth Hmiss Hnil r1.
  assert (Hr1 : r1 = (Ok (PStudents []),
    set_redis (<[students_key skip limit
                 := mkCentry (JList []) (clock w + default_expire * second)]>
                 (redis w))
      (set_trace (trace w ++ [ESelect "users"; ESelect "students"]) w))).
  { subst r1. destruct Hauth as [u Hu].
    destruct (get_current_user_ok _ _ _ Hu) as [Hrun Hdb].
    unfold read_all_students.
    erewrite bind_ok by exact Hrun.
    erewrite bind_ok by apply get_cached_response_run.
    change (cache_lookup (set_trace _ w)) with (cache_lookup w).
    rewrite Hmiss. change (default JNull None) with JNull. cbv beta iota.
    erewrite bind_ok by (by apply get_all_students_run).
    simpl students. rewrite Hnil. simpl.
    destruct w; simpl. by rewrite <- app_assoc. }
  rewrite Hr1. simpl. split; [done|]. split; [done|].
  intros t Ht Hauth2.
  set (w2 := set_clock t _).
  assert (Hhit : cache_lookup w2 (students_key skip limit) = Some (JList [])).
  { unfold cache_lookup, read_entry. subst w2. simpl.
    rewrite lookup_insert_eq. unfold live. simpl.
    by rewrite (proj2 (Z.ltb_lt _ _) Ht). }
  assert (Hauth3 : authenticated cookie w2)
    by (by apply (authenticated_indep cookie (set_clock t w))).
  rewrite (new_events_app _ w2 [ESelect "users"])
    by (by rewrite (read_all_students_hit skip limit cookie w2 (JList []))).
  by rewrite (read_all_students_hit skip limit cookie w2 (JList [])).
Qed.

(** X28. When nothing can be read under the key of student 1 (never cached, or
    past its deadline), GET /students/1 after the bulk delete is a 404. *)
Lemma bulk_delete_then_not_found w cookie :
  authenticated cookie w →
  cache_lookup w (student_key 1) = None →
  (read_student 1 cookie (background_delete_students [1; 2; 3] w).2).1
  = Raise (HTTPException 404 "Student not found").
Proof.
  intros Hauth Hmiss.
  pose proof (authenticated_db_up _ _ Hauth) as Hdb.
  assert (Hdel := delete_by_ids_run [1; 2; 3] w Hdb ltac:(done)).
  rewrite background_delete_ok by (by rewrite Hdel). rewrite Hdel. simpl.
  set (w' := set_redis _ _).
  assert (Hauth' : authenticated cookie w')
    by (by apply (authenticated_indep cookie w)).
  destruct Hauth' as [u Hu].
  destruct (get_current_user_ok _ _ _ Hu) as [Hrun Hdb'].
  unfold read_student.
  erewrite bind_ok by exact Hrun.
  erewrite bind_ok by apply get_cached_response_run.
  assert (cache_lookup (set_trace (trace w' ++ [ESelect "users"]) w')
            (student_key 1) = None) as ->.
  { unfold cache_lookup. subst w'. simpl.
    by do 2 apply read_entry_purged_None. }
  change (default JNull None) with JNull. cbv beta iota.
  erewrite bind_raise; [done|].
  rewrite get_student_run by done. cbv zeta.
  assert (find (λ s, bool_decide (id s = 1))
            (students (set_trace (trace w' ++ [ESelect "users"]) w')) = None) as ->;
    [|done].
  apply find_None_Forall. intros x Hx. subst w'. simpl in Hx.
  apply list_elem_of_filter in Hx as [Hx _].
  apply bool_decide_eq_false. intros Hid. apply Hx. rewrite Hid. by left.
Qed.

(** X29. The per-id route has the same flaw as the list route: a student read
    from the store cannot be encoded, so GET /students/{id} on a cold key
    fails after the SELECT and caches nothing. *)
Lemma read_student_cold student_id s cookie w :
  authenticated cookie w →
  cache_lookup w (student_key student_id) = None →
  find (λ s, bool_decide (id s = student_id)) (students w) = Some s →
  read_student student_id cookie w
  = (Raise (TypeError "Object of type Student is not JSON serializable"),
     set_trace (trace w ++ [ESelect "users"; ESelect "students"]) w).
Proof.
  intros [u Hu] Hmiss Hfind.
  destruct (get_current_user_ok _ _ _ Hu) as [Hrun Hdb].
  unfold read_student.
  erewrite bind_ok by exact Hrun.
  erewrite bind_ok by apply get_cached_response_run.
  change (cache_lookup (set_trace _ w)) with (cache_lookup w).
  rewrite Hmiss. change (default JNull None) with JNull. cbv beta iota.
  erewrite bind_ok by (rewrite get_student_run by done; cbv zeta; simpl students;
                       by rewrite Hfind).
  unfold set_cached_response, raise, mbind, M_bind. simpl.
  destruct w; simpl. by rewrite <- app_assoc.
Qed.

(** * Further properties of the module *)

(** A decidable fact about closed data, by evaluation. *)
Ltac by_decide := refine (bool_decide_unpack _ _); vm_compute; exact I.

(** ** The record store *)

Lemma next_rowid_gt ids x : x ∈ ids → x < next_rowid ids.
Proof.
  unfold next_rowid. induction ids as [|y ids IH]; intros Hx.
  - by apply not_elem_of_nil in Hx.
  - apply elem_of_cons in Hx as [->|Hx]; simpl; [lia|].
    specialize (IH Hx). lia.
Qed.

Lemma new_student_id_fresh table s : id (new_student table s) ∉ (id <$> table).
Proof.
  intros Hin. apply next_rowid_gt in Hin. simpl in Hin. lia.
Qed.

Lemma NoDup_ids_snoc table s :
  NoDup (id <$> table) → NoDup (id <$> (table ++ [new_student table s])).
Proof.
  intros Hnd. rewrite fmap_app. apply NoDup_app. split; [done|]. split.
  - intros x Hx [->|Hn]%elem_of_cons.
    + by apply (new_student_id_fresh table s).
    + by apply not_elem_of_nil in Hn.
  - apply NoDup_singleton.
Qed.

Lemma insert_rows_NoDup new table :
  NoDup (id <$> table) → NoDup (id <$> insert_rows table new).
Proof.
  revert table. induction new as [|s new IH]; intros table Hnd; [done|].
  simpl. apply IH. by apply NoDup_ids_snoc.
Qed.

Lemma insert_rows_length new table :
  length (insert_rows table new) = (length table + length new)%nat.
Proof.
  revert table. induction new as [|s new IH]; intros table; simpl; [lia|].
  rewrite IH, length_app. simpl. lia.
Qed.

Lemma insert_rows_prefix new table : table `prefix_of` insert_rows table new.
Proof.
  revert table. induction new as [|s new IH]; intros table; simpl; [done|].
  etrans; [|apply IH]. by apply prefix_app_r.
Qed.

Lemma replace_student_ids s' table :
  id <$> replace_student s' table = id <$> table.
Proof.
  unfold replace_student. rewrite <- list_fmap_compose.
  apply list_fmap_ext. intros i x _. simpl. by case_bool_decide.
Qed.

Lemma filter_ids_NoDup (P : Student → Prop) `{!∀ x, Decision (P x)} table :
  NoDup (id <$> table) → NoDup (id <$> filter P table).
Proof.
  intros Hnd. eapply sublist_NoDup; [exact Hnd|].
  apply fmap_sublist, sublist_filter.
Qed.

Lemma students_of_rows_length rows new :
  students_of_rows rows = Ok new → length new = length rows.
Proof.
  revert new. induction rows as [|row rows IH]; intros new; simpl.
  - by intros [= <-].
  - destruct (student_of_row row); [|done].
    destruct (students_of_rows rows) as [l|]; [|done].
    intros [= <-]. simpl. f_equal. by apply IH.
Qed.

Lemma students_of_rows_bad rows :
  (∃ row e, row ∈ rows ∧ student_of_row row = Raise e) →
  ∃ e, students_of_rows rows = Raise e.
Proof.
  intros (row & e & Hin & Hbad). induction rows as [|r rows IH].
  - by apply not_elem_of_nil in Hin.
  - simpl. destruct (student_of_row r) as [s|e'] eqn:Hr; [|by eexists].
    apply elem_of_cons in Hin as [->|Hin]; [congruence|].
    destruct (IH Hin) as [e'' ->]. by eexists.
Qed.

(** What each mutation of the store leaves in the table [students]. *)
Lemma insert_student_students sc w :
  students (StudentDatabase.insert_student sc w).2
  = if db_up w then students w ++ [new_student (students w) sc] else students w.
Proof.
  unfold StudentDatabase.insert_student, commit, select, db_access, emit, modify,
    gets, mbind, M_bind, mret, M_ret. simpl.
  destruct (db_up w) eqn:Hdb; simpl; [|done]. by rewrite Hdb.
Qed.

Lemma get_student_down student_id w :
  db_up w = false →
  StudentDatabase.get_student student_id w = (Raise OperationalError, w).
Proof.
  intros Hdb. unfold StudentDatabase.get_student, select, db_access, emit,
    modify, gets, raise, mbind, M_bind, mret, M_ret.
  by rewrite Hdb.
Qed.

Lemma update_student_students student_id d w :
  students (StudentDatabase.update_student student_id d w).2 = students w
  ∨ ∃ s, find (λ s, bool_decide (id s = student_id)) (students w) = Some s
         ∧ students (StudentDatabase.update_student student_id d w).2
           = replace_student (apply_update s d) (students w).
Proof.
  destruct (db_up w) eqn:Hdb.
  - destruct (find (λ s, bool_decide (id s = student_id)) (students w))
      as [s|] eqn:Hfind.
    + destruct (nulls_column d) eqn:Hnull.
      * left. unfold StudentDatabase.update_student.
        erewrite bind_ok
          by (rewrite get_student_run by done; cbv zeta; by rewrite Hfind).
        rewrite Hnull.
        unfold db_access, raise, mbind, M_bind. simpl. by rewrite Hdb.
      * right. exists s. split; [done|].
        by erewrite store_update_run.
    + left. unfold StudentDatabase.update_student.
      erewrite bind_raise
        by (rewrite get_student_run by done; cbv zeta; by rewrite Hfind).
      done.
  - left. unfold StudentDatabase.update_student.
    by erewrite bind_raise by (by apply get_student_down).
Qed.

Lemma delete_student_students student_id w :
  students (StudentDatabase.delete_student student_id w).2 = students w
  ∨ ∃ s, find (λ s, bool_decide (id s = student_id)) (students w) = Some s
         ∧ students (StudentDatabase.delete_student student_id w).2
           = filter (λ r, id r ≠ id s) (students w).
Proof.
  destruct (db_up w) eqn:Hdb.
  - destruct (find (λ s, bool_decide (id s = student_id)) (students w))
      as [s|] eqn:Hfind.
    + right. exists s. split; [done|]. by erewrite store_delete_run.
    + left. unfold StudentDatabase.delete_student.
      erewrite bind_raise
        by (rewrite get_student_run by done; cbv zeta; by rewrite Hfind).
      done.
  - left. unfold StudentDatabase.delete_student.
    by erewrite bind_raise by (by apply get_student_down).
Qed.

Lemma load_from_csv_students file_path w :
  match (StudentDatabase.load_from_csv file_path w).1 with
  | Ok _ =>
      ∃ rows new, files w !! file_path = Some rows
                  ∧ students_of_rows rows = Ok new
                  ∧ db_up w = true
                  ∧ forallb (λ s, sqlite_integer (sc_grade s)) new = true
                  ∧ students (StudentDatabase.load_from_csv file_path w).2
                    = insert_rows (students w) new
  | Raise _ => (StudentDatabase.load_from_csv file_path w).2 = w
  end.
Proof.
  unfold StudentDatabase.load_from_csv, commit, db_access, modify, gets, raise,
    mbind, M_bind, mret, M_ret. simpl.
  destruct (files w !! file_path) as [rows|]; [|done].
  destruct (students_of_rows rows) as [new|] eqn:Hnew; [|done]. simpl.
  destruct (db_up w); simpl; [|done].
  destruct (forallb _ new) eqn:Hfit; simpl; [|done]. by exists rows, new.
Qed.

Lemma delete_by_ids_students student_ids w :
  students (StudentDatabase.delete_students_by_ids student_ids w).2 = students w
  ∨ students (StudentDatabase.delete_students_by_ids student_ids w).2
    = filter (λ s, id s ∉ student_ids) (students w).
Proof.
  unfold StudentDatabase.delete_students_by_ids, commit, db_access, modify,
    mbind, M_bind, mret, M_ret.
  destruct student_ids; [by left|]. destruct (db_up w); simpl; auto.
Qed.

(** X1. Identifiers stay unique: when no two rows of [students] share an
    id, none do after [insert_student], [update_student], [delete_student],
    [load_from_csv] or [delete_students_by_ids], whatever the call returns. *)
Theorem store_keeps_ids_unique w :
  NoDup (id <$> students w) →
  (∀ student, NoDup (id <$> students (StudentDatabase.insert_student student w).2))
  ∧ (∀ student_id d,
       NoDup (id <$> students (StudentDatabase.update_student student_id d w).2))
  ∧ (∀ student_id,
       NoDup (id <$> students (StudentDatabase.delete_student student_id w).2))
  ∧ (∀ file_path,
       NoDup (id <$> students (StudentDatabase.load_from_csv file_path w).2))
  ∧ (∀ student_ids,
       NoDup (id <$> students
                (StudentDatabase.delete_students_by_ids student_ids w).2)).
Proof.
  intros Hnd. split; [|split; [|split; [|split]]].
  - intros sc. rewrite insert_student_students.
    destruct (db_up w); [|done]. by apply NoDup_ids_snoc.
  - intros sid d.
    destruct (update_student_students sid d w) as [->|(s & _ & ->)]; [done|].
    by rewrite replace_student_ids.
  - intros sid.
    destruct (delete_student_students sid w) as [->|(s & _ & ->)]; [done|].
    by apply filter_ids_NoDup.
  - intros path. pose proof (load_from_csv_students path w) as H.
    destruct (StudentDatabase.load_from_csv path w).1.
    + destruct H as (rows & new & _ & _ & _ & _ & ->).
      by apply insert_rows_NoDup.
    + by rewrite H.
  - intros ids.
    destruct (delete_by_ids_students ids w) as [->| ->]; [done|].
    by apply filter_ids_NoDup.
Qed.

Lemma store_keeps_ids_unique_witness :
  NoDup (id <$> students
           (StudentDatabase.load_from_csv "students.csv" (campus ∅)).2).
Proof.
  apply (store_keeps_ids_unique (campus ∅)). by_decide.
Defined.

Lemma find_snoc_fresh {A} (p : A → bool) l a :
  (∀ x, x ∈ l → p x = false) → p a = true → find p (l ++ [a]) = Some a.
Proof.
  intros Hl Ha. induction l as [|x l IH]; simpl; [by rewrite Ha|].
  rewrite (Hl x) by (by left). apply IH. intros y Hy. apply Hl. by right.
Qed.

Lemma find_id_absent student_id table :
  student_id ∉ (id <$> table) →
  find (λ s, bool_decide (id s = student_id)) table = None.
Proof.
  intros Hnin. apply find_None_Forall. intros x Hx.
  apply bool_decide_eq_false. intros <-. apply Hnin.
  apply list_elem_of_fmap. by exists x.
Qed.

Lemma find_id_some student_id table s :
  find (λ s, bool_decide (id s = student_id)) table = Some s →
  s ∈ table ∧ id s = student_id.
Proof.
  intros [Hin Hid]%find_some. split; [by apply list_elem_of_In|].
  by apply bool_decide_eq_true in Hid.
Qed.

Lemma find_replace_student student_id s s' table :
  find (λ s, bool_decide (id s = student_id)) table = Some s →
  id s' = id s →
  find (λ s, bool_decide (id s = student_id)) (replace_student s' table) = Some s'.
Proof.
  intros Hfind Hid.
  pose proof (find_id_some _ _ _ Hfind) as [_ Hs].
  unfold replace_student.
  induction table as [|r table IH]; [done|].
  rewrite fmap_cons. simpl in Hfind |- *.
  destruct (decide (id r = id s')) as [Hr|Hr].
  - rewrite (bool_decide_eq_true_2 _ Hr).
    by rewrite bool_decide_eq_true_2 by congruence.
  - rewrite (bool_decide_eq_false_2 _ Hr).
    destruct (decide (id r = student_id)) as [Hr'|Hr'].
    + rewrite (bool_decide_eq_true_2 _ Hr') in Hfind. by simplify_eq.
    + rewrite (bool_decide_eq_false_2 _ Hr') in Hfind |- *. by apply IH.
Qed.

Lemma filter_ne_replace_student student_id s' table :
  id s' = student_id →
  filter (λ r, id r ≠ student_id) (replace_student s' table)
  = filter (λ r, id r ≠ student_id) table.
Proof.
  intros Hid. unfold replace_student.
  induction table as [|r table IH]; [done|].
  rewrite fmap_cons, !filter_cons, IH.
  case_bool_decide as Hr.
  - rewrite decide_False by (intros Hx; apply Hx; congruence).
    by rewrite decide_False by (intros Hx; apply Hx; congruence).
  - done.
Qed.



(** X2. For a grade that fits an INTEGER of SQLite (64 bits, signed), in
    a table whose ids are positive and below the largest rowid,
    [insert_student] gives the new row an id that no row had, stores the
    fields as sent, appends the row, and [get_student] of that id returns
    it. *)
Theorem insert_student_then_get w student :
  db_up w = true →
  - 2 ^ 63 ≤ sc_grade student < 2 ^ 63 →
  (∀ x, x ∈ students w → 0 < id x < 2 ^ 63 - 1) →
  let r := StudentDatabase.insert_student student w in
  let s := new_student (students w) student in
  r.1 = Ok s
  ∧ ¬ (id s ∈ id <$> students w)
  ∧ surname s = sc_surname student ∧ name s = sc_name student
  ∧ faculty s = sc_faculty student ∧ course s = sc_course student
  ∧ grade s = sc_grade student
  ∧ students r.2 = students w ++ [s]
  ∧ (StudentDatabase.get_student (id s) r.2).1 = Ok s.
Proof.
  intros Hdb _ _ r s. subst r s. rewrite insert_student_run by done. simpl.
  split; [done|]. split; [apply (new_student_id_fresh (students w) student)|].
  do 5 (split; [done|]). split; [done|].
  rewrite get_student_run by done. simpl.
  rewrite (find_snoc_fresh _ _ (new_student (students w) student)); [done| |].
  - intros x Hx. apply bool_decide_eq_false. intros Heq.
    apply (new_student_id_fresh (students w) student).
    apply list_elem_of_fmap. by exists x.
  - by apply bool_decide_eq_true.
Qed.

Lemma insert_student_then_get_witness :
  (StudentDatabase.get_student 4
     (StudentDatabase.insert_student
        (mkStudentCreate "Orlov" "Oleg" "Math" "Logic" 4) (campus ∅)).2).1
  = Ok (mkStudent 4 "Orlov" "Oleg" "Math" "Logic" 4).
Proof.
  apply (insert_student_then_get (campus ∅)
           (mkStudentCreate "Orlov" "Oleg" "Math" "Logic" 4)).
  - reflexivity.
  - simpl. lia.
  - intros x Hx. simpl in Hx.
    repeat (apply elem_of_cons in Hx as [->|Hx]; [simpl; lia|]).
    by apply not_elem_of_nil in Hx.
Defined.

Lemma get_student_absent w student_id :
  db_up w = true → student_id ∉ (id <$> students w) →
  StudentDatabase.get_student student_id w
  = (Raise (HTTPException 404 "Student not found"),
     set_trace (trace w ++ [ESelect "students"]) w).
Proof.
  intros Hdb Hnin. rewrite get_student_run by done. cbv zeta.
  by rewrite (find_id_absent _ _ Hnin).
Qed.



(** X4. [delete_student] of an id that a row has answers with its message
    and removes the rows of that id and no other; afterwards [get_student]
    and a second [delete_student] of the id raise 404. *)
Theorem delete_student_then_not_found w student_id s :
  db_up w = true →
  find (λ s, bool_decide (id s = student_id)) (students w) = Some s →
  let r := StudentDatabase.delete_student student_id w in
  r.1 = Ok (JObj [("message", JStr "Student deleted successfully")])
  ∧ students r.2 = filter (λ x, id x ≠ student_id) (students w)
  ∧ (StudentDatabase.get_student student_id r.2).1
    = Raise (HTTPException 404 "Student not found")
  ∧ (StudentDatabase.delete_student student_id r.2).1
    = Raise (HTTPException 404 "Student not found").
Proof.
  intros Hdb Hfind r. subst r.
  pose proof (find_id_some _ _ _ Hfind) as [_ Hid].
  erewrite store_delete_run by done. simpl. rewrite Hid.
  split; [done|]. split; [done|].
  set (w1 := set_students _ _).
  assert (Hnin : student_id ∉ (id <$> students w1)).
  { subst w1. simpl. intros [x [-> Hx]]%list_elem_of_fmap.
    by apply list_elem_of_filter in Hx as [Hx _]. }
  pose proof (get_student_absent w1 student_id Hdb Hnin) as Hget.
  split; [by rewrite Hget|].
  unfold StudentDatabase.delete_student.
  by erewrite bind_raise by exact Hget.
Qed.

Lemma delete_student_then_not_found_witness :
  students (StudentDatabase.delete_student 2 (campus ∅)).2 = [ivanov; sidorov]
  ∧ (StudentDatabase.get_student 2
       (StudentDatabase.delete_student 2 (campus ∅)).2).1
    = Raise (HTTPException 404 "Student not found").
Proof.
  destruct (delete_student_then_not_found (campus ∅) 2 petrov)
    as (_ & H2 & H3 & _); [reflexivity|reflexivity|].
  split; [|exact H3]. rewrite H2. reflexivity.
Defined.

(** X5. [update_student] of an existing id, when the grade sent (if one
    is sent) fits an INTEGER of SQLite (64 bits, signed), changes the
    fields sent with a value and no other: the id and the fields left out
    stay, the rows of other ids and the number of rows stay, and
    [get_student] then returns the updated row. A field sent as null makes
    the commit fail with IntegrityError and the table is as before. *)
Theorem update_student_partial w student_id s d :
  db_up w = true →
  find (λ s, bool_decide (id s = student_id)) (students w) = Some s →
  (∀ g, su_grade d = SetTo g → - 2 ^ 63 ≤ g < 2 ^ 63) →
  let r := StudentDatabase.update_student student_id d w in
  (nulls_column d = false →
     r.1 = Ok (apply_update s d)
     ∧ id (apply_update s d) = student_id
     ∧ (su_surname d = Unset → surname (apply_update s d) = surname s)
     ∧ (su_name d = Unset → name (apply_update s d) = name s)
     ∧ (su_faculty d = Unset → faculty (apply_update s d) = faculty s)
     ∧ (su_course d = Unset → course (apply_update s d) = course s)
     ∧ (su_grade d = Unset → grade (apply_update s d) = grade s)
     ∧ (∀ g, su_grade d = SetTo g → grade (apply_update s d) = g)
     ∧ filter (λ x, id x ≠ student_id) (students r.2)
       = filter (λ x, id x ≠ student_id) (students w)
     ∧ length (students r.2) = length (students w)
     ∧ (StudentDatabase.get_student student_id r.2).1 = Ok (apply_update s d))
  ∧ (nulls_column d = true →
     r.1 = Raise IntegrityError ∧ students r.2 = students w).
Proof.
  intros Hdb Hfind _ r. subst r.
  pose proof (find_id_some _ _ _ Hfind) as [_ Hid].
  split; intros Hnull.
  - erewrite store_update_run by done. simpl.
    split; [done|]. split; [done|].
    split; [by intros ->|]. split; [by intros ->|]. split; [by intros ->|].
    split; [by intros ->|]. split; [by intros ->|].
    split; [by intros g ->|].
    split; [by apply filter_ne_replace_student|].
    split; [unfold replace_student; by rewrite length_fmap|].
    rewrite get_student_run by done. simpl.
    by rewrite (find_replace_student student_id s).
  - unfold StudentDatabase.update_student.
    erewrite bind_ok
      by (rewrite get_student_run by done; cbv zeta; by rewrite Hfind).
    rewrite Hnull. unfold db_access, raise, mbind, M_bind. simpl.
    by rewrite Hdb.
Qed.

Lemma update_student_partial_witness :
  students (StudentDatabase.update_student 2
              (mkStudentUpdate Unset Unset Unset Unset (SetTo 5)) (campus ∅)).2
  = [ivanov; mkStudent 2 "Petrov" "Petr" "Math" "Algebra" 5; sidorov]
  ∧ (StudentDatabase.update_student 2
       (mkStudentUpdate Unset SetNone Unset Unset Unset) (campus ∅)).1
    = Raise IntegrityError.
Proof.
  destruct (update_student_partial (campus ∅) 2 petrov
              (mkStudentUpdate Unset Unset Unset Unset (SetTo 5)))
    as [Hset _]; [reflexivity|reflexivity|by intros g [= <-]|].
  destruct (Hset eq_refl) as (_ & _ & _ & _ & _ & _ & _ & _ & _ & _ & _).
  split; [reflexivity|].
  apply (update_student_partial (campus ∅) 2 petrov
           (mkStudentUpdate Unset SetNone Unset Unset Unset));
    [reflexivity|reflexivity|discriminate|reflexivity].
Defined.



Lemma sqlite_integer_spec n :
  sqlite_integer n = true ↔ - 2 ^ 63 ≤ n < 2 ^ 63.
Proof.
  unfold sqlite_integer. by rewrite andb_true_iff, Z.leb_le, Z.ltb_lt.
Qed.

Lemma students_of_rows_good rows :
  (∀ row, row ∈ rows →
     ∃ s, student_of_row row = Ok s ∧ - 2 ^ 63 ≤ sc_grade s < 2 ^ 63) →
  ∃ new, students_of_rows rows = Ok new
         ∧ forallb (λ s, sqlite_integer (sc_grade s)) new = true.
Proof.
  intros Hgood. induction rows as [|row rows IH]; [by exists []|].
  simpl. destruct (Hgood row) as (s & -> & Hs); [by left|].
  destruct IH as (l & -> & Hl); [intros r Hr; apply Hgood; by right|].
  exists (s :: l). split; [done|]. simpl.
  by rewrite (proj2 (sqlite_integer_spec _) Hs).
Qed.

Lemma load_from_csv_run file_path rows new w :
  files w !! file_path = Some rows → students_of_rows rows = Ok new →
  db_up w = true →
  StudentDatabase.load_from_csv file_path w
  = if forallb (λ s, sqlite_integer (sc_grade s)) new
    then (Ok tt, set_students (insert_rows (students w) new) w)
    else (Raise OverflowError, w).
Proof.
  intros Hf Hnew Hdb.
  unfold StudentDatabase.load_from_csv, db_access, modify, gets, raise,
    mbind, M_bind. simpl. rewrite Hf, Hnew, Hdb.
  by destruct (forallb _ new).
Qed.

(** X7. [load_from_csv] is all or nothing. When it returns, every row of
    the file has become a student appended after the rows that were there;
    when it raises, the table is untouched. A missing file raises
    FileNotFoundError, and one row that lacks a column or whose grade
    [int] refuses makes the whole import raise. With the database up, a
    file whose rows all convert is imported when every grade fits an
    INTEGER of SQLite (64 bits, signed), and the import raises
    OverflowError when one grade does not. *)
Theorem load_from_csv_all_or_nothing w file_path :
  match (StudentDatabase.load_from_csv file_path w).1 with
  | Ok _ =>
      ∃ rows, files w !! file_path = Some rows
              ∧ length (students (StudentDatabase.load_from_csv file_path w).2)
                = (length (students w) + length rows)%nat
              ∧ students w
                `prefix_of` students (StudentDatabase.load_from_csv file_path w).2
  | Raise _ => (StudentDatabase.load_from_csv file_path w).2 = w
  end
  ∧ (files w !! file_path = None →
     (StudentDatabase.load_from_csv file_path w).1 = Raise FileNotFoundError)
  ∧ (∀ rows,
       files w !! file_path = Some rows →
       (∃ row e, row ∈ rows ∧ student_of_row row = Raise e) →
       ∃ e, (StudentDatabase.load_from_csv file_path w).1 = Raise e)
  ∧ (∀ rows,
       files w !! file_path = Some rows → db_up w = true →
       (∀ row, row ∈ rows →
          ∃ s, student_of_row row = Ok s ∧ - 2 ^ 63 ≤ sc_grade s < 2 ^ 63) →
       (StudentDatabase.load_from_csv file_path w).1 = Ok tt)
  ∧ (∀ rows new s,
       files w !! file_path = Some rows → db_up w = true →
       students_of_rows rows = Ok new →
       s ∈ new → ¬ (- 2 ^ 63 ≤ sc_grade s < 2 ^ 63) →
       (StudentDatabase.load_from_csv file_path w).1 = Raise OverflowError).
Proof.
  split; [|split; [|split; [|split]]].
  - pose proof (load_from_csv_students file_path w) as H.
    destruct (StudentDatabase.load_from_csv file_path w).1; [|done].
    destruct H as (rows & new & Hf & Hnew & _ & _ & ->).
    exists rows. split; [done|]. split.
    + by rewrite insert_rows_length, (students_of_rows_length rows new).
    + apply insert_rows_prefix.
  - intros Hf. unfold StudentDatabase.load_from_csv, gets, raise, mbind, M_bind.
    simpl. by rewrite Hf.
  - intros rows Hf Hbad. destruct (students_of_rows_bad rows Hbad) as [e He].
    exists e. unfold StudentDatabase.load_from_csv, gets, raise, mbind, M_bind.
    simpl. by rewrite Hf, He.
  - intros rows Hf Hdb Hgood.
    destruct (students_of_rows_good rows Hgood) as (new & Hnew & Hfit).
    by rewrite (load_from_csv_run file_path rows new), Hfit.
  - intros rows new s Hf Hdb Hnew Hs Hbig.
    rewrite (load_from_csv_run file_path rows new) by done.
    destruct (forallb _ new) eqn:Hfit; [|done].
    destruct Hbig. apply sqlite_integer_spec.
    by apply (proj1 (forallb_forall _ _) Hfit), list_elem_of_In.
Qed.

Lemma load_from_csv_all_or_nothing_witness :
  (StudentDatabase.load_from_csv "missing.csv" (campus ∅)).1
  = Raise FileNotFoundError
  ∧ (StudentDatabase.load_from_csv "students.csv" (campus ∅)).1 = Ok tt.
Proof.
  split.
  - apply (proj1 (proj2 (load_from_csv_all_or_nothing (campus ∅) "missing.csv"))).
    reflexivity.
  - apply (proj1 (proj2 (proj2 (proj2
             (load_from_csv_all_or_nothing (campus ∅) "students.csv"))))
             students_csv); [reflexivity|reflexivity|].
    intros row Hrow. apply list_elem_of_singleton in Hrow as ->.
    eexists. split; [reflexivity|]. simpl. lia.
Defined.

(** ** The session store *)

Lemma str_length_app s t :
  String.length (s +:+ t) = (String.length s + String.length t)%nat.
Proof.
  induction s as [|a s IH]; [done|]. rewrite str_app_cons. simpl. by rewrite IH.
Qed.

Lemma str_app_inj_r s s' t : s +:+ t = s' +:+ t → s = s'.
Proof.
  revert s'. induction s as [|a s IH]; intros [|b s'] Heq.
  - done.
  - apply (f_equal String.length) in Heq.
    rewrite !str_length_app in Heq. simpl in Heq. lia.
  - apply (f_equal String.length) in Heq.
    rewrite !str_length_app in Heq. simpl in Heq. lia.
  - rewrite !str_app_cons in Heq. injection Heq as -> Heq.
    f_equal. by apply IH.
Qed.

Lemma verify_password_iff p q :
  verify_password p (hash_password q) = true ↔ p = q.
Proof.
  unfold verify_password, hash_password. rewrite bool_decide_eq_true. split.
  - apply str_app_inj_r.
  - by intros ->.
Qed.

Lemma register_run user w :
  db_up w = true →
  StudentDatabase.register_user user w
  = let w1 := set_trace (trace w ++ [ESelect "users"]) w in
    match find (λ u, bool_decide (username u = ur_username user)) (users w) with
    | Some _ => (Raise (HTTPException 400 "Username already registered"), w1)
    | None =>
        let new_user :=
          mkUser (next_rowid (user_id <$> users w)) (ur_username user)
                 (hash_password (ur_password user)) None None in
        (Ok new_user, set_users (users w ++ [new_user]) w1)
    end.
Proof.
  intros Hdb. unfold StudentDatabase.register_user.
  erewrite bind_ok by (by apply first_user_run).
  destruct (find _ (users w)); [done|].
  unfold gets, commit, db_access, modify, mbind, M_bind, mret, M_ret. simpl.
  by rewrite Hdb.
Qed.

Lemma find_username_none name (table : list User) :
  (∀ u, u ∈ table → username u ≠ name) →
  find (λ u, bool_decide (username u = name)) table = None.
Proof.
  intros H. apply find_None_Forall. intros x Hx.
  apply bool_decide_eq_false. by apply H.
Qed.

Lemma find_username_some name (table : list User) :
  (∃ u, u ∈ table ∧ username u = name) →
  ∃ u, find (λ u, bool_decide (username u = name)) table = Some u.
Proof.
  intros (u & Hu & Hname).
  destruct (find (λ u, bool_decide (username u = name)) table) eqn:Hf;
    [by eexists|].
  apply (proj1 (find_None_Forall _ _)) with (x := u) in Hf; [|done].
  by apply bool_decide_eq_false in Hf.
Qed.

(** X8. [register_user] refuses a username that a user already has with
    400 and changes no user; a new username is stored in a new row with a
    new id, the transformed password and no session, after which the same
    username is refused whatever the password. Usernames that were
    pairwise different stay so. *)
Theorem register_user_unique_names w user :
  db_up w = true →
  let r := StudentDatabase.register_user user w in
  ((∃ u, u ∈ users w ∧ username u = ur_username user) →
     r.1 = Raise (HTTPException 400 "Username already registered")
     ∧ users r.2 = users w)
  ∧ ((∀ u, u ∈ users w → username u ≠ ur_username user) →
     ∃ new,
       r.1 = Ok new
       ∧ username new = ur_username user
       ∧ password new = hash_password (ur_password user)
       ∧ session_token new = None ∧ token_expiry new = None
       ∧ ¬ (user_id new ∈ user_id <$> users w)
       ∧ users r.2 = users w ++ [new]
       ∧ ∀ pw, (StudentDatabase.register_user
                  (mkUserRegister (ur_username user) pw) r.2).1
               = Raise (HTTPException 400 "Username already registered"))
  ∧ (NoDup (username <$> users w) → NoDup (username <$> users r.2)).
Proof.
  intros Hdb r. subst r. rewrite register_run by done. cbv zeta.
  split; [|split].
  - intros Hex. by destruct (find_username_some _ _ Hex) as [u ->].
  - intros Hnone. rewrite (find_username_none _ _ Hnone). simpl.
    eexists. split; [done|]. do 4 (split; [done|]).
    split.
    { intros Hin. apply next_rowid_gt in Hin. simpl in Hin. lia. }
    split; [done|]. intros pw. rewrite register_run by done. simpl.
    destruct (find_username_some (ur_username user)
                (users w ++ [mkUser (next_rowid (user_id <$> users w))
                               (ur_username user)
                               (hash_password (ur_password user)) None None]))
      as [u ->]; [|done].
    eexists. split; [apply elem_of_app; right; by left|done].
  - intros Hnd.
    destruct (find (λ u, bool_decide (username u = ur_username user)) (users w))
      eqn:Hf; [done|].
    simpl. rewrite fmap_app. apply NoDup_app. split; [done|]. split.
    + intros x [u [-> Hu]]%list_elem_of_fmap [Heq|Hn]%elem_of_cons.
      * apply (proj1 (find_None_Forall _ _)) with (x := u) in Hf; [|done].
        by apply bool_decide_eq_false in Hf.
      * by apply not_elem_of_nil in Hn.
    + apply NoDup_singleton.
Qed.

Lemma register_user_unique_names_witness :
  (StudentDatabase.register_user (mkUserRegister "admin" "other")
     (session_world None 0)).1
  = Raise (HTTPException 400 "Username already registered")
  ∧ NoDup (username <$> users
             (StudentDatabase.register_user (mkUserRegister "guest" "pw")
                (session_world None 0)).2).
Proof.
  split.
  - apply (register_user_unique_names (session_world None 0)
             (mkUserRegister "admin" "other") eq_refl).
    exists (admin_with None). split; [by left|done].
  - apply (register_user_unique_names (session_world None 0)
             (mkUserRegister "guest" "pw") eq_refl). by_decide.
Defined.

(** X9. The password check accepts the password that was transformed and
    no other string; so after a username was registered with a password,
    a login with that username succeeds with that password and stores the
    token, and with any other password it is a 401 that changes no user. *)
Theorem register_then_login w user token :
  db_up w = true →
  (∀ u, u ∈ users w → username u ≠ ur_username user) →
  let w1 := (StudentDatabase.register_user user w).2 in
  (∀ p q, verify_password p (hash_password q) = true ↔ p = q)
  ∧ (∃ u, (StudentDatabase.login_user
             (mkUserLogin (ur_username user) (ur_password user)) token w1).1
          = Ok u
          ∧ username u = ur_username user ∧ session_token u = Some token)
  ∧ (∀ p, p ≠ ur_password user →
       (StudentDatabase.login_user (mkUserLogin (ur_username user) p) token w1).1
       = Raise (HTTPException 401 "Incorrect username or password")
       ∧ users (StudentDatabase.login_user
                  (mkUserLogin (ur_username user) p) token w1).2
         = users w1).
Proof.
  intros Hdb Hnone w1. subst w1. split; [apply verify_password_iff|].
  rewrite register_run by done. cbv zeta.
  rewrite (find_username_none _ _ Hnone). simpl.
  set (new := mkUser _ _ _ _ _). set (w1 := set_users _ _).
  assert (Hfind : ∀ p,
    find (λ u, bool_decide (username u = ul_username (mkUserLogin (ur_username user) p)))
         (users w1) = Some new).
  { intros p. subst w1. simpl. apply find_snoc_fresh.
    - intros x Hx. apply bool_decide_eq_false. by apply Hnone.
    - by apply bool_decide_eq_true. }
  split.
  - rewrite login_run by done. cbv zeta. rewrite Hfind. simpl.
    rewrite (proj2 (verify_password_iff _ _) eq_refl). simpl.
    eexists. split; [done|]. done.
  - intros p Hp. rewrite login_run by done. cbv zeta. rewrite Hfind. simpl.
    destruct (verify_password p (hash_password (ur_password user))) eqn:Hv; [|done].
    by apply verify_password_iff in Hv.
Qed.

Lemma register_then_login_witness :
  let w1 := (StudentDatabase.register_user (mkUserRegister "guest" "pw")
               (session_world None 0)).2 in
  (StudentDatabase.login_user (mkUserLogin "guest" "pw1") "tok" w1).1
  = Raise (HTTPException 401 "Incorrect username or password").
Proof.
  intros w1.
  destruct (register_then_login (session_world None 0)
              (mkUserRegister "guest" "pw") "tok" eq_refl)
    as (_ & _ & H).
  - intros u Hu. apply list_elem_of_singleton in Hu as ->. discriminate.
  - apply (H "pw1"). discriminate.
Defined.

Lemma login_raise_cases user token w e :
  (StudentDatabase.login_user user token w).1 = Raise e →
  users (StudentDatabase.login_user user token w).2 = users w
  ∧ (if db_up w then e = HTTPException 401 "Incorrect username or password"
     else e = OperationalError).
Proof.
  destruct (db_up w) eqn:Hdb.
  - rewrite login_run by done. cbv zeta.
    destruct (find _ (users w)) as [u|]; [|by intros [= <-]].
    destruct (verify_password _ _); [done|by intros [= <-]].
  - unfold StudentDatabase.login_user.
    erewrite bind_raise by (by apply first_user_down). by intros [= <-].
Qed.

(** X10. A login that fails stores no token: the rows of [users] are as
    before. With the database up the failure is the 401 "Incorrect
    username or password", also for a username that nobody has. *)
Theorem failed_login_changes_no_user w user token :
  (∀ e, (StudentDatabase.login_user user token w).1 = Raise e →
        users (StudentDatabase.login_user user token w).2 = users w
        ∧ (db_up w = true →
           e = HTTPException 401 "Incorrect username or password"))
  ∧ (db_up w = true →
     (∀ u, u ∈ users w → username u ≠ ul_username user) →
     (StudentDatabase.login_user user token w).1
     = Raise (HTTPException 401 "Incorrect username or password")).
Proof.
  split.
  - intros e He. destruct (login_raise_cases _ _ _ _ He) as [Hu Hc].
    split; [done|]. intros Hdb. by rewrite Hdb in Hc.
  - intros Hdb Hnone. rewrite login_run by done. cbv zeta.
    by rewrite (find_username_none _ _ Hnone).
Qed.

Lemma failed_login_changes_no_user_witness :
  users (StudentDatabase.login_user (mkUserLogin "admin" "guess") "tok"
           (session_world None 0)).2
  = users (session_world None 0).
Proof.
  apply (proj1 (failed_login_changes_no_user (session_world None 0)
                  (mkUserLogin "admin" "guess") "tok")
           (HTTPException 401 "Incorrect username or password")).
  reflexivity.
Defined.

(** X11. In a zone without daylight saving time and before the year
    2242: after a successful login with a non-empty token that no user
    held, the token is accepted as that user at every moment up to one
    second before the clock of the login plus 24 hours, and no user is
    changed by the check; at every moment after that clock plus 24 hours
    it is refused. *)
Theorem login_session_lasts_a_day w user token u1 :
  (StudentDatabase.login_user user token w).1 = Ok u1 →
  token ≠ "" →
  (∀ u, u ∈ users w → session_token u ≠ Some token) →
  dst_periods (zone w) = [] →
  0 ≤ clock w < 2 ^ 33 * 1000000 →
  let w1 := (StudentDatabase.login_user user token w).2 in
  (∀ now, now ≤ clock w + 86400000000 - 1000000 →
     (StudentDatabase.get_current_user token (set_clock now w1)).1 = Ok (Some u1)
     ∧ users (StudentDatabase.get_current_user token (set_clock now w1)).2
       = users w1)
  ∧ (∀ now, clock w + 86400000000 < now →
     (StudentDatabase.get_current_user token (set_clock now w1)).1 = Ok None).
Proof.
  intros Hok Htok Hfresh Hz Hclock w1. subst w1.
  pose proof (login_ok_db_up _ _ _ _ Hok) as Hdb.
  revert Hok. rewrite login_run by done. cbv zeta.
  rewrite login_expiry_fixed by done.
  destruct (find _ (users w)) as [u|] eqn:Hfind; [|done].
  destruct (verify_password _ _); [|done].
  simpl. intros [= <-].
  set (exp := (clock w + 86400000000) `quot` 1000000).
  set (u1 := with_session u (Some token) (Some exp)).
  assert (Hin : u ∈ users w) by (apply list_elem_of_In; by eapply find_some).
  assert (Hf : find (holds_token token) (replace_user u1 (users w)) = Some u1)
    by (by apply (find_holds_replace token u)).
  destruct (quot_day_bounds (clock w) ltac:(lia)) as (Hlo & Hhi & Hpos).
  fold exp in Hlo, Hhi, Hpos.
  split.
  - intros now Hnow. rewrite validate_run by done. simpl. rewrite Hf. simpl.
    unfold timestamp_gt, second.
    replace (exp * 1000000 <? now) with false
      by (symmetry; apply Z.ltb_ge; lia).
    by rewrite andb_false_r.
  - intros now Hnow. rewrite validate_run by done. simpl. rewrite Hf. simpl.
    unfold timestamp_gt, second.
    replace (exp * 1000000 <? now) with true by (symmetry; apply Z.ltb_lt; lia).
    replace (exp =? 0) with false by (symmetry; apply Z.eqb_neq; lia).
    done.
Qed.

Lemma login_session_lasts_a_day_witness :
  let w1 := (StudentDatabase.login_user admin_login "fresh-token"
               (session_world None 1700000000000000)).2 in
  (StudentDatabase.get_current_user "fresh-token"
     (set_clock 1700086399000000 w1)).1
  = Ok (Some (mkUser 1 "admin" (hash_password "admin123") (Some "fresh-token")
                (Some 1700086400)))
  ∧ (StudentDatabase.get_current_user "fresh-token"
       (set_clock 1700086400000001 w1)).1 = Ok None.
Proof.
  intros w1.
  destruct (login_session_lasts_a_day (session_world None 1700000000000000)
              admin_login "fresh-token"
              (mkUser 1 "admin" (hash_password "admin123") (Some "fresh-token")
                      (Some 1700086400)))
    as [Hin Hout].
  - reflexivity.
  - discriminate.
  - intros u Hu. apply list_elem_of_singleton in Hu as ->. discriminate.
  - reflexivity.
  - vm_compute. split; [discriminate|reflexivity].
  - split.
    + apply (Hin 1700086399000000). vm_compute. discriminate.
    + apply (Hout 1700086400000001). reflexivity.
Defined.

Lemma logout_run tok w :
  db_up w = true →
  StudentDatabase.logout_user tok w
  = let w1 := set_trace (trace w ++ [ESelect "users"]) w in
    (Ok (JObj [("message", JStr "Logged out successfully")]),
     match find (holds_token tok) (users w) with
     | Some u => set_users (replace_user (with_session u None None) (users w)) w1
     | None => w1
     end).
Proof.
  intros Hdb. unfold StudentDatabase.logout_user.
  erewrite bind_ok by (by apply first_user_run).
  destruct (find _ (users w)); [|done].
  unfold commit, db_access, modify, mbind, M_bind, mret, M_ret. simpl.
  by rewrite Hdb.
Qed.

Lemma find_filter_singleton tok u (l : list User) :
  filter (λ r, holds_token tok r = true) l = [u] →
  find (holds_token tok) l = Some u.
Proof.
  induction l as [|r l IH]; [done|].
  rewrite filter_cons. simpl. destruct (holds_token tok r) eqn:Hr.
  - rewrite decide_True by done. by intros [= ->].
  - rewrite decide_False by done. exact IH.
Qed.

(** X12. [logout_user] always answers with its message. A token that no
    user holds changes no user. A token held by one user is cleared with
    its expiry: nobody holds it afterwards, the number of users is the
    same, the token is refused at any time, and a second logout changes
    nothing. *)
Theorem logout_clears_session w tok :
  db_up w = true →
  let r := StudentDatabase.logout_user tok w in
  r.1 = Ok (JObj [("message", JStr "Logged out successfully")])
  ∧ ((∀ u, u ∈ users w → session_token u ≠ Some tok) → users r.2 = users w)
  ∧ (∀ u, filter (λ x, holds_token tok x = true) (users w) = [u] →
       (∀ x, x ∈ users r.2 → session_token x ≠ Some tok)
       ∧ length (users r.2) = length (users w)
       ∧ (∀ now, (StudentDatabase.get_current_user tok (set_clock now r.2)).1
                 = Ok None)
       ∧ users (StudentDatabase.logout_user tok r.2).2 = users r.2).
Proof.
  intros Hdb r. subst r. rewrite logout_run by done. cbv zeta. simpl.
  split; [done|]. split.
  - intros Hnone.
    assert (find (holds_token tok) (users w) = None) as ->; [|done].
    apply find_None_Forall. intros x Hx. apply holds_token_false. auto.
  - intros u Huniq. rewrite (find_filter_singleton _ _ _ Huniq). simpl.
    pose proof (replace_user_clears tok u _ Huniq) as Hclr.
    pose proof (filter_nil_find tok _ Hclr) as Hnf.
    split; [|split; [|split]].
    + intros x Hx. apply holds_token_false.
      by apply (proj1 (find_None_Forall _ _) Hnf).
    + unfold replace_user. by rewrite length_fmap.
    + intros now. destruct (decide (tok = "")) as [->|Htok]; [done|].
      rewrite validate_run by done. simpl. by rewrite Hnf.
    + rewrite logout_run by done. simpl. by rewrite Hnf.
Qed.

Lemma logout_clears_session_witness :
  users (StudentDatabase.logout_user "s3cr3t-token"
           (session_world (Some 1700086400) 1700000000000000)).2
  = [mkUser 1 "admin" (hash_password "admin123") None None]
  ∧ (StudentDatabase.get_current_user "s3cr3t-token"
       (set_clock 1700000001000000
          (StudentDatabase.logout_user "s3cr3t-token"
             (session_world (Some 1700086400) 1700000000000000)).2)).1
    = Ok None.
Proof.
  split; [reflexivity|].
  destruct (logout_clears_session
              (session_world (Some 1700086400) 1700000000000000)
              "s3cr3t-token" eq_refl) as (_ & _ & H).
  destruct (H (admin_with (Some 1700086400)) eq_refl) as (_ & _ & Hv & _).
  apply Hv.
Defined.

(** ** The gateway: authentication first *)

Lemma run_pair {A} (m : M A) w : m w = ((m w).1, (m w).2).
Proof. by destruct (m w). Qed.

Lemma validate_down tok w :
  db_up w = false → tok ≠ "" →
  StudentDatabase.get_current_user tok w = (Raise OperationalError, w).
Proof.
  intros Hdb Htok. unfold StudentDatabase.get_current_user, falsy.
  rewrite bool_decide_eq_false_2 by done.
  by erewrite bind_raise by (by apply first_user_down).
Qed.

(** The dependency writes to [users] and to the trace only. *)
Lemma get_current_user_frame cookie w :
  let w' := (get_current_user cookie w).2 in
  students w' = students w ∧ redis w' = redis w ∧ tasks w' = tasks w
  ∧ files w' = files w ∧ clock w' = clock w ∧ db_up w' = db_up w.
Proof.
  unfold get_current_user, unauthorized.
  destruct cookie as [tok|]; [|done].
  unfold falsy. case_bool_decide as Htok; [done|].
  unfold mbind, M_bind. destruct (db_up w) eqn:Hdb.
  - rewrite validate_run by done. cbv zeta.
    destruct (find (holds_token tok) (users w)) as [u|]; [|by simpl].
    destruct (truthy_expiry _ && _); simpl; by rewrite ?Hdb.
  - rewrite validate_down by done. simpl. by rewrite Hdb.
Qed.

(** X13. The dependency [get_current_user] refuses a request without the
    cookie, or with an empty one, with 401 "Not authenticated" and without
    looking at the database; with the database up, a token that no user
    holds is refused with 401 "Invalid or expired session token", and no
    user is changed. *)
Theorem dependency_rejects_missing_cookie w :
  get_current_user None w = (Raise (HTTPException 401 "Not authenticated"), w)
  ∧ get_current_user (Some "") w
    = (Raise (HTTPException 401 "Not authenticated"), w)
  ∧ (∀ tok, db_up w = true →
       (∀ u, u ∈ users w → session_token u ≠ Some tok) →
       (get_current_user (Some tok) w).1
       = Raise (HTTPException 401
                  (if bool_decide (tok = "") then "Not authenticated"
                   else "Invalid or expired session token"))
       ∧ users (get_current_user (Some tok) w).2 = users w).
Proof.
  split; [done|]. split; [done|].
  intros tok Hdb Hnone. unfold get_current_user, unauthorized, falsy.
  case_bool_decide as Htok; [done|].
  unfold mbind, M_bind. rewrite validate_run by done. cbv zeta.
  assert (find (holds_token tok) (users w) = None) as ->; [|done].
  apply find_None_Forall. intros x Hx. apply holds_token_false. auto.
Qed.

Lemma dependency_rejects_missing_cookie_witness :
  (get_current_user (Some "stolen") (campus ∅)).1
  = Raise (HTTPException 401 "Invalid or expired session token").
Proof.
  apply (proj2 (proj2 (dependency_rejects_missing_cookie (campus ∅))) "stolen").
  - reflexivity.
  - intros u Hu. apply list_elem_of_singleton in Hu as ->. discriminate.
Defined.

(** X14. A request that the dependency refuses goes no further: every
    protected endpoint raises the exception of the dependency, and the
    table of students, the keyspace and the queue of tasks are as they
    were. *)
Theorem unauthenticated_requests_touch_nothing w cookie e :
  (get_current_user cookie w).1 = Raise e →
  let w' := (get_current_user cookie w).2 in
  students w' = students w ∧ redis w' = redis w ∧ tasks w' = tasks w
  ∧ (∀ file_path, load_csv_from_file file_path cookie w = (Raise e, w'))
  ∧ (∀ student_ids, delete_students_bulk student_ids cookie w = (Raise e, w'))
  ∧ (∀ student, create_student student cookie w = (Raise e, w'))
  ∧ (∀ skip limit, read_all_students skip limit cookie w = (Raise e, w'))
  ∧ (∀ student_id, read_student student_id cookie w = (Raise e, w'))
  ∧ (∀ student_id d, update_student student_id d cookie w = (Raise e, w'))
  ∧ (∀ student_id, delete_student student_id cookie w = (Raise e, w'))
  ∧ (∀ faculty, get_faculty_students faculty cookie w = (Raise e, w'))
  ∧ get_unique_courses cookie w = (Raise e, w')
  ∧ logout_user cookie w = (Raise e, w').
Proof.
  intros He w'. subst w'.
  pose proof (get_current_user_frame cookie w) as (Hs & Hr & Ht & _).
  assert (Hrun : get_current_user cookie w
                 = (Raise e, (get_current_user cookie w).2))
    by (by rewrite (run_pair (get_current_user cookie) w), He).
  split; [done|]. split; [done|]. split; [done|].
  repeat split; intros;
    by (unfold load_csv_from_file, delete_students_bulk, create_student,
          read_all_students, read_student, update_student, delete_student,
          get_faculty_students, get_unique_courses, logout_user;
        erewrite bind_raise by exact Hrun).
Qed.

Lemma unauthenticated_requests_touch_nothing_witness :
  delete_student 1 None (campus warm_cache)
  = (Raise (HTTPException 401 "Not authenticated"), campus warm_cache).
Proof.
  apply (unauthenticated_requests_touch_nothing (campus warm_cache) None
           (HTTPException 401 "Not authenticated") eq_refl).
Defined.

(** X15. The bulk routes check their input before queueing: an empty list
    of ids is answered with 400 "No student IDs provided", a path without
    a file with 404 "File not found", and in both cases no task is queued
    and students and keyspace are untouched. *)
Theorem bulk_routes_refuse_bad_input w cookie :
  authenticated cookie w →
  (let r := delete_students_bulk [] cookie w in
   r.1 = Raise (HTTPException 400 "No student IDs provided")
   ∧ tasks r.2 = tasks w ∧ students r.2 = students w ∧ redis r.2 = redis w)
  ∧ (∀ file_path, files w !! file_path = None →
       let r := load_csv_from_file file_path cookie w in
       r.1 = Raise (HTTPException 404 "File not found")
       ∧ tasks r.2 = tasks w ∧ students r.2 = students w ∧ redis r.2 = redis w).
Proof.
  intros [u Hu]. destruct (get_current_user_ok _ _ _ Hu) as [Hrun Hdb].
  split.
  - unfold delete_students_bulk. by erewrite bind_ok by exact Hrun.
  - intros path Hf. unfold load_csv_from_file.
    erewrite bind_ok by exact Hrun.
    unfold gets, raise, mbind, M_bind. simpl. by rewrite Hf.
Qed.

Lemma bulk_routes_refuse_bad_input_witness :
  (load_csv_from_file "missing.csv" admin_cookie (campus ∅)).1
  = Raise (HTTPException 404 "File not found").
Proof.
  apply (proj2 (bulk_routes_refuse_bad_input (campus ∅) admin_cookie
                  ltac:(by exists (admin_with (Some 1700086400))))
           "missing.csv").
  reflexivity.
Defined.



(** ** The derived caches *)

Lemma store_unique_courses_run w :
  db_up w = true →
  StudentDatabase.get_unique_courses w
  = (Ok (distinct (course <$> students w)),
     set_trace (trace w ++ [ESelect "students"]) w).
Proof.
  intros Hdb. unfold StudentDatabase.get_unique_courses, select, db_access, emit,
    modify, gets, mbind, M_bind, mret, M_ret.
  by rewrite Hdb.
Qed.

Lemma get_unique_courses_hit cookie w doc :
  authenticated cookie w →
  cache_lookup w unique_courses_key = Some doc → doc ≠ JNull →
  get_unique_courses cookie w
  = (Ok (PJson doc), set_trace (trace w ++ [ESelect "users"]) w).
Proof.
  intros [u Hu] Hhit Hdoc.
  destruct (get_current_user_ok _ _ _ Hu) as [Hrun Hdb].
  unfold get_unique_courses.
  erewrite bind_ok by exact Hrun.
  erewrite bind_ok by apply get_cached_response_run.
  change (cache_lookup (set_trace _ w)) with (cache_lookup w).
  rewrite Hhit. simpl. by destruct doc.
Qed.

Lemma get_unique_courses_miss cookie w :
  authenticated cookie w →
  cache_lookup w unique_courses_key = None →
  get_unique_courses cookie w
  = (Ok (py_strs (distinct (course <$> students w))),
     set_redis
       (<[unique_courses_key
          := mkCentry (JList (JStr <$> distinct (course <$> students w)))
                      (clock w + default_expire * second)]> (redis w))
       (set_trace (trace w ++ [ESelect "users"; ESelect "students"]) w)).
Proof.
  intros [u Hu] Hmiss.
  destruct (get_current_user_ok _ _ _ Hu) as [Hrun Hdb].
  unfold get_unique_courses.
  erewrite bind_ok by exact Hrun.
  erewrite bind_ok by apply get_cached_response_run.
  change (cache_lookup (set_trace _ w)) with (cache_lookup w).
  rewrite Hmiss. change (default JNull None) with JNull. cbv beta iota.
  erewrite bind_ok by (by apply store_unique_courses_run).
  simpl. destruct w; simpl. by rewrite <- app_assoc.
Qed.

(** X17. GET /courses/ is a working read-through: on a cold key it reads
    the table, answers with the distinct courses and caches that list for
    300 seconds; within them the same request gets the same payload
    without the table being read; from the deadline on the table is read
    again. *)
Theorem courses_read_through w cookie :
  authenticated cookie w →
  cache_lookup w unique_courses_key = None →
  let r1 := get_unique_courses cookie w in
  r1.1 = Ok (py_strs (distinct (course <$> students w)))
  ∧ selects (new_events (get_unique_courses cookie) w) = ["users"; "students"]
  ∧ (∀ t, authenticated cookie (set_clock t w) →
       let w2 := set_clock t r1.2 in
       (t < clock w + default_expire * second →
          (get_unique_courses cookie w2).1 = r1.1
          ∧ selects (new_events (get_unique_courses cookie) w2) = ["users"])
       ∧ (clock w + default_expire * second ≤ t →
          selects (new_events (get_unique_courses cookie) w2)
          = ["users"; "students"])).
Proof.
  intros Hauth Hmiss r1. subst r1.
  rewrite (new_events_app _ w [ESelect "users"; ESelect "students"])
    by (by rewrite get_unique_courses_miss).
  rewrite get_unique_courses_miss by done. simpl.
  split; [done|]. split; [done|].
  intros t Hauth2. set (w2 := set_clock t _).
  assert (Hauth3 : authenticated cookie w2)
    by (by apply (authenticated_indep cookie (set_clock t w))).
  split; intros Ht.
  - assert (Hhit : cache_lookup w2 unique_courses_key
                   = Some (JList (JStr <$> distinct (course <$> students w)))).
    { unfold cache_lookup, read_entry. subst w2. simpl.
      rewrite lookup_insert_eq. unfold live. simpl.
      by rewrite (proj2 (Z.ltb_lt _ _) Ht). }
    rewrite (new_events_app _ w2 [ESelect "users"])
      by (by rewrite (get_unique_courses_hit cookie w2 _ Hauth3 Hhit)).
    by rewrite (get_unique_courses_hit cookie w2 _ Hauth3 Hhit).
  - assert (Hcold : cache_lookup w2 unique_courses_key = None).
    { unfold cache_lookup, read_entry. subst w2. simpl.
      rewrite lookup_insert_eq. unfold live. simpl.
      by rewrite (proj2 (Z.ltb_ge _ _) Ht). }
    by rewrite (new_events_app _ w2 [ESelect "users"; ESelect "students"])
      by (by rewrite get_unique_courses_miss).
Qed.

Lemma courses_read_through_witness :
  (get_unique_courses admin_cookie (campus ∅)).1
  = Ok (py_strs ["Algebra"; "Optics"])
  ∧ (get_unique_courses admin_cookie
       (set_clock 1700000299000000
          (get_unique_courses admin_cookie (campus ∅)).2)).1
    = Ok (py_strs ["Algebra"; "Optics"]).
Proof.
  destruct (courses_read_through (campus ∅) admin_cookie) as (H1 & _ & H3).
  - by exists (admin_with (Some 1700086400)).
  - reflexivity.
  - split; [exact H1|].
    destruct (H3 1700000299000000) as [Hin _].
    + by exists (admin_with (Some 1700086400)).
    + destruct Hin as [-> _]; [reflexivity|exact H1].
Defined.

Lemma derived_key_unmatched endpoint_prefix key :
  endpoint_prefix ∈ ["students"; "student"; "faculties"; "courses"] →
  (key = unique_courses_key
   ∨ (∃ f, key = faculty_students_key f)
   ∨ (∃ f, key = faculty_avg_grade_key f)) →
  glob_match ("cache:" +:+ endpoint_prefix +:+ ":*") key = false.
Proof.
  intros Hp Hkey.
  assert (Hplain : plain endpoint_prefix = true).
  { repeat (apply elem_of_cons in Hp as [->|Hp]; [done|]).
    by apply not_elem_of_nil in Hp. }
  rewrite invalidate_pattern_prefix by done.
  assert (Hk : ∃ t, key = "cache:unique_courses" +:+ t
                    ∨ key = "cache:faculty_students:" +:+ t
                    ∨ key = "cache:faculty_avg_grade:" +:+ t).
  { destruct Hkey as [->|[[f ->]|[f ->]]].
    - exists "". by left.
    - exists ("faculty=" +:+ f). right; left.
      unfold faculty_students_key. rewrite get_cache_key_unfold.
      unfold key_part. simpl. by rewrite !str_app_assoc, str_app_nil_r.
    - exists ("faculty=" +:+ f). right; right.
      unfold faculty_avg_grade_key. rewrite get_cache_key_unfold.
      unfold key_part. simpl. by rewrite !str_app_assoc, str_app_nil_r. }
  destruct Hk as [t Hk].
  repeat (apply elem_of_cons in Hp as [->|Hp];
          [by destruct Hk as [->|[->| ->]]|]).
  by apply not_elem_of_nil in Hp.
Qed.

Lemma read_entry_purged_module endpoint_prefix now r key :
  endpoint_prefix ∈ ["students"; "student"; "faculties"; "courses"] →
  (key = unique_courses_key
   ∨ (∃ f, key = faculty_students_key f)
   ∨ (∃ f, key = faculty_avg_grade_key f)) →
  read_entry now (purged ("cache:" +:+ endpoint_prefix +:+ ":*") now r) key
  = read_entry now r key.
Proof.
  intros Hp Hkey. rewrite read_entry_purged.
  by rewrite (derived_key_unmatched endpoint_prefix key).
Qed.

(** X18. The cached answers of GET /courses/, of
    GET /faculties/{f}/students and of GET /faculties/{f}/average_grade
    are out of reach of every invalidation of the module: none of the
    prefixes students, student, faculties, courses matches their keys. So
    they read the same after POST /students/ and after both background
    tasks, and a course list cached before a student was created is still
    the answer of GET /courses/ after it. *)
Theorem derived_caches_never_invalidated w key :
  (key = unique_courses_key
   ∨ (∃ f, key = faculty_students_key f)
   ∨ (∃ f, key = faculty_avg_grade_key f)) →
  (∀ endpoint_prefix,
     endpoint_prefix ∈ ["students"; "student"; "faculties"; "courses"] →
     cache_lookup (invalidate_cache endpoint_prefix w).2 key = cache_lookup w key)
  ∧ (∀ cookie student,
       authenticated cookie w →
       cache_lookup (create_student student cookie w).2 key = cache_lookup w key)
  ∧ (∀ file_path,
       cache_lookup (background_load_csv file_path w).2 key = cache_lookup w key)
  ∧ (∀ student_ids,
       cache_lookup (background_delete_students student_ids w).2 key
       = cache_lookup w key)
  ∧ (∀ cookie student doc,
       key = unique_courses_key → authenticated cookie w →
       cache_lookup w key = Some doc → doc ≠ JNull →
       (get_unique_courses cookie (create_student student cookie w).2).1
       = Ok (PJson doc)).
Proof.
  intros Hkey.
  assert (Hcreate : ∀ cookie student, authenticated cookie w →
    cache_lookup (create_student student cookie w).2 key = cache_lookup w key).
  { intros cookie sc Hauth. rewrite create_student_run by done.
    unfold cache_lookup. simpl.
    rewrite (read_entry_purged_module "faculties") by (done || by_decide).
    by rewrite (read_entry_purged_module "students") by (done || by_decide). }
  split; [|split; [|split; [|split]]].
  - intros p Hp. rewrite invalidate_cache_run. unfold cache_lookup. simpl.
    by apply read_entry_purged_module.
  - exact Hcreate.
  - intros path.
    destruct (StudentDatabase.load_from_csv path w).1 as [[]|e] eqn:Hm.
    + pose proof (load_from_csv_frame path w) as (Hr & Hc & _).
      rewrite background_load_ok by done. unfold cache_lookup. simpl.
      rewrite Hc.
      rewrite (read_entry_purged_module "courses") by (done || by_decide).
      rewrite (read_entry_purged_module "faculties") by (done || by_decide).
      by rewrite (read_entry_purged_module "students") by (done || by_decide).
    + by erewrite background_load_fail.
  - intros ids.
    destruct (StudentDatabase.delete_students_by_ids ids w).1 as [[]|e] eqn:Hm.
    + pose proof (delete_by_ids_frame ids w) as (Hr & Hc & _).
      rewrite background_delete_ok by done. unfold cache_lookup. simpl.
      rewrite Hc.
      rewrite (read_entry_purged_module "faculties") by (done || by_decide).
      by rewrite (read_entry_purged_module "students") by (done || by_decide).
    + by erewrite background_delete_fail.
  - intros cookie sc doc -> Hauth Hhit Hdoc.
    erewrite get_unique_courses_hit; [done| | |exact Hdoc].
    + apply (authenticated_indep cookie w); [| | |done];
        by rewrite create_student_run.
    + by rewrite Hcreate.
Qed.

Lemma derived_caches_never_invalidated_witness :
  cache_lookup
    (background_load_csv "students.csv"
       (campus (<["cache:unique_courses"
                  := mkCentry (JList [JStr "Algebra"]) 1700000200000000]> ∅))).2
    "cache:unique_courses"
  = Some (JList [JStr "Algebra"]).
Proof.
  rewrite (proj1 (proj2 (proj2
    (derived_caches_never_invalidated
       (campus (<["cache:unique_courses"
                  := mkCentry (JList [JStr "Algebra"]) 1700000200000000]> ∅))
       "cache:unique_courses" (or_introl eq_refl)))) "students.csv").
  reflexivity.
Defined.

(** ** Cache keys and cache entries *)

Lemma pretty_N_go_numeral x s :
  numeral s = true → numeral (pretty_N_go x s) = true.
Proof.
  revert s. induction (N.lt_wf_0 x) as [x _ IH]. intros s Hs.
  destruct (decide (x = 0)%N) as [->|Hx]; [by rewrite pretty_N_go_0|].
  rewrite pretty_N_go_step by lia. apply IH.
  - apply N.div_lt; lia.
  - simpl. rewrite Hs, andb_true_r. unfold pretty_N_char.
    by repeat case_match.
Qed.

Lemma pretty_Z_numeral (z : Z) : numeral (pretty z) = true.
Proof.
  assert (HN : ∀ n : N, numeral (pretty n) = true).
  { intros n. unfold pretty, pretty_N. case_decide; [done|].
    by apply pretty_N_go_numeral. }
  destruct z as [|p|p]; [done|apply HN|].
  change (pretty (Z.neg p)) with ("-" +:+ pretty (N.pos p)).
  rewrite str_app_cons. simpl. apply HN.
Qed.

(** A numeral ends where the first colon stands. *)
Lemma numeral_colon_split a a' r r' :
  numeral a = true → numeral a' = true →
  a +:+ String ":" r = a' +:+ String ":" r' → a = a' ∧ r = r'.
Proof.
  revert a'. induction a as [|c a IH]; intros [|c' a'] Ha Ha' Heq.
  - by injection Heq as ->.
  - rewrite str_app_cons in Heq. injection Heq as <- _.
    simpl in Ha'. done.
  - rewrite str_app_cons in Heq. injection Heq as -> _.
    simpl in Ha. done.
  - rewrite !str_app_cons in Heq. injection Heq as -> Heq.
    simpl in Ha, Ha'. apply andb_true_iff in Ha as [_ Ha].
    apply andb_true_iff in Ha' as [_ Ha'].
    destruct (IH a' Ha Ha' Heq) as [-> ->]. done.
Qed.

(** X19. Cache keys do not collide: the key of GET /students/{id} tells
    the id, the key of GET /students/ tells skip and limit, and no key of
    the one route is a key of the other. *)
Theorem cache_keys_do_not_collide :
  (∀ a b, student_key a = student_key b → a = b)
  ∧ (∀ skip limit skip' limit',
       students_key skip limit = students_key skip' limit' →
       skip = skip' ∧ limit = limit')
  ∧ (∀ a skip limit, student_key a ≠ students_key skip limit).
Proof.
  split; [|split].
  - intros a b. rewrite !student_key_eq. intros Heq.
    apply (inj (String.app _)) in Heq. apply (inj (String.app _)) in Heq.
    by apply (inj pretty) in Heq.
  - intros s l s' l'. rewrite !students_key_eq. intros Heq.
    apply (inj (String.app _)) in Heq. apply (inj (String.app _)) in Heq.
    change (":skip=" +:+ pretty s) with (String ":" ("skip=" +:+ pretty s)) in Heq.
    change (":skip=" +:+ pretty s') with (String ":" ("skip=" +:+ pretty s')) in Heq.
    apply numeral_colon_split in Heq as [Hl Hs]; [|apply pretty_Z_numeral..].
    apply (inj pretty) in Hl. apply (inj (String.app _)) in Hs.
    apply (inj pretty) in Hs. done.
  - intros a s l. rewrite student_key_eq, students_key_eq. discriminate.
Qed.

Lemma json_dumps_student s :
  json_dumps (PStudent s)
  = Raise (TypeError "Object of type Student is not JSON serializable").
Proof. done. Qed.

(** X20. What [set_cached_response] stores under a key with a positive
    lifetime, [get_cached_response] returns for that key at every moment
    before the deadline, and None ([JNull]) from the deadline on; the
    other keys read as before. A [Student] instance, or a list holding
    one, is not stored at all: the call raises and the world is as it
    was. *)
Theorem cached_response_round_trip w cache_key expire :
  0 < expire →
  (∀ doc,
     let r := set_cached_response cache_key (PJson doc) expire w in
     r.1 = Ok tt
     ∧ (∀ t, (get_cached_response cache_key (set_clock t r.2)).1
             = Ok (if t <? clock w + expire * second then doc else JNull))
     ∧ (∀ t key, key ≠ cache_key →
          (get_cached_response key (set_clock t r.2)).1
          = (get_cached_response key (set_clock t w)).1))
  ∧ (∀ s, set_cached_response cache_key (PStudent s) expire w
          = (Raise (TypeError "Object of type Student is not JSON serializable"),
             w))
  ∧ (∀ l, l ≠ [] →
       set_cached_response cache_key (PStudents l) expire w
       = (Raise (TypeError "Object of type Student is not JSON serializable"),
          w)).
Proof.
  intros Hexp. split; [|split].
  - intros doc r. subst r. split; [done|]. split.
    + intros t. rewrite get_cached_response_run. simpl.
      unfold cache_lookup, read_entry. simpl. rewrite lookup_insert_eq.
      unfold live. simpl. by destruct (t <? clock w + expire * second).
    + intros t key Hne. rewrite !get_cached_response_run. simpl.
      unfold cache_lookup, read_entry. simpl. by rewrite lookup_insert_ne.
  - done.
  - intros l Hl. unfold set_cached_response. by rewrite json_dumps_rows.
Qed.

Lemma cached_response_round_trip_witness :
  (get_cached_response "k"
     (set_clock 299999999
        (set_cached_response "k" (PJson (JInt 7)) 300 (session_world None 0)).2)).1
  = Ok (JInt 7).
Proof.
  destruct (cached_response_round_trip (session_world None 0) "k" 300)
    as [H _]; [lia|].
  destruct (H (JInt 7)) as (_ & Hget & _).
  rewrite (Hget 299999999). reflexivity.
Defined.

Lemma purged_idemp pattern now r :
  purged pattern now (purged pattern now r) = purged pattern now r.
Proof.
  apply map_eq. intros k. rewrite !lookup_purged.
  destruct (r !! k) as [e|]; [|done].
  by destruct (live now e && glob_match pattern k) eqn:Hb; rewrite ?Hb.
Qed.

Lemma purged_comm p q now r :
  purged p now (purged q now r) = purged q now (purged p now r).
Proof.
  apply map_eq. intros k. rewrite !lookup_purged.
  destruct (r !! k) as [e|]; [|done].
  destruct (live now e && glob_match p k) eqn:Hp,
           (live now e && glob_match q k) eqn:Hq; by rewrite ?Hp, ?Hq.
Qed.

(** X21. While Redis answers, [invalidate_cache] changes the keyspace
    only: students, users, queue and clock are as before. Calling it twice
    with one prefix leaves the keyspace of the first call, and two calls
    with different prefixes give the same keyspace in either order. *)
Theorem invalidate_cache_idempotent w p q :
  students (invalidate_cache p w).2 = students w
  ∧ users (invalidate_cache p w).2 = users w
  ∧ tasks (invalidate_cache p w).2 = tasks w
  ∧ clock (invalidate_cache p w).2 = clock w
  ∧ redis (invalidate_cache p (invalidate_cache p w).2).2
    = redis (invalidate_cache p w).2
  ∧ redis (invalidate_cache p (invalidate_cache q w).2).2
    = redis (invalidate_cache q (invalidate_cache p w).2).2.
Proof.
  rewrite !invalidate_cache_run. simpl.
  do 4 (split; [done|]). split; [apply purged_idemp|apply purged_comm].
Qed.

(** ** Queries and pages *)

Lemma store_by_faculty_run faculty_name w :
  db_up w = true →
  StudentDatabase.get_students_by_faculty faculty_name w
  = (Ok (filter (λ s, faculty s = faculty_name) (students w)),
     set_trace (trace w ++ [ESelect "students"]) w).
Proof.
  intros Hdb. unfold StudentDatabase.get_students_by_faculty, select, db_access,
    emit, modify, gets, mbind, M_bind, mret, M_ret.
  by rewrite Hdb.
Qed.

(** X22. GET /faculties/{faculty}/students on a cold key: for a faculty
    without students the answer is the empty list, which is cached; for a
    faculty with students the table is read and the request then fails in
    [json.dumps] with TypeError, nothing being cached. *)
Theorem faculty_students_endpoint w cookie faculty_name :
  authenticated cookie w →
  cache_lookup w (faculty_students_key faculty_name) = None →
  let rows := filter (λ s, faculty s = faculty_name) (students w) in
  let r := get_faculty_students faculty_name cookie w in
  (rows = [] →
     r.1 = Ok (PStudents [])
     ∧ cache_lookup r.2 (faculty_students_key faculty_name) = Some (JList []))
  ∧ (rows ≠ [] →
     r.1 = Raise (TypeError "Object of type Student is not JSON serializable")
     ∧ redis r.2 = redis w
     ∧ selects (new_events (get_faculty_students faculty_name cookie) w)
       = ["users"; "students"]).
Proof.
  intros [u Hu] Hmiss rows r. subst rows r.
  destruct (get_current_user_ok _ _ _ Hu) as [Hrun Hdb].
  assert (Hstep : get_faculty_students faculty_name cookie w
    = (set_cached_response (faculty_students_key faculty_name)
         (PStudents (filter (λ s, faculty s = faculty_name) (students w)))
         default_expire
       ≫= λ _, mret (PStudents
                        (filter (λ s, faculty s = faculty_name) (students w))))
        (set_trace (trace w ++ [ESelect "users"; ESelect "students"]) w)).
  { unfold get_faculty_students.
    erewrite bind_ok by exact Hrun.
    erewrite bind_ok by apply get_cached_response_run.
    change (cache_lookup (set_trace _ w)) with (cache_lookup w).
    rewrite Hmiss. change (default JNull None) with JNull. cbv beta iota.
    erewrite bind_ok by (by apply store_by_faculty_run).
    simpl students. destruct w; simpl. by rewrite <- app_assoc. }
  split.
  - intros Hnil. rewrite Hstep, Hnil. simpl. split; [done|].
    unfold cache_lookup, read_entry. simpl. rewrite lookup_insert_eq.
    unfold live, default_expire, second. simpl.
    by rewrite (proj2 (Z.ltb_lt _ _)) by lia.
  - intros Hrows.
    assert (Hr : get_faculty_students faculty_name cookie w
      = (Raise (TypeError "Object of type Student is not JSON serializable"),
         set_trace (trace w ++ [ESelect "users"; ESelect "students"]) w)).
    { rewrite Hstep. unfold set_cached_response.
      rewrite json_dumps_rows by done. done. }
    rewrite (new_events_app _ w [ESelect "users"; ESelect "students"])
      by (by rewrite Hr).
    by rewrite Hr.
Qed.

Lemma faculty_students_endpoint_witness :
  (get_faculty_students "History" admin_cookie (campus ∅)).1 = Ok (PStudents [])
  ∧ (get_faculty_students "Math" admin_cookie (campus ∅)).1
    = Raise (TypeError "Object of type Student is not JSON serializable").
Proof.
  split.
  - apply (faculty_students_endpoint (campus ∅) admin_cookie "History");
      [by exists (admin_with (Some 1700086400))|reflexivity|reflexivity].
  - apply (faculty_students_endpoint (campus ∅) admin_cookie "Math");
      [by exists (admin_with (Some 1700086400))|reflexivity|discriminate].
Defined.

(** X23. The page [students[skip : skip + limit]]: for skip and limit not
    negative it is the [limit] rows after the first [skip], so at most
    [limit] rows; a skip at or past the end gives the empty page, a zero
    limit too, and the defaults 0 and 100 give the whole list when it has
    at most 100 rows. *)
Theorem page_of_students {A} (l : list A) skip limit :
  0 ≤ skip → 0 ≤ limit →
  py_slice l skip (skip + limit)
  = take (Z.to_nat limit) (drop (Z.to_nat skip) l)
  ∧ (length (py_slice l skip (skip + limit)) ≤ Z.to_nat limit)%nat
  ∧ (Z.of_nat (length l) ≤ skip → py_slice l skip (skip + limit) = [])
  ∧ (limit = 0 → py_slice l skip (skip + limit) = [])
  ∧ ((length l ≤ 100)%nat → py_slice l 0 (0 + 100) = l).
Proof.
  intros Hskip Hlimit.
  assert (Heq : py_slice l skip (skip + limit)
                = take (Z.to_nat limit) (drop (Z.to_nat skip) l)).
  { unfold py_slice, adjust_index.
    rewrite (proj2 (Z.ltb_ge skip 0)) by lia.
    rewrite (proj2 (Z.ltb_ge (skip + limit) 0)) by lia.
    destruct (decide (skip ≤ Z.of_nat (length l))) as [Hin|Hout].
    - rewrite (Z.min_l skip) by lia.
      destruct (decide (skip + limit ≤ Z.of_nat (length l))) as [Hin2|Hout2].
      + rewrite Z.min_l by lia. f_equal. lia.
      + rewrite Z.min_r by lia.
        rewrite !take_ge; [done|rewrite length_drop; lia..].
    - rewrite !Z.min_r by lia. rewrite Z.sub_diag.
      rewrite (drop_ge l (Z.to_nat skip)) by lia.
      rewrite take_nil. by destruct (drop _ l). }
  split; [done|]. split; [|split; [|split]].
  - rewrite Heq, length_take. lia.
  - intros Hend. rewrite Heq, drop_ge by lia. apply take_nil.
  - intros ->. by rewrite Heq.
  - intros Hlen. unfold py_slice, adjust_index.
    change (0 <? 0) with false. change (0 + 100 <? 0) with false.
    cbv beta iota. rewrite (Z.min_l 0), (Z.min_r (0 + 100)) by lia.
    rewrite Z.sub_0_r, Nat2Z.id. change (Z.to_nat 0) with 0%nat.
    rewrite drop_0. by rewrite take_ge.
Qed.

Lemma page_of_students_witness :
  py_slice [ivanov; petrov; sidorov] 1 (1 + 1) = [petrov].
Proof.
  rewrite (proj1 (page_of_students [ivanov; petrov; sidorov] 1 1
                    ltac:(lia) ltac:(lia))).
  reflexivity.
Defined.

Lemma elem_of_distinct l x : x ∈ distinct l ↔ x ∈ l.
Proof.
  induction l as [|y l IH]; [done|]. simpl.
  rewrite !elem_of_cons, list_elem_of_filter, IH.
  destruct (decide (x = y)); tauto.
Qed.

Lemma distinct_NoDup l : NoDup (distinct l).
Proof.
  induction l as [|y l IH]; simpl; [constructor|].
  apply NoDup_cons. split.
  - rewrite list_elem_of_filter. by intros [Hne _].
  - by apply NoDup_filter.
Qed.

Lemma filter_none {A} (P : A → Prop) `{!∀ x, Decision (P x)} (l : list A) :
  (∀ x, x ∈ l → ¬ P x) → filter P l = [].
Proof.
  intros Hall. induction l as [|x l IH]; [done|].
  rewrite filter_cons_False by (apply Hall; by left).
  apply IH. intros y Hy. apply Hall. by right.
Qed.

(** X24. [get_unique_courses] returns every course that some student has,
    each once, and nothing else; [get_students_by_faculty] returns the rows
    of that faculty and no other row, so none for a faculty that no
    student has. Both leave the table as it is. *)
Theorem analytic_queries w :
  db_up w = true →
  (∃ courses,
     (StudentDatabase.get_unique_courses w).1 = Ok courses
     ∧ NoDup courses
     ∧ (∀ c, c ∈ courses ↔ ∃ s, s ∈ students w ∧ course s = c)
     ∧ (students w = [] → courses = []))
  ∧ students (StudentDatabase.get_unique_courses w).2 = students w
  ∧ (∀ f, ∃ rows,
       (StudentDatabase.get_students_by_faculty f w).1 = Ok rows
       ∧ (∀ s, s ∈ rows ↔ s ∈ students w ∧ faculty s = f)
       ∧ rows `sublist_of` students w
       ∧ ((∀ s, s ∈ students w → faculty s ≠ f) → rows = [])
       ∧ students (StudentDatabase.get_students_by_faculty f w).2 = students w).
Proof.
  intros Hdb. rewrite store_unique_courses_run by done. simpl.
  split; [|split; [done|]].
  - eexists. split; [done|]. split; [apply distinct_NoDup|]. split.
    + intros c. rewrite elem_of_distinct, list_elem_of_fmap.
      split; intros (s & Hs1 & Hs2); exists s; by split.
    + by intros ->.
  - intros f. rewrite store_by_faculty_run by done. simpl.
    eexists. split; [done|]. split.
    + intros s. rewrite list_elem_of_filter. tauto.
    + split; [apply sublist_filter|]. split; [|done].
      intros Hnone. by apply filter_none.
Qed.

Lemma analytic_queries_witness :
  (StudentDatabase.get_unique_courses (campus ∅)).1 = Ok ["Algebra"; "Optics"]
  ∧ (StudentDatabase.get_students_by_faculty "Math" (campus ∅)).1
    = Ok [ivanov; petrov].
Proof.
  destruct (analytic_queries (campus ∅) eq_refl) as ((cs & Hc & _) & _ & _).
  split; [|reflexivity]. rewrite Hc. by injection Hc as <-.
Defined.

(** ** The session cookie, from login to logout *)

Lemma login_endpoint_run user token w :
  login_user user token w
  = match StudentDatabase.login_user user token w with
    | (Ok db_user, w') =>
        (Ok (message "Login successful",
             SetCookie "session_token" (default "" (session_token db_user)) 86400),
         w')
    | (Raise e, w') => (Raise e, w')
    end.
Proof. reflexivity. Qed.

Lemma replace_user_token_ids tok u' (l : list User) :
  (∀ r, r ∈ l → session_token r ≠ Some tok) →
  ∀ r, r ∈ replace_user u' l → session_token r = Some tok →
       user_id r = user_id u'.
Proof.
  intros Hfresh r Hr Htok. unfold replace_user in Hr.
  apply list_elem_of_fmap in Hr as (r0 & -> & Hr0).
  case_bool_decide as Hid; [done|]. by destruct (Hfresh r0 Hr0).
Qed.

Lemma find_holds_cleared tok u (l : list User) :
  (∀ r, r ∈ l → session_token r = Some tok → user_id r = user_id u) →
  find (holds_token tok) (replace_user (with_session u None None) l) = None.
Proof.
  intros Hids. apply find_None_Forall. intros x Hx. apply holds_token_false.
  unfold replace_user in Hx. apply list_elem_of_fmap in Hx as (r & -> & Hr).
  case_bool_decide as Hid; [done|]. intros Htok. apply Hid. simpl.
  by apply Hids.
Qed.

(** X25. POST /auth/login, when it succeeds with a non-empty token that no
    user held, answers "Login successful" and sets the cookie
    [session_token] to that token for 86400 seconds; a request with the
    cookie is then authenticated; POST /auth/logout with it answers
    "Logout successful" and deletes the cookie, after which the same cookie
    is refused with 401. No user is added or removed on the way. *)
Theorem session_cookie_life_cycle w user token body c :
  (login_user user token w).1 = Ok (body, c) →
  token ≠ "" →
  (∀ u, u ∈ users w → session_token u ≠ Some token) →
  0 ≤ clock w →
  let w1 := (login_user user token w).2 in
  let out := logout_user (Some token) w1 in
  body = message "Login successful"
  ∧ c = SetCookie "session_token" token 86400
  ∧ authenticated (Some token) w1
  ∧ out.1 = Ok (message "Logout successful", DeleteCookie "session_token")
  ∧ (get_current_user (Some token) out.2).1
    = Raise (HTTPException 401 "Invalid or expired session token")
  ∧ length (users out.2) = length (users w).
Proof.
  intros Hok Htok Hfresh Hclock.
  destruct (db_up w) eqn:Hdb; last first.
  { exfalso. revert Hok. rewrite login_endpoint_run.
    unfold StudentDatabase.login_user.
    by erewrite bind_raise by (by apply first_user_down). }
  revert Hok. cbv zeta. rewrite !login_endpoint_run, login_run by done.
  cbv zeta.
  destruct (find _ (users w)) as [u|] eqn:Hfind; [|done].
  destruct (verify_password _ _); [|done].
  simpl. intros [= <- <-].
  set (exp := login_expiry w).
  set (u1 := with_session u (Some token) (Some exp)).
  set (w1 := set_users _ _).
  assert (Hin : u ∈ users w) by (apply list_elem_of_In; by eapply find_some).
  assert (Hf : find (holds_token token) (users w1) = Some u1)
    by (by apply (find_holds_replace token u)).
  assert (Hlive : timestamp_gt (clock w1) exp = false).
  { destruct (login_expiry_cases w Hclock) as (d & Hd & Hexp).
    fold exp in Hexp. unfold second in Hexp.
    pose proof (Z.div_mod (clock w) 1000000 ltac:(lia)).
    pose proof (Z.mod_pos_bound (clock w) 1000000 ltac:(lia)).
    unfold timestamp_gt, second. subst w1. simpl. apply Z.ltb_ge. lia. }
  assert (Hauth : get_current_user (Some token) w1
                  = (Ok u1, set_trace (trace w1 ++ [ESelect "users"]) w1)).
  { unfold get_current_user, falsy.
    rewrite bool_decide_eq_false_2 by done.
    unfold mbind, M_bind. rewrite validate_run by done. cbv zeta.
    rewrite Hf. simpl token_expiry. simpl default.
    by rewrite Hlive, andb_false_r. }
  set (w2 := set_trace (trace w1 ++ [ESelect "users"]) w1) in Hauth.
  assert (Hout : logout_user (Some token) w1
                 = (Ok (message "Logout successful", DeleteCookie "session_token"),
                    set_users (replace_user (with_session u1 None None) (users w1))
                      (set_trace (trace w2 ++ [ESelect "users"]) w2))).
  { unfold logout_user. erewrite bind_ok by exact Hauth.
    unfold mbind at 1, M_bind at 1. simpl default.
    rewrite logout_run by done. cbv zeta.
    change (users w2) with (users w1). by rewrite Hf. }
  rewrite Hout. simpl fst. simpl snd.
  split; [done|]. split; [done|]. split; [by exists u1; rewrite Hauth|].
  split; [done|]. split.
  - unfold get_current_user, falsy.
    rewrite bool_decide_eq_false_2 by done.
    unfold mbind, M_bind. rewrite validate_run by done. cbv zeta.
    simpl users.
    rewrite (find_holds_cleared token u1); [done|].
    intros r Hr Hr'. subst w1. simpl in Hr.
    by apply (replace_user_token_ids token u1 (users w)).
  - simpl. unfold replace_user. by rewrite !length_fmap.
Qed.

Lemma session_cookie_life_cycle_witness :
  (login_user admin_login "fresh-token"
     (session_world None 1700000000000000)).1
  = Ok (message "Login successful",
        SetCookie "session_token" "fresh-token" 86400)
  ∧ (get_current_user (Some "fresh-token")
       (logout_user (Some "fresh-token")
          (login_user admin_login "fresh-token"
             (session_world None 1700000000000000)).2).2).1
    = Raise (HTTPException 401 "Invalid or expired session token").
Proof.
  split; [reflexivity|].
  apply (session_cookie_life_cycle (session_world None 1700000000000000)
           admin_login "fresh-token" (message "Login successful")
           (SetCookie "session_token" "fresh-token" 86400)).
  - reflexivity.
  - discriminate.
  - intros u Hu. apply list_elem_of_singleton in Hu as ->. discriminate.
  - simpl. lia.
Defined.

(** ** The start of the application *)

Lemma select_run table w :
  db_up w = true →
  select table w = (Ok tt, set_trace (trace w ++ [ESelect table]) w).
Proof.
  intros Hdb. unfold select, db_access, emit, modify, mbind, M_bind.
  by rewrite Hdb.
Qed.

Lemma startup_run w :
  db_up w = true →
  let r := startup_event w in
  users r.2 = (if bool_decide (users w = []) then [test_user []] else users w)
  ∧ db_up r.2 = true
  ∧ files r.2 = files w
  ∧ redis r.2 = redis w
  ∧ match students w, files w !! "students.csv" with
    | [], Some rows =>
        match students_of_rows rows with
        | Ok new =>
            if forallb (λ s, sqlite_integer (sc_grade s)) new
            then r.1 = Ok tt ∧ students r.2 = insert_rows [] new
            else r.1 = Raise OverflowError ∧ students r.2 = []
        | Raise e => r.1 = Raise e ∧ students r.2 = []
        end
    | _, _ => r.1 = Ok tt ∧ students r.2 = students w
    end.
Proof.
  intros Hdb. destruct w as [st us up rd ck tzone fs tk tr].
  simpl in Hdb. subst up. cbv zeta.
  unfold startup_event, StudentDatabase.load_from_csv, select, commit, print,
    emit, db_access, modify, gets, raise, mbind, M_bind, mret, M_ret.
  simpl.
  destruct us as [|u0 us]; simpl;
    (destruct st as [|s0 st];
     [destruct (fs !! "students.csv") as [rows|] eqn:Hfile|]); simpl.
  all: rewrite ?Hfile;
         try (destruct (students_of_rows rows) as [new|e];
              [destruct (forallb _ new)|]);
         simpl.
  all: by repeat split.
Qed.

(** X26. [startup_event] with the database up: the table of users is
    never empty afterwards; users that exist are left as they are; on an
    empty table the user admin is created and can log in with admin123.
    Students are imported from students.csv only into an empty table: a
    table with rows, or a missing file, leaves the students as they are;
    a file with a row that cannot be converted, or with a grade outside
    the INTEGER range of SQLite, makes the start fail with that exception
    and imports nothing, the admin staying created. A second start adds no
    user, and no student once the table has rows. *)
Theorem startup_seeds_store w :
  db_up w = true →
  let w' := (startup_event w).2 in
  users w' ≠ []
  ∧ (users w ≠ [] → users w' = users w)
  ∧ (users w = [] →
     ∀ token, ∃ u, (StudentDatabase.login_user admin_login token w').1 = Ok u
                   ∧ username u = "admin" ∧ session_token u = Some token)
  ∧ (students w ≠ [] ∨ files w !! "students.csv" = None →
     (startup_event w).1 = Ok tt ∧ students w' = students w)
  ∧ (∀ rows, students w = [] → files w !! "students.csv" = Some rows →
     match students_of_rows rows with
     | Ok new =>
         if forallb (λ s, sqlite_integer (sc_grade s)) new
         then (startup_event w).1 = Ok tt ∧ students w' = insert_rows [] new
         else (startup_event w).1 = Raise OverflowError ∧ students w' = []
              ∧ users w' ≠ []
     | Raise e => (startup_event w).1 = Raise e ∧ students w' = []
                  ∧ users w' ≠ []
     end)
  ∧ users (startup_event w').2 = users w'
  ∧ (students w' ≠ [] → students (startup_event w').2 = students w').
Proof.
  intros Hdb w'.
  destruct (startup_run w Hdb) as (Hu & Hdb' & Hfs & _ & Hst).
  fold w' in Hu, Hdb', Hfs, Hst.
  assert (Hne : users w' ≠ []).
  { rewrite Hu. case_bool_decide; [discriminate|done]. }
  split; [done|]. split; [|split; [|split; [|split; [|split]]]].
  - intros Hsome. rewrite Hu. by rewrite bool_decide_eq_false_2.
  - intros Hnil token. rewrite login_run by done. cbv zeta.
    rewrite Hu, bool_decide_eq_true_2 by done.
    eexists. split; [reflexivity|]. by split.
  - intros Hcase. destruct (students w) as [|s0 ss]; [|done].
    destruct Hcase as [Hcase|Hcase]; [done|]. by rewrite Hcase in Hst.
  - intros rows Hnil Hfile. rewrite Hnil, Hfile in Hst.
    destruct (students_of_rows rows) as [new|e]; [|by destruct Hst].
    destruct (forallb _ new); [done|]. by destruct Hst.
  - destruct (startup_run w' Hdb') as (Hu2 & _). rewrite Hu2.
    by rewrite bool_decide_eq_false_2.
  - intros Hrows. destruct (startup_run w' Hdb') as (_ & _ & _ & _ & Hst2).
    destruct (students w') as [|s0 ss]; [done|]. by destruct Hst2.
Qed.

Lemma startup_seeds_store_witness :
  db_up fresh_install = true
  ∧ username <$> users (startup_event fresh_install).2 = ["admin"]
  ∧ surname <$> students (startup_event fresh_install).2 = ["Orlov"].
Proof.
  split; [reflexivity|].
  destruct (startup_seeds_store fresh_install eq_refl)
    as (_ & _ & _ & _ & Himport & _).
  specialize (Himport students_csv eq_refl eq_refl).
  split; [reflexivity|]. simpl in Himport. destruct Himport as [_ ->].
  reflexivity.
Defined.

(** ** The read routes on a cold key *)

Lemma read_student_cold_witness :
  (read_student 1 admin_cookie (campus ∅)).1
  = Raise (TypeError "Object of type Student is not JSON serializable").
Proof.
  rewrite (read_student_cold 1 ivanov admin_cookie (campus ∅));
    [reflexivity| |reflexivity|reflexivity].
  by exists (admin_with (Some 1700086400)).
Defined.

Lemma read_all_students_empty_page_witness :
  (read_all_students 0 100 admin_cookie
     (session_world (Some 1700086400) 1700000000000000)).1
  = Ok (PStudents []).
Proof.
  apply (read_all_students_empty_page 0 100 admin_cookie
           (session_world (Some 1700086400) 1700000000000000));
    [|reflexivity|reflexivity].
  by exists (admin_with (Some 1700086400)).
Defined.

Lemma bulk_delete_then_not_found_witness :
  (read_student 1 admin_cookie
     (background_delete_students [1; 2; 3] (campus ∅)).2).1
  = Raise (HTTPException 404 "Student not found").
Proof.
  apply (bulk_delete_then_not_found (campus ∅) admin_cookie); [|reflexivity].
  by exists (admin_with (Some 1700086400)).
Defined.
